(** * A-One Bakeries maintenance scripts: a shallow embedding

    The repository is a collection of stand-alone Python scripts.  Every
    script opens one or more hardcoded files of a Dart project, edits the
    text with [str.replace], [re.sub] or a loop over the lines, writes the
    text back and prints status lines.

    The development has three layers:
    - Python text ([str]) as lists of code points, with the string
      operations the scripts call ([in], [str.replace], [str.find],
      [str.strip], [readlines], ...);
    - a small language of file effects ([prog]) with an interpreter [run]
      over a file system;
    - the scripts themselves, transcribed statement by statement, and the
      properties stated about them. *)

From Stdlib Require Import ZArith NArith Ascii DecimalString.
From stdpp Require Import base option list strings gmap.

Local Open Scope list_scope.

(** ** Python text *)

(** A Python [str] is a sequence of Unicode code points. *)
Abbreviation char := N (only parsing).
Abbreviation str := (list N) (only parsing).

(** [lit] reads an ASCII literal of the source as a [str]; the few
    non-ASCII characters of the scripts are written as code points. *)
Definition lit (s : string) : str :=
  map N_of_ascii (String.list_ascii_of_string s).

(** [s.startswith(p)] *)
Fixpoint starts_with (p s : str) : bool :=
  match p, s with
  | [], _ => true
  | _ :: _, [] => false
  | a :: p', b :: s' => N.eqb a b && starts_with p' s'
  end.

(** [s.endswith(p)] *)
Definition ends_with (p s : str) : bool :=
  starts_with (rev p) (rev s).

(** [sub in s] *)
Fixpoint contains (sub s : str) : bool :=
  starts_with sub s ||
  match s with
  | [] => false
  | _ :: t => contains sub t
  end.

(** [s.find(sub)]; Python answers -1 where this answers [None]. *)
Fixpoint find (sub s : str) : option nat :=
  if starts_with sub s then Some 0
  else match s with
       | [] => None
       | _ :: t => S <$> find sub t
       end.

(** The positions at which [sub] matches in [s], overlapping or not:
    the measure of "the locator matches once / more than once". *)
Fixpoint occurrences (sub s : str) : list nat :=
  (if starts_with sub s then [0] else []) ++
  match s with
  | [] => []
  | _ :: t => S <$> occurrences sub t
  end.

(** [s.replace(old, new, count)] for an empty [old]: [new] is inserted
    before every character and at the end, at most [count] times. *)
Fixpoint replace_empty (new : str) (count : option nat) (s : str) : str :=
  match count with
  | Some 0 => s
  | _ => new ++ match s with
                | [] => []
                | c :: t => c :: replace_empty new (pred <$> count) t
                end
  end.

(** [s.replace(old, new, count)] for a non-empty [old]: a left-to-right
    scan.  [skip] counts the characters of the occurrence just replaced
    that are still to be passed over, so occurrences never overlap. *)
Fixpoint replace_scan (old new : str) (count : option nat) (skip : nat)
    (s : str) : str :=
  match s with
  | [] => []
  | c :: t =>
      match skip with
      | S k => replace_scan old new count k t
      | O =>
          match count with
          | Some O => s
          | _ =>
              if starts_with old s
              then new ++ replace_scan old new (pred <$> count) (length old - 1) t
              else c :: replace_scan old new count 0 t
          end
      end
  end.

(** [s.replace(old, new, count)]; [count = None] is Python's default
    (every occurrence). *)
Definition replace_count (old new : str) (count : option nat) (s : str) : str :=
  match old with
  | [] => replace_empty new count s
  | _ :: _ => replace_scan old new count 0 s
  end.

(** [s.replace(old, new)] *)
Definition replace (old new s : str) : str := replace_count old new None s.

(** [str.isspace] on one character: the code points CPython's
    [Py_UNICODE_ISSPACE] accepts. *)
Definition is_space (c : char) : bool :=
  ((9 <=? c) && (c <=? 13) || (28 <=? c) && (c <=? 32) ||
   (c =? 133) || (c =? 160) || (c =? 5760) ||
   (8192 <=? c) && (c <=? 8202) ||
   (c =? 8232) || (c =? 8233) || (c =? 8239) || (c =? 8287) ||
   (c =? 12288))%N.

(** [s.lstrip()], [s.rstrip()], [s.strip()] *)
Fixpoint lstrip (s : str) : str :=
  match s with
  | [] => []
  | c :: t => if is_space c then lstrip t else s
  end.

Definition rstrip (s : str) : str := rev (lstrip (rev s)).

Definition strip (s : str) : str := rstrip (lstrip s).

(** [s.rstrip(chars)]: trailing characters that occur in [chars] go. *)
Fixpoint lstrip_chars (chars s : str) : str :=
  match s with
  | [] => []
  | c :: t => if existsb (N.eqb c) chars then lstrip_chars chars t else s
  end.

Definition rstrip_chars (chars s : str) : str :=
  rev (lstrip_chars chars (rev s)).

(** [sep.join(parts)] *)
Fixpoint join (sep : str) (parts : list str) : str :=
  match parts with
  | [] => []
  | [p] => p
  | p :: rest => p ++ sep ++ join sep rest
  end.

(** [lines.insert(i, x)] for [i >= 0]: [x] goes before position [i], or
    to the end when the list is shorter. *)
Definition list_insert {A} (i : nat) (x : A) (l : list A) : list A :=
  take i l ++ x :: drop i l.

(** [lines[j]] for an index the surrounding [range] keeps below
    [len(lines)]. *)
Definition line_at (lines : list str) (j : nat) : str :=
  default [] (lines !! j).

(** [range(a, b)] for [a >= 0]. *)
Definition range_nat (a b : nat) : list nat := seq a (b - a).

(** The first index of a [range] that passes a test, as a
    [for ... if ...: ...; break] loop finds it. *)
Fixpoint first_in_range (test : nat → bool) (range : list nat) : option nat :=
  match range with
  | [] => None
  | i :: range' => if test i then Some i else first_in_range test range'
  end.

(** [f.readlines()] on the text [s]: the lines, each with its newline. *)
Fixpoint readlines_from (cur : str) (s : str) : list str :=
  match s with
  | [] => match cur with [] => [] | _ => [rev cur] end
  | c :: t =>
      if N.eqb c 10 then rev (c :: cur) :: readlines_from [] t
      else readlines_from (c :: cur) t
  end.

Definition readlines (s : str) : list str := readlines_from [] s.

(** What [f.writelines(lines)] writes. *)
Definition writelines (lines : list str) : str := concat lines.

(** [str(n)] for an integer. *)
Definition str_of_int (z : Z) : str :=
  lit (NilZero.string_of_int (Z.to_int z)).

(** [==] on text. *)
Definition str_eqb (a b : str) : bool := bool_decide (a = b).


(** ** File effects *)

(** How a run of a script ends: it falls off the end of the file, calls
    [exit(code)], or dies of an exception nobody catches. *)
Inductive termination :=
  | Completed
  | Exited (code : Z)
  | Raised (exn : string).

(** The exit status the calling environment sees. *)
Definition exit_status (t : termination) : Z :=
  match t with
  | Completed => 0
  | Exited code => code
  | Raised _ => 1
  end.

(** A script, as the effects it performs:
    - [ReadText path k]: [with open(path, 'r', encoding='utf-8') as f:
      content = f.read()], then [k content];
    - [WriteText path text k]: [with open(path, 'w', encoding='utf-8') as
      f: f.write(text)], then [k];
    - [Print text k]: [print(text)], then [k].
    The text of a file is the text Python hands to the script; a text
    written and read again in the same run is taken to come back as it was
    written (no script here reads a file it has written). *)
Inductive prog :=
  | Halt (t : termination)
  | ReadText (path : string) (k : str → prog)
  | WriteText (path : string) (text : str) (k : prog)
  | Print (text : str) (k : prog).

Record outcome := Outcome {
  writes : list (string * str);
  prints : list str;
  status : termination;
  files : gmap string str
}.

(** [open] of a missing file raises [FileNotFoundError]. *)
Fixpoint run (p : prog) (fs : gmap string str) : outcome :=
  match p with
  | Halt t => Outcome [] [] t fs
  | ReadText path k =>
      match fs !! path with
      | Some content => run (k content) fs
      | None => Outcome [] [] (Raised "FileNotFoundError") fs
      end
  | WriteText path text k =>
      let o := run k (<[path := text]> fs) in
      Outcome ((path, text) :: writes o) (prints o) (status o) (files o)
  | Print text k =>
      let o := run k fs in
      Outcome (writes o) (text :: prints o) (status o) (files o)
  end.

(** What an observer of a run sees: the writes, the printed lines and the
    way the run ended. *)
Definition behaviour (o : outcome) : list (string * str) * list str * termination :=
  (writes o, prints o, status o).

(** [print(a, b)] *)
Definition print2 (a b : str) (k : prog) : prog := Print (a ++ lit " " ++ b) k.

(** ** The scripts *)

(** *** add_expense_notes_coins.py *)
Module add_expense_notes_coins.

Definition file_path : string := "lib/database/database_helper.dart".

Definition old_line : str := lit "        amount REAL NOT NULL,".

Definition new_lines : str := lit "        notes REAL NOT NULL,
        coins REAL NOT NULL,
        amount REAL NOT NULL,".

(** [content = content.replace(old_line, new_lines, 1)] *)
Definition patch (content : str) : str :=
  replace_count old_line new_lines (Some 1) content.

Definition main : prog :=
  ReadText file_path (λ content,
    let content := patch content in
    WriteText file_path content
      (Print ([9989%N] ++ lit " Added notes and coins fields to expenses table!") (Halt Completed))).

End add_expense_notes_coins.

(** *** fix_db_path_production.py *)
Module fix_db_path_production.

Definition file_path : string := "lib/database/database_helper.dart".

Definition old_text : str := lit "    // Get the database file path
    String path = join(await getDatabasesPath(), 'a_one_bakeries.db');".

Definition new_text : str := lit "    // CRITICAL FIX: Use getApplicationDocumentsDirectory() for writable location
    // This ensures database is writable in both debug and release builds
    final directory = await getApplicationDocumentsDirectory();
    String path = join(directory.path, 'a_one_bakeries.db');".

Definition main : prog :=
  ReadText file_path (λ content,
    if contains old_text content then
      let content := replace old_text new_text content in
      WriteText file_path content
        (Print ([9989%N] ++ lit " Fixed database path to use writable directory!") (Halt Completed))
    else
      Print ([10060%N] ++ lit " Could not find target location")
        (print2 (lit "Looking for:") (take 50 old_text) (Halt Completed))).

End fix_db_path_production.

(** *** fix_vehicle_lookup.py *)
Module fix_vehicle_lookup.

Definition file_path : string :=
  "lib/screens/driver_vehicle_orders_report_screen.dart".

Definition old_code : str := lit "            // Get linked vehicle
            if (orders.first.vehicleId != null) {
              vehicle = await _dbHelper.getVehicle(orders.first.vehicleId!);
            }".

Definition new_code : str := lit "            // Vehicle info would be loaded here if needed
            // For now, just using driver name".

Definition patch (content : str) : str := replace old_code new_code content.

Definition main : prog :=
  ReadText file_path (λ content,
    let content := patch content in
    WriteText file_path content
      (Print ([10003%N] ++ lit " Fixed driver_vehicle_orders_report_screen.dart") (Halt Completed))).

End fix_vehicle_lookup.

(** *** make_notes_optional.py *)
Module make_notes_optional.

Definition file_path : string := "lib/widgets/add_expense_dialog.dart".

Definition old_label : str := lit "labelText: 'Notes (Paper Money)',".
Definition new_label : str := lit "labelText: 'Notes (Paper Money) - Optional',".

Definition old_validation : str := lit "                validator: (value) {
                  if (value == null || value.trim().isEmpty) {
                    return 'Please enter notes amount';
                  }
                  final amount = double.tryParse(value.trim());
                  if (amount == null || amount < 0) {
                    return 'Please enter valid amount';
                  }
                  return null;
                },".

Definition new_validation : str := lit "                validator: (value) {
                  if (value != null && value.trim().isNotEmpty) {
                    final amount = double.tryParse(value.trim());
                    if (amount == null || amount < 0) {
                      return 'Please enter valid amount';
                    }
                  }
                  // Check if at least notes or coins has a value
                  final notes = double.tryParse(value?.trim() ?? '0') ?? 0.0;
                  final coins = _calculateCoins();
                  if (notes == 0 && coins == 0) {
                    return 'Enter notes or coins';
                  }
                  return null;
                },".

Definition old_parse : str := lit "notes: double.parse(_notesController.text.trim()),".
Definition new_parse : str := lit "notes: double.tryParse(_notesController.text.trim()) ?? 0.0,".

Definition old_preview : str := lit "              // Total Preview
              if (_notesController.text.isNotEmpty &&
                  double.tryParse(_notesController.text) != null)".

Definition new_preview : str := lit "              // Total Preview
              if (total > 0)".

(** The four [content = content.replace(...)] statements, in order. *)
Definition patch (content : str) : str :=
  let content := replace old_label new_label content in
  let content := replace old_validation new_validation content in
  let content := replace old_parse new_parse content in
  let content := replace old_preview new_preview content in
  content.

Definition main : prog :=
  ReadText file_path (λ content,
    let content := patch content in
    WriteText file_path content
      (Print ([9989%N] ++ lit " Made notes field optional in expense dialog!") (Halt Completed))).

End make_notes_optional.

(** *** add_km_db_methods.py *)
Module add_km_db_methods.

Definition file_path : string := "lib/database/database_helper.dart".

Definition guard : str := lit "km_record_model.dart".

Definition old_import : str := lit "import 'package:a_one_bakeries_app/models/supplier_model.dart';".

Definition new_imports : str := lit "import 'package:a_one_bakeries_app/models/supplier_model.dart';
import 'package:a_one_bakeries_app/models/km_record_model.dart';
import 'package:a_one_bakeries_app/models/service_record_model.dart';".

Definition km_methods : str := lit "
  // ============================================================================
  // KM TRACKING OPERATIONS
  // ============================================================================

  /// Add a new KM record and update vehicle's current KM
  Future<int> addKmRecord(KmRecord record) async {
    final db = await database;
    
    int recordId = 0;
    await db.transaction((txn) async {
      // Insert the KM record
      recordId = await txn.insert('km_records', record.toMap());
      
      // Update vehicle's current KM
      await txn.update(
        'vehicles',
        {
          'currentKm': record.kmReading,
          'updatedAt': DateTime.now().toIso8601String(),
        },
        where: 'id = ?',
        whereArgs: [record.vehicleId],
      );
    });
    
    return recordId;
  }

  /// Get all KM records for a vehicle
  Future<List<KmRecord>> getVehicleKmRecords(int vehicleId) async {
    final db = await database;
    final maps = await db.query(
      'km_records',
      where: 'vehicleId = ?',
      whereArgs: [vehicleId],
      orderBy: 'recordedDate DESC',
    );
    return List.generate(maps.length, (i) => KmRecord.fromMap(maps[i]));
  }

  /// Get latest KM record for a vehicle
  Future<KmRecord?> getLatestKmRecord(int vehicleId) async {
    final db = await database;
    final maps = await db.query(
      'km_records',
      where: 'vehicleId = ?',
      whereArgs: [vehicleId],
      orderBy: 'recordedDate DESC',
      limit: 1,
    );
    if (maps.isEmpty) return null;
    return KmRecord.fromMap(maps.first);
  }

  /// Update vehicle's current KM
  Future<int> updateVehicleKm(int vehicleId, int newKm) async {
    final db = await database;
    return await db.update(
      'vehicles',
      {
        'currentKm': newKm,
        'updatedAt': DateTime.now().toIso8601String(),
      },
      where: 'id = ?',
      whereArgs: [vehicleId],
    );
  }

  // ============================================================================
  // SERVICE RECORD OPERATIONS
  // ============================================================================

  /// Add a service record and update vehicle's service KM
  Future<int> addServiceRecord(ServiceRecord record) async {
    final db = await database;
    
    int recordId = 0;
    await db.transaction((txn) async {
      // Insert the service record
      recordId = await txn.insert('service_records', record.toMap());
      
      // Get vehicle's service interval
      final vehicleMaps = await txn.query(
        'vehicles',
        where: 'id = ?',
        whereArgs: [record.vehicleId],
      );
      
      if (vehicleMaps.isNotEmpty) {
        final serviceInterval = vehicleMaps.first['serviceIntervalKm'] as int? ?? 10000;
        final nextServiceKm = record.serviceKm + serviceInterval;
        
        // Update vehicle's service KM
        await txn.update(
          'vehicles',
          {
            'lastServiceKm': record.serviceKm,
            'nextServiceKm': nextServiceKm,
            'updatedAt': DateTime.now().toIso8601String(),
          },
          where: 'id = ?',
          whereArgs: [record.vehicleId],
        );
      }
    });
    
    return recordId;
  }

  /// Get all service records for a vehicle
  Future<List<ServiceRecord>> getVehicleServiceRecords(int vehicleId) async {
    final db = await database;
    final maps = await db.query(
      'service_records',
      where: 'vehicleId = ?',
      whereArgs: [vehicleId],
      orderBy: 'serviceDate DESC',
    );
    return List.generate(maps.length, (i) => ServiceRecord.fromMap(maps[i]));
  }

  /// Update vehicle's service interval
  Future<int> updateVehicleServiceInterval(int vehicleId, int intervalKm) async {
    final db = await database;
    
    // Get current lastServiceKm
    final maps = await db.query(
      'vehicles',
      where: 'id = ?',
      whereArgs: [vehicleId],
    );
    
    if (maps.isEmpty) return 0;
    
    final lastServiceKm = maps.first['lastServiceKm'] as int? ?? 0;
    final nextServiceKm = lastServiceKm + intervalKm;
    
    return await db.update(
      'vehicles',
      {
        'serviceIntervalKm': intervalKm,
        'nextServiceKm': nextServiceKm,
        'updatedAt': DateTime.now().toIso8601String(),
      },
      where: 'id = ?',
      whereArgs: [vehicleId],
    );
  }

  /// Get vehicles due for service
  Future<List<Vehicle>> getVehiclesDueForService() async {
    final db = await database;
    final maps = await db.rawQuery(
      'SELECT * FROM vehicles WHERE currentKm >= nextServiceKm ORDER BY currentKm DESC'
    );
    return List.generate(maps.length, (i) => Vehicle.fromMap(maps[i]));
  }

  /// Get vehicles approaching service (within threshold KM)
  Future<List<Vehicle>> getVehiclesApproachingService(int thresholdKm) async {
    final db = await database;
    final maps = await db.rawQuery(
      'SELECT * FROM vehicles WHERE (nextServiceKm - currentKm) <= ? AND (nextServiceKm - currentKm) > 0 ORDER BY (nextServiceKm - currentKm) ASC',
      [thresholdKm]
    );
    return List.generate(maps.length, (i) => Vehicle.fromMap(maps[i]));
  }

  /// Get KM records within date range
  Future<List<KmRecord>> getKmRecordsByDateRange(DateTime startDate, DateTime endDate) async {
    final db = await database;
    final maps = await db.query(
      'km_records',
      where: 'recordedDate BETWEEN ? AND ?',
      whereArgs: [startDate.toIso8601String(), endDate.toIso8601String()],
      orderBy: 'recordedDate DESC',
    );
    return List.generate(maps.length, (i) => KmRecord.fromMap(maps[i]));
  }

  /// Get service records within date range
  Future<List<ServiceRecord>> getServiceRecordsByDateRange(DateTime startDate, DateTime endDate) async {
    final db = await database;
    final maps = await db.query(
      'service_records',
      where: 'serviceDate BETWEEN ? AND ?',
      whereArgs: [startDate.toIso8601String(), endDate.toIso8601String()],
      orderBy: 'serviceDate DESC',
    );
    return List.generate(maps.length, (i) => ServiceRecord.fromMap(maps[i]));
  }
".

(** [if 'km_record_model.dart' not in content: content = content.replace(...)] *)
Definition add_imports (content : str) : str :=
  if negb (contains guard content)
  then replace old_import new_imports content
  else content.

(** [content = content.rstrip()], then the methods go before the final
    closing brace ([content[:-1] + km_methods + '\n}']) or at the end. *)
Definition add_methods (content : str) : str :=
  let content := rstrip content in
  if ends_with (lit "}") content
  then take (length content - 1) content ++ km_methods ++ (lit "
}")
  else content ++ km_methods.

Definition patch (content : str) : str := add_methods (add_imports content).

Definition main : prog :=
  ReadText file_path (λ content,
    let content := patch content in
    WriteText file_path content
      (Print ([9989%N] ++ lit " Added KM tracking methods to database_helper.dart")
      (Print (lit "   - addKmRecord() - Add KM record and update vehicle")
      (Print (lit "   - getVehicleKmRecords() - Get all KM records for vehicle")
      (Print (lit "   - addServiceRecord() - Add service and update next service KM")
      (Print (lit "   - getVehicleServiceRecords() - Get service history")
      (Print (lit "   - getVehiclesDueForService() - Get vehicles needing service")
      (Print (lit "   - getVehiclesApproachingService() - Get vehicles approaching service")
      (Print (lit "   - And more...")
      (Halt Completed)))))))))).

End add_km_db_methods.

(** *** remove_duplicates.py *)
Module remove_duplicates.

Definition file_path : string := "lib/database/database_helper.dart".

Definition km_marker : str := lit "KM TRACKING OPERATIONS".

Definition add_km_record : str := lit "Future<int> addKmRecord".

(** The first scan:
    [for i, line in enumerate(lines): if ... in line: first_km_section = i; break].
    It answers [first_km_section] and the value the loop variable [line] is
    left with ([None] when the loop body never ran). *)
Fixpoint first_scan (rest : list str) (i : Z) (line : option str)
    : Z * option str :=
  match rest with
  | [] => (-1, line)%Z
  | l :: rest' =>
      if contains km_marker l then (i, Some l)
      else first_scan rest' (i + 1)%Z (Some l)
  end.

(** The test of the second scan.  Its left operand reads [line], the
    variable of the first loop; [lines[i]] is evaluated only when the left
    operand is false. *)
Definition second_test (lines : list str) (line : option str) (i : nat)
    : string + bool :=
  match line with
  | None => inl "NameError"%string
  | Some line =>
      if contains km_marker line then inr true
      else match lines !! i with
           | Some li => inr (contains add_km_record li)
           | None => inl "IndexError"%string
           end
  end.

(** The second scan, over [range(first_km_section + 1, len(lines))]:
    [second_km_section], or the exception the test raised. *)
Fixpoint second_scan (lines : list str) (line : option str) (range : list nat)
    : string + Z :=
  match range with
  | [] => inr (-1)%Z
  | i :: range' =>
      match second_test lines line i with
      | inl exn => inl exn
      | inr true => inr (Z.of_nat i)
      | inr false => second_scan lines line range'
      end
  end.

(** [range(a, b)] for integers [a >= 0]. *)
Definition range (a b : Z) : list nat :=
  seq (Z.to_nat a) (Z.to_nat (b - a)).

Definition main : prog :=
  ReadText file_path (λ content,
    let lines := readlines content in
    let '(first_km_section, line) := first_scan lines 0 None in
    if (first_km_section =? -1)%Z then
      Print ([10060%N] ++ lit " Could not find KM tracking section") (Halt (Exited 1))
    else
      match second_scan lines line
              (range (first_km_section + 1) (Z.of_nat (length lines))) with
      | inl exn => Halt (Raised exn)
      | inr second_km_section =>
          if (second_km_section =? -1)%Z then
            Print ([9989%N] ++ lit " No duplicates found") (Halt (Exited 0))
          else
            let output_lines := take (Z.to_nat second_km_section) lines in
            match last output_lines with
            | None => Halt (Raised "IndexError")
            | Some final =>
                let output_lines :=
                  if negb (str_eqb (strip final) (lit "}"))
                  then output_lines ++ [(lit "}
")]
                  else output_lines in
                WriteText file_path (writelines output_lines)
                  (Print (([9989%N] ++ lit " Removed duplicate KM methods starting at line ") ++
                          str_of_int (second_km_section + 1))
                  (Print ((lit "   File reduced from ") ++
                          str_of_int (Z.of_nat (length lines)) ++
                          (lit " to ") ++
                          str_of_int (Z.of_nat (length output_lines)) ++
                          (lit " lines"))
                  (Halt Completed)))
            end
      end).

End remove_duplicates.

(** *** fix_expenses_table.py *)
Module fix_expenses_table.

Definition file_path : string := "lib/database/database_helper.dart".

Definition create_marker : str := lit "CREATE TABLE expenses(".

Definition description_marker : str := lit "description TEXT NOT NULL,".

Definition notes_line : str := (lit "        notes REAL NOT NULL," ++ [13%N] ++ lit "
").

Definition coins_line : str := (lit "        coins REAL NOT NULL," ++ [13%N] ++ lit "
").

(** The variables the loop updates. *)
Record loop_state := LoopState {
  new_lines : list str;
  in_expenses_table : bool;
  added_fields : bool
}.

(** One turn of [for i, line in enumerate(lines)]. *)
Definition loop_body (st : loop_state) (line : str) : loop_state :=
  let new_lines := new_lines st ++ [line] in
  let in_expenses_table :=
    if contains create_marker line then true else in_expenses_table st in
  if in_expenses_table && contains description_marker line
     && negb (added_fields st)
  then LoopState (new_lines ++ [notes_line] ++ [coins_line]) false true
  else LoopState new_lines in_expenses_table (added_fields st).

Definition patch (lines : list str) : list str :=
  new_lines (fold_left loop_body lines (LoopState [] false false)).

Definition main : prog :=
  ReadText file_path (λ content,
    let lines := readlines content in
    WriteText file_path (writelines (patch lines))
      (Print ([9989%N] ++ lit " Added notes and coins to expenses table!") (Halt Completed))).

End fix_expenses_table.

(** *** update_db_coins.py *)

(** The flags of the [re] module the scripts pass. *)
Inductive re_flag := DOTALL.

(** The functions of Python's [re] module the scripts call, taken as they
    are: [re.sub(pattern, repl, string, flags)] with a template [repl],
    [re.sub(pattern, function, string)] where the function reads the
    groups of the match ([m.group(n)]), and [re.findall(pattern, string)]
    for a pattern with one group. *)
Record re_module := ReModule {
  re_sub : str → str → str → list re_flag → str;
  re_sub_with : str → ((nat → str) → str) → str → str;
  re_findall : str → str → list str
}.

Module update_db_coins.
Section with_re.

Context (re : re_module).

Definition file_path : string := "lib/database/database_helper.dart".

Definition version_pattern : str := lit "version: \d+,".
Definition version_replacement : str := lit "version: 7,".

Definition income_pattern : str := lit "(CREATE TABLE income\([^)]+notes REAL NOT NULL,\s+coins REAL NOT NULL,\s+total REAL NOT NULL,)\s+(createdAt TEXT NOT NULL)".
Definition income_replacement : str := lit "\1\n        amountR5 REAL DEFAULT 0,\n        amountR2 REAL DEFAULT 0,\n        amountR1 REAL DEFAULT 0,\n        amount50c REAL DEFAULT 0,\n        \2".

Definition expenses_pattern : str := lit "(CREATE TABLE expenses\([^)]+amount REAL NOT NULL,)\s+(createdAt TEXT NOT NULL)".
Definition expenses_replacement : str := lit "\1\n        amountR5 REAL DEFAULT 0,\n        amountR2 REAL DEFAULT 0,\n        amountR1 REAL DEFAULT 0,\n        amount50c REAL DEFAULT 0,\n        \2".

Definition patch (content : str) : str :=
  let content := re_sub re version_pattern version_replacement content [] in
  let content := re_sub re income_pattern income_replacement content [DOTALL] in
  let content := re_sub re expenses_pattern expenses_replacement content [DOTALL] in
  content.

Definition main : prog :=
  ReadText file_path (λ content,
    let content := patch content in
    WriteText file_path content
      (Print ([9989%N] ++ lit " Database schema updated to v7!")
      (Print (lit "   - Version: 7")
      (Print (lit "   - Income table: Added coin denomination fields")
      (Print (lit "   - Expenses table: Added coin denomination fields")
      (Halt Completed)))))).

End with_re.
End update_db_coins.


(** *** add_cash_breakdown_method.py *)
Module add_cash_breakdown_method.

Definition file_path : string := "lib/database/database_helper.dart".

Definition cash_breakdown_method : str := lit "
  /// Get cash breakdown from all income records
  /// Returns total notes and coin denominations
  Future<Map<String, double>> getCashBreakdown() async {
    final db = await database;
    
    // Query all income records
    final result = await db.rawQuery('''
      SELECT 
        SUM(notes) as totalNotes,
        SUM(amountR5) as totalR5,
        SUM(amountR2) as totalR2,
        SUM(amountR1) as totalR1,
        SUM(amount50c) as total50c
      FROM income
    ''');
    
    if (result.isEmpty || result.first['totalNotes'] == null) {
      return {
        'notes': 0.0,
        'r5': 0.0,
        'r2': 0.0,
        'r1': 0.0,
        '50c': 0.0,
      };
    }
    
    final data = result.first;
    return {
      'notes': (data['totalNotes'] as num?)?.toDouble() ?? 0.0,
      'r5': (data['totalR5'] as num?)?.toDouble() ?? 0.0,
      'r2': (data['totalR2'] as num?)?.toDouble() ?? 0.0,
      'r1': (data['totalR1'] as num?)?.toDouble() ?? 0.0,
      '50c': (data['total50c'] as num?)?.toDouble() ?? 0.0,
    };
  }
".

Definition insertion_marker : str := lit "  /// Get today's income".

Definition main : prog :=
  ReadText file_path (λ content,
    if contains insertion_marker content then
      let content :=
        replace insertion_marker
          (cash_breakdown_method ++ (lit "
") ++
           insertion_marker) content in
      WriteText file_path content
        (Print ([9989%N] ++ lit " Added getCashBreakdown() method to database_helper.dart!") (Halt Completed))
    else
      Print ([10060%N] ++ lit " Could not find insertion point") (Halt Completed)).

End add_cash_breakdown_method.

(** *** add_dashboard_breakdown.py *)
Module add_dashboard_breakdown.
Section with_re.
Context (re : re_module).

Definition file_path : string := "lib/screens/dashboard_screen.dart".

Definition guard : str := lit "cash_breakdown_screen".

Definition import_line : str := lit "import 'package:a_one_bakeries_app/screens/cash_breakdown_screen.dart';
".

Definition import_pattern : str := lit "(import 'package:a_one_bakeries_app/screens/stock_screen.dart';\n)".

Definition old_closing : str := lit "        ),
      ],
    );
  }

  // ===================== WELCOME & DATE =====================".

Definition new_closing : str := (lit "        ),
        // Cash Breakdown Card
        _buildCashBreakdownCard(),
      ],
    );
  }

  /// Build compact cash breakdown card for dashboard
  Widget _buildCashBreakdownCard() {
    return FutureBuilder<Map<String, double>>(
      future: _dbHelper.getCashBreakdown(),
      builder: (context, snapshot) {
        if (!snapshot.hasData) return const SizedBox.shrink();

        final breakdown = snapshot.data!;
        final total = (breakdown['notes'] ?? 0.0) + (breakdown['r5'] ?? 0.0) + 
                     (breakdown['r2'] ?? 0.0) + (breakdown['r1'] ?? 0.0) + (breakdown['50c'] ?? 0.0);
        final notes = breakdown['notes'] ?? 0.0;
        final coins = (breakdown['r5'] ?? 0.0) + (breakdown['r2'] ?? 0.0) + 
                     (breakdown['r1'] ?? 0.0) + (breakdown['50c'] ?? 0.0);
        final notesPercent = total == 0 ? 0 : ((notes / total) * 100).round();
        final coinsPercent = total == 0 ? 0 : ((coins / total) * 100).round();

        return InkWell(
          onTap: () => Navigator.push(context, MaterialPageRoute(
            builder: (context) => const CashBreakdownScreen(),
          )),
          borderRadius: BorderRadius.circular(12),
          child: Container(
            margin: const EdgeInsets.only(top: 12),
            padding: const EdgeInsets.all(16),
            decoration: BoxDecoration(
              gradient: LinearGradient(
                colors: [AppTheme.primaryBrown.withOpacity(0.1), AppTheme.successGreen.withOpacity(0.1)],
                begin: Alignment.topLeft,
                end: Alignment.bottomRight,
              ),
              borderRadius: BorderRadius.circular(12),
              border: Border.all(color: AppTheme.primaryBrown.withOpacity(0.3), width: 1),
            ),
            child: Column(
              crossAxisAlignment: CrossAxisAlignment.start,
              children: [
                Row(
                  children: [
                    Container(
                      padding: const EdgeInsets.all(8),
                      decoration: BoxDecoration(
                        color: AppTheme.primaryBrown.withOpacity(0.2),
                        borderRadius: BorderRadius.circular(8),
                      ),
                      child: const Icon(Icons.account_balance_wallet, color: AppTheme.primaryBrown, size: 20),
                    ),
                    const SizedBox(width: 12),
                    Expanded(
                      child: Column(
                        crossAxisAlignment: CrossAxisAlignment.start,
                        children: [
                          Text('Cash Breakdown', style: Theme.of(context).textTheme.titleMedium?.copyWith(fontWeight: FontWeight.bold)),
                          Text(_currencyFormat.format(total), style: Theme.of(context).textTheme.headlineSmall?.copyWith(color: AppTheme.successGreen, fontWeight: FontWeight.bold)),
                        ],
                      ),
                    ),
                    const Icon(Icons.chevron_right, color: AppTheme.primaryBrown),
                  ],
                ),
                const SizedBox(height: 12),
                const Divider(height: 1),
                const SizedBox(height: 12),
                Row(
                  children: [
                    Expanded(child: _buildBreakdownItem(emoji: '" ++ [128181%N] ++ lit "', label: 'Notes', amount: notes, percentage: notesPercent, color: AppTheme.successGreen)),
                    Container(width: 1, height: 40, color: Colors.grey[300]),
                    Expanded(child: _buildBreakdownItem(emoji: '" ++ [129689%N] ++ lit "', label: 'Coins', amount: coins, percentage: coinsPercent, color: AppTheme.primaryBrown)),
                  ],
                ),
              ],
            ),
          ),
        );
      },
    );
  }

  Widget _buildBreakdownItem({required String emoji, required String label, required double amount, required int percentage, required Color color}) {
    return Column(
      children: [
        Row(
          mainAxisAlignment: MainAxisAlignment.center,
          children: [
            Text(emoji, style: const TextStyle(fontSize: 16)),
            const SizedBox(width: 4),
            Text(label, style: TextStyle(fontSize: 12, color: Colors.grey[600], fontWeight: FontWeight.w600)),
          ],
        ),
        const SizedBox(height: 4),
        Text(_currencyFormat.format(amount), style: TextStyle(fontSize: 16, fontWeight: FontWeight.bold, color: color)),
        Text('$percentage%', style: TextStyle(fontSize: 11, color: Colors.grey[500])),
      ],
    );
  }

  // ===================== WELCOME & DATE =====================").

Definition patch (content : str) : str :=
  let content :=
    if negb (contains guard content)
    then re_sub re import_pattern
           ((lit "\1") ++ import_line) content []
    else content in
  replace old_closing new_closing content.

Definition main : prog :=
  ReadText file_path (λ content,
    let content := patch content in
    WriteText file_path content
      (Print ([9989%N] ++ lit " Added cash breakdown card to dashboard!") (Halt Completed))).

End with_re.
End add_dashboard_breakdown.

(** *** add_dashboard_card.py *)
Module add_dashboard_card.

Definition file_path : string := "lib/screens/dashboard_screen.dart".

Definition finance_marker : str := lit "onTap: _navigateToFinance,".

Definition indent : str := lit "        ".

Definition new_lines : list str :=
  [(lit "
");
   indent ++ (lit "// Cash Breakdown Card
");
   indent ++ (lit "_buildCashBreakdownCard(),
")].

Definition method_code : str := (lit "
  /// Build compact cash breakdown card for dashboard
  Widget _buildCashBreakdownCard() {
    return FutureBuilder<Map<String, double>>(
      future: _dbHelper.getCashBreakdown(),
      builder: (context, snapshot) {
        if (!snapshot.hasData) return const SizedBox.shrink();

        final breakdown = snapshot.data!;
        final total = (breakdown['notes'] ?? 0.0) + (breakdown['r5'] ?? 0.0) + 
                     (breakdown['r2'] ?? 0.0) + (breakdown['r1'] ?? 0.0) + (breakdown['50c'] ?? 0.0);
        final notes = breakdown['notes'] ?? 0.0;
        final coins = (breakdown['r5'] ?? 0.0) + (breakdown['r2'] ?? 0.0) + 
                     (breakdown['r1'] ?? 0.0) + (breakdown['50c'] ?? 0.0);
        final notesPercent = total == 0 ? 0 : ((notes / total) * 100).round();
        final coinsPercent = total == 0 ? 0 : ((coins / total) * 100).round();

        return InkWell(
          onTap: () => Navigator.push(context, MaterialPageRoute(
            builder: (context) => const CashBreakdownScreen(),
          )),
          borderRadius: BorderRadius.circular(12),
          child: Container(
            margin: const EdgeInsets.only(top: 12),
            padding: const EdgeInsets.all(16),
            decoration: BoxDecoration(
              gradient: LinearGradient(
                colors: [AppTheme.primaryBrown.withOpacity(0.1), AppTheme.successGreen.withOpacity(0.1)],
                begin: Alignment.topLeft,
                end: Alignment.bottomRight,
              ),
              borderRadius: BorderRadius.circular(12),
              border: Border.all(color: AppTheme.primaryBrown.withOpacity(0.3), width: 1),
            ),
            child: Column(
              crossAxisAlignment: CrossAxisAlignment.start,
              children: [
                Row(
                  children: [
                    Container(
                      padding: const EdgeInsets.all(8),
                      decoration: BoxDecoration(
                        color: AppTheme.primaryBrown.withOpacity(0.2),
                        borderRadius: BorderRadius.circular(8),
                      ),
                      child: const Icon(Icons.account_balance_wallet, color: AppTheme.primaryBrown, size: 20),
                    ),
                    const SizedBox(width: 12),
                    Expanded(
                      child: Column(
                        crossAxisAlignment: CrossAxisAlignment.start,
                        children: [
                          Text('Cash Breakdown', style: Theme.of(context).textTheme.titleMedium?.copyWith(fontWeight: FontWeight.bold)),
                          Text(_currencyFormat.format(total), style: Theme.of(context).textTheme.headlineSmall?.copyWith(color: AppTheme.successGreen, fontWeight: FontWeight.bold)),
                        ],
                      ),
                    ),
                    const Icon(Icons.chevron_right, color: AppTheme.primaryBrown),
                  ],
                ),
                const SizedBox(height: 12),
                const Divider(height: 1),
                const SizedBox(height: 12),
                Row(
                  children: [
                    Expanded(child: _buildBreakdownItem(emoji: '" ++ [128181%N] ++ lit "', label: 'Notes', amount: notes, percentage: notesPercent, color: AppTheme.successGreen)),
                    Container(width: 1, height: 40, color: Colors.grey[300]),
                    Expanded(child: _buildBreakdownItem(emoji: '" ++ [129689%N] ++ lit "', label: 'Coins', amount: coins, percentage: coinsPercent, color: AppTheme.primaryBrown)),
                  ],
                ),
              ],
            ),
          ),
        );
      },
    );
  }

  Widget _buildBreakdownItem({required String emoji, required String label, required double amount, required int percentage, required Color color}) {
    return Column(
      children: [
        Row(
          mainAxisAlignment: MainAxisAlignment.center,
          children: [
            Text(emoji, style: const TextStyle(fontSize: 16)),
            const SizedBox(width: 4),
            Text(label, style: TextStyle(fontSize: 12, color: Colors.grey[600], fontWeight: FontWeight.w600)),
          ],
        ),
        const SizedBox(height: 4),
        Text(_currencyFormat.format(amount), style: TextStyle(fontSize: 16, fontWeight: FontWeight.bold, color: color)),
        Text('$percentage%', style: TextStyle(fontSize: 11, color: Colors.grey[500])),
      ],
    );
  }

").

(** [for k in range(j, min(j + 5, len(lines))): if lines[k].strip() == '],':
    insert_index = k; break] *)
Definition scan_k (lines : list str) (j : nat) : option nat :=
  first_in_range
    (λ k, str_eqb (strip (line_at lines k)) (lit "],"))
    (range_nat j (Nat.min (j + 5) (length lines))).

(** [for j in range(i, min(i + 10, len(lines))): if lines[j].strip() == '),':
    (the loop over k); break] *)
Definition scan_j (lines : list str) (i : nat) : option nat :=
  match first_in_range
          (λ j, str_eqb (strip (line_at lines j)) (lit "),"))
          (range_nat i (Nat.min (i + 10) (length lines))) with
  | Some j => scan_k lines j
  | None => None
  end.

(** [for i, line in enumerate(lines): if '...' in line and i > 430:
    (the loop over j); break] *)
Fixpoint scan_i (lines rest : list str) (i : nat) : option nat :=
  match rest with
  | [] => None
  | line :: rest' =>
      if contains finance_marker line && (430 <? i)
      then scan_j lines i
      else scan_i lines rest' (S i)
  end.

(** [for i in range(insert_index + 10, min(insert_index + 20, len(lines))):
    if lines[i].strip() == '}' and i > insert_index + 5:
    method_insert_index = i + 1; break] *)
Definition scan_method (lines : list str) (insert_index : nat) : option nat :=
  match first_in_range
          (λ i, str_eqb (strip (line_at lines i)) (lit "}")
                && (insert_index + 5 <? i))
          (range_nat (insert_index + 10)
             (Nat.min (insert_index + 20) (length lines))) with
  | Some i => Some (i + 1)
  | None => None
  end.

(** [if insert_index:] holds for an index other than [None] and [0]. *)
Definition main : prog :=
  ReadText file_path (λ content,
    let lines := readlines content in
    match scan_i lines lines 0 with
    | Some (S _ as insert_index) =>
        let lines :=
          fold_left (λ lines line, list_insert insert_index line lines)
            (rev new_lines) lines in
        let lines :=
          match scan_method lines insert_index with
          | Some (S _ as method_insert_index) =>
              list_insert method_insert_index method_code lines
          | _ => lines
          end in
        WriteText file_path (writelines lines)
          (Print ([9989%N] ++ lit " Added cash breakdown card to dashboard!") (Halt Completed))
    | _ =>
        Print ([10060%N] ++ lit " Could not find insertion point") (Halt Completed)
    end).

End add_dashboard_card.

(** *** add_final_reports.py *)
Module add_final_reports.

Definition supplier_path : string := "lib/screens/supplier_screen.dart".

Definition orders_path : string := "lib/screens/orders_screen.dart".

Definition supplier_guard : str := lit "supplier_report_screen.dart".
Definition supplier_old_import : str := lit "import 'package:a_one_bakeries_app/screens/supplier_details_screen.dart';".
Definition supplier_new_import : str := lit "import 'package:a_one_bakeries_app/screens/supplier_details_screen.dart';
import 'package:a_one_bakeries_app/screens/supplier_report_screen.dart';".
Definition supplier_old_appbar : str := lit "      appBar: AppBar(
        title: const Text('Suppliers'),
      ),".
Definition supplier_new_appbar : str := lit "      appBar: AppBar(
        title: const Text('Suppliers'),
        actions: [
          IconButton(
            icon: const Icon(Icons.assessment),
            onPressed: () {
              Navigator.push(
                context,
                MaterialPageRoute(builder: (context) => const SupplierReportScreen()),
              );
            },
            tooltip: 'Supplier Report',
          ),
        ],
      ),".

Definition orders_guard : str := lit "driver_vehicle_orders_report_screen.dart".
Definition orders_old_import : str := lit "import 'package:a_one_bakeries_app/screens/create_order_screen.dart';".
Definition orders_new_import : str := lit "import 'package:a_one_bakeries_app/screens/create_order_screen.dart';
import 'package:a_one_bakeries_app/screens/driver_vehicle_orders_report_screen.dart';".
Definition orders_old_appbar : str := lit "      appBar: AppBar(
        title: const Text('Orders'),
      ),".
Definition orders_new_appbar : str := lit "      appBar: AppBar(
        title: const Text('Orders'),
        actions: [
          IconButton(
            icon: const Icon(Icons.assessment),
            onPressed: () {
              Navigator.push(
                context,
                MaterialPageRoute(builder: (context) => const DriverVehicleOrdersReportScreen()),
              );
            },
            tooltip: 'Driver/Vehicle Orders Report',
          ),
        ],
      ),".

Definition patch_supplier (content : str) : str :=
  let content :=
    if negb (contains supplier_guard content)
    then replace supplier_old_import supplier_new_import content
    else content in
  replace supplier_old_appbar supplier_new_appbar content.

Definition patch_orders (content : str) : str :=
  let content :=
    if negb (contains orders_guard content)
    then replace orders_old_import orders_new_import content
    else content in
  replace orders_old_appbar orders_new_appbar content.

Definition main : prog :=
  ReadText supplier_path (λ content,
    let content := patch_supplier content in
    WriteText supplier_path content
      (Print ([10003%N] ++ lit " Updated supplier_screen.dart")
      (ReadText orders_path (λ content,
         let content := patch_orders content in
         WriteText orders_path content
           (Print ([10003%N] ++ lit " Updated orders_screen.dart")
           (Print (lit "
" ++ [9989%N] ++ lit " Both files updated successfully!")
           (Halt Completed))))))).

End add_final_reports.

(** *** add_km_to_vehicle.py *)
Module add_km_to_vehicle.
Section with_re.
Context (re : re_module).

Definition file_path : string := "lib/models/vehicle_model.dart".

Definition km_fields : str := lit "  // NEW: KM Tracking Fields
  final int currentKm;              // Current odometer reading
  final int lastServiceKm;          // KM at last service
  final int serviceIntervalKm;      // KM between services (default: 10000)
  final int nextServiceKm;          // Calculated: lastServiceKm + serviceIntervalKm

  ".

Definition service_properties : str := lit "
  /// NEW: KM until next service
  int get kmUntilService => nextServiceKm - currentKm;

  /// NEW: Check if service is due
  bool get isServiceDue => currentKm >= nextServiceKm;

  /// NEW: Check if service is approaching (within 1000 KM)
  bool get isServiceApproaching => kmUntilService <= 1000 && kmUntilService > 0;

  /// NEW: Get service status
  ServiceStatus get serviceStatus {
    if (isServiceDue) return ServiceStatus.overdue;
    if (isServiceApproaching) return ServiceStatus.dueSoon;
    return ServiceStatus.ok;
  }
".

Definition service_status_enum : str := lit "

/// Service Status Enum
enum ServiceStatus {
  ok,
  dueSoon,
  overdue,
}

/// Service Status Helper Extension
extension ServiceStatusHelper on ServiceStatus {
  String get label {
    switch (this) {
      case ServiceStatus.ok:
        return 'OK';
      case ServiceStatus.dueSoon:
        return 'Due Soon';
      case ServiceStatus.overdue:
        return 'OVERDUE';
    }
  }

  Color get color {
    switch (this) {
      case ServiceStatus.ok:
        return Colors.green;
      case ServiceStatus.dueSoon:
        return Colors.orange;
      case ServiceStatus.overdue:
        return Colors.red;
    }
  }

  IconData get icon {
    switch (this) {
      case ServiceStatus.ok:
        return Icons.check_circle;
      case ServiceStatus.dueSoon:
        return Icons.warning;
      case ServiceStatus.overdue:
        return Icons.error;
    }
  }
}
".

Definition patch (vehicle_content : str) : str :=
  let vehicle_content :=
    replace (lit "  final String? diskNumber;           // Optional disk reference number" ++ [13%N] ++ lit "
" ++ [13%N] ++ lit "
  /// Timestamp when the vehicle record was created.")
      ((lit "  final String? diskNumber;           // Optional disk reference number" ++ [13%N] ++ lit "
" ++ [13%N] ++ lit "
") ++ km_fields ++ (lit "  /// Timestamp when the vehicle record was created."))
      vehicle_content in
  let vehicle_content :=
    replace (lit "    this.diskNumber," ++ [13%N] ++ lit "
    DateTime? createdAt,") (lit "    this.diskNumber,
    this.currentKm = 0,
    this.lastServiceKm = 0,
    this.serviceIntervalKm = 10000,
    int? nextServiceKm,
    DateTime? createdAt,") vehicle_content in
  let vehicle_content :=
    replace (lit "  })  : createdAt = createdAt ?? DateTime.now()," ++ [13%N] ++ lit "
        updatedAt = updatedAt ?? DateTime.now();") (lit "  })  : nextServiceKm = nextServiceKm ?? (lastServiceKm + serviceIntervalKm),
        createdAt = createdAt ?? DateTime.now(),
        updatedAt = updatedAt ?? DateTime.now();") vehicle_content in
  let vehicle_content :=
    re_sub re (lit "(  DiskStatus get diskStatus \{[^}]+\})")
      ((lit "\1") ++ service_properties) vehicle_content [DOTALL] in
  let vehicle_content :=
    replace (lit "      'diskNumber': diskNumber," ++ [13%N] ++ lit "
      'createdAt': createdAt.toIso8601String(),") (lit "      'diskNumber': diskNumber,
      'currentKm': currentKm,
      'lastServiceKm': lastServiceKm,
      'serviceIntervalKm': serviceIntervalKm,
      'nextServiceKm': nextServiceKm,
      'createdAt': createdAt.toIso8601String(),") vehicle_content in
  let vehicle_content :=
    replace (lit "      diskNumber: map['diskNumber'] as String?," ++ [13%N] ++ lit "
      createdAt: DateTime.parse(map['createdAt'] as String),") (lit "      diskNumber: map['diskNumber'] as String?,
      currentKm: (map['currentKm'] as int?) ?? 0,
      lastServiceKm: (map['lastServiceKm'] as int?) ?? 0,
      serviceIntervalKm: (map['serviceIntervalKm'] as int?) ?? 10000,
      nextServiceKm: map['nextServiceKm'] as int?,
      createdAt: DateTime.parse(map['createdAt'] as String),") vehicle_content in
  let vehicle_content :=
    replace (lit "    DateTime? licenseDiskExpiry," ++ [13%N] ++ lit "
    DateTime? lastRenewalDate," ++ [13%N] ++ lit "
    String? diskNumber," ++ [13%N] ++ lit "
    DateTime? createdAt,") (lit "    DateTime? licenseDiskExpiry,
    DateTime? lastRenewalDate,
    String? diskNumber,
    int? currentKm,
    int? lastServiceKm,
    int? serviceIntervalKm,
    int? nextServiceKm,
    DateTime? createdAt,") vehicle_content in
  let vehicle_content :=
    replace (lit "      licenseDiskExpiry: licenseDiskExpiry ?? this.licenseDiskExpiry," ++ [13%N] ++ lit "
      lastRenewalDate: lastRenewalDate ?? this.lastRenewalDate," ++ [13%N] ++ lit "
      diskNumber: diskNumber ?? this.diskNumber," ++ [13%N] ++ lit "
      createdAt: createdAt ?? this.createdAt,") (lit "      licenseDiskExpiry: licenseDiskExpiry ?? this.licenseDiskExpiry,
      lastRenewalDate: lastRenewalDate ?? this.lastRenewalDate,
      diskNumber: diskNumber ?? this.diskNumber,
      currentKm: currentKm ?? this.currentKm,
      lastServiceKm: lastServiceKm ?? this.lastServiceKm,
      serviceIntervalKm: serviceIntervalKm ?? this.serviceIntervalKm,
      nextServiceKm: nextServiceKm ?? this.nextServiceKm,
      createdAt: createdAt ?? this.createdAt,") vehicle_content in
  if negb (contains (lit "enum ServiceStatus") vehicle_content)
  then rstrip vehicle_content ++ service_status_enum
  else vehicle_content.

Definition main : prog :=
  Print (lit "Updating Vehicle model...")
    (ReadText file_path (λ vehicle_content,
       let vehicle_content := patch vehicle_content in
       WriteText file_path vehicle_content
         (Print ([9989%N] ++ lit " Vehicle model updated with KM tracking fields")
         (Print (lit "
" ++ [9989%N] ++ lit " All updates complete!")
         (Print (lit "   - Vehicle model: Added KM fields and service status")
         (Print (lit "   - Ready for database helper methods")
         (Halt Completed))))))).

End with_re.
End add_km_to_vehicle.

(** *** add_settings_icon.py *)
Module add_settings_icon.

Definition file_path : string := "lib/screens/dashboard_screen.dart".

Definition old_text : str := lit "                ),
            ],
          ),
        ],
      ),".

Definition new_text : str := lit "                ),
            ],
          ),
          // Settings Icon
          IconButton(
            icon: const Icon(Icons.settings_outlined),
            onPressed: _navigateToSettings,
            tooltip: 'Settings',
          ),
        ],
      ),".

Definition main : prog :=
  ReadText file_path (λ content,
    if contains old_text content then
      let content := replace old_text new_text content in
      WriteText file_path content
        (Print ([9989%N] ++ lit " Added settings icon to dashboard!") (Halt Completed))
    else
      Print ([10060%N] ++ lit " Could not find target location") (Halt Completed)).

End add_settings_icon.

(** *** add_settings_method.py *)
Module add_settings_method.

Definition file_path : string := "lib/screens/dashboard_screen.dart".

Definition notifications_marker : str := lit "/// Navigate to Notifications Screen".

Definition new_method : str := lit "
  /// Navigate to Settings Screen
  void _navigateToSettings() {
    Navigator.push(
      context,
      MaterialPageRoute(builder: (context) => const SettingsScreen()),
    );
  }
".

(** [for j in range(i, min(i + 15, len(lines))):
    if lines[j].strip() == '}' and j > i + 5: insert_index = j + 1; break] *)
Definition scan_j (lines : list str) (i : nat) : option nat :=
  match first_in_range
          (λ j, str_eqb (strip (line_at lines j)) (lit "}")
                && (i + 5 <? j))
          (range_nat i (Nat.min (i + 15) (length lines))) with
  | Some j => Some (j + 1)
  | None => None
  end.

(** [for i, line in enumerate(lines): if '...' in line: (the loop over j);
    break] *)
Fixpoint scan_i (lines rest : list str) (i : nat) : option nat :=
  match rest with
  | [] => None
  | line :: rest' =>
      if contains notifications_marker line
      then scan_j lines i
      else scan_i lines rest' (S i)
  end.

(** [if insert_index:] holds for an index other than [None] and [0]. *)
Definition main : prog :=
  ReadText file_path (λ content,
    let lines := readlines content in
    match scan_i lines lines 0 with
    | Some (S _ as insert_index) =>
        let lines := list_insert insert_index new_method lines in
        WriteText file_path (writelines lines)
          (Print ([9989%N] ++ lit " Added _navigateToSettings method!") (Halt Completed))
    | _ =>
        Print ([10060%N] ++ lit " Could not find insertion point") (Halt Completed)
    end).

End add_settings_method.

(** *** final_dashboard_fix.py *)
Module final_dashboard_fix.

Definition file_path : string := "lib/screens/dashboard_screen.dart".

Definition search_text : str := lit "        SummaryCard(
          title: 'Today\'s Expenses',
          value: _isLoading ? '...' : _currencyFormat.format(_todayExpenses),
          subtitle: 'Total expenses today',
          icon: Icons.trending_down,
          color: AppTheme.errorRed,
          onTap: _navigateToFinance,
        ),
      ],
    );
  }".

Definition replace_text : str := (lit "        SummaryCard(
          title: 'Today\'s Expenses',
          value: _isLoading ? '...' : _currencyFormat.format(_todayExpenses),
          subtitle: 'Total expenses today',
          icon: Icons.trending_down,
          color: AppTheme.errorRed,
          onTap: _navigateToFinance,
        ),
        
        // Cash Breakdown
        _buildCashBreakdownCard(),
      ],
    );
  }

  Widget _buildCashBreakdownCard() {
    return FutureBuilder<Map<String, double>>(
      future: _dbHelper.getCashBreakdown(),
      builder: (context, snapshot) {
        if (!snapshot.hasData) return const SizedBox.shrink();
        final breakdown = snapshot.data!;
        final total = (breakdown['notes'] ?? 0.0) + (breakdown['r5'] ?? 0.0) + (breakdown['r2'] ?? 0.0) + (breakdown['r1'] ?? 0.0) + (breakdown['50c'] ?? 0.0);
        final notes = breakdown['notes'] ?? 0.0;
        final coins = (breakdown['r5'] ?? 0.0) + (breakdown['r2'] ?? 0.0) + (breakdown['r1'] ?? 0.0) + (breakdown['50c'] ?? 0.0);
        final notesPercent = total == 0 ? 0 : ((notes / total) * 100).round();
        final coinsPercent = total == 0 ? 0 : ((coins / total) * 100).round();
        return InkWell(
          onTap: () => Navigator.push(context, MaterialPageRoute(builder: (context) => const CashBreakdownScreen())),
          borderRadius: BorderRadius.circular(12),
          child: Container(
            margin: const EdgeInsets.only(top: 12),
            padding: const EdgeInsets.all(16),
            decoration: BoxDecoration(
              gradient: LinearGradient(colors: [AppTheme.primaryBrown.withOpacity(0.1), AppTheme.successGreen.withOpacity(0.1)], begin: Alignment.topLeft, end: Alignment.bottomRight),
              borderRadius: BorderRadius.circular(12),
              border: Border.all(color: AppTheme.primaryBrown.withOpacity(0.3), width: 1),
            ),
            child: Column(
              crossAxisAlignment: CrossAxisAlignment.start,
              children: [
                Row(
                  children: [
                    Container(padding: const EdgeInsets.all(8), decoration: BoxDecoration(color: AppTheme.primaryBrown.withOpacity(0.2), borderRadius: BorderRadius.circular(8)), child: const Icon(Icons.account_balance_wallet, color: AppTheme.primaryBrown, size: 20)),
                    const SizedBox(width: 12),
                    Expanded(child: Column(crossAxisAlignment: CrossAxisAlignment.start, children: [Text('Cash Breakdown', style: Theme.of(context).textTheme.titleMedium?.copyWith(fontWeight: FontWeight.bold)), Text(_currencyFormat.format(total), style: Theme.of(context).textTheme.headlineSmall?.copyWith(color: AppTheme.successGreen, fontWeight: FontWeight.bold))])),
                    const Icon(Icons.chevron_right, color: AppTheme.primaryBrown),
                  ],
                ),
                const SizedBox(height: 12),
                const Divider(height: 1),
                const SizedBox(height: 12),
                Row(children: [Expanded(child: _buildBreakdownItem(emoji: '" ++ [128181%N] ++ lit "', label: 'Notes', amount: notes, percentage: notesPercent, color: AppTheme.successGreen)), Container(width: 1, height: 40, color: Colors.grey[300]), Expanded(child: _buildBreakdownItem(emoji: '" ++ [129689%N] ++ lit "', label: 'Coins', amount: coins, percentage: coinsPercent, color: AppTheme.primaryBrown))]),
              ],
            ),
          ),
        );
      },
    );
  }

  Widget _buildBreakdownItem({required String emoji, required String label, required double amount, required int percentage, required Color color}) {
    return Column(children: [Row(mainAxisAlignment: MainAxisAlignment.center, children: [Text(emoji, style: const TextStyle(fontSize: 16)), const SizedBox(width: 4), Text(label, style: TextStyle(fontSize: 12, color: Colors.grey[600], fontWeight: FontWeight.w600))]), const SizedBox(height: 4), Text(_currencyFormat.format(amount), style: TextStyle(fontSize: 16, fontWeight: FontWeight.bold, color: color)), Text('$percentage%', style: TextStyle(fontSize: 11, color: Colors.grey[500]))]);
  }").

Definition main : prog :=
  ReadText file_path (λ content,
    if contains search_text content then
      let content := replace search_text replace_text content in
      WriteText file_path content
        (Print ([9989%N] ++ lit " Added cash breakdown to dashboard!") (Halt Completed))
    else
      Print ([10060%N] ++ lit " Could not find target location") (Halt Completed)).

End final_dashboard_fix.

(** *** final_db_fix.py *)
Module final_db_fix.

Definition file_path : string := "lib/database/database_helper.dart".

Definition old_vehicles_table : str := lit "      CREATE TABLE vehicles(
        id INTEGER PRIMARY KEY AUTOINCREMENT,
        make TEXT NOT NULL,
        model TEXT NOT NULL,
        year INTEGER NOT NULL,
        registrationNumber TEXT NOT NULL UNIQUE,
        assignedDriverId INTEGER,
        assignedDriverName TEXT,
        licenseDiskExpiry TEXT,
        lastRenewalDate TEXT,
        diskNumber TEXT,
        createdAt TEXT NOT NULL,
        updatedAt TEXT NOT NULL,
        FOREIGN KEY (assignedDriverId) REFERENCES employees(id) ON DELETE SET NULL
      )".

Definition new_vehicles_table : str := lit "      CREATE TABLE vehicles(
        id INTEGER PRIMARY KEY AUTOINCREMENT,
        make TEXT NOT NULL,
        model TEXT NOT NULL,
        year INTEGER NOT NULL,
        registrationNumber TEXT NOT NULL UNIQUE,
        assignedDriverId INTEGER,
        assignedDriverName TEXT,
        licenseDiskExpiry TEXT,
        lastRenewalDate TEXT,
        diskNumber TEXT,
        currentKm INTEGER DEFAULT 0,
        lastServiceKm INTEGER DEFAULT 0,
        serviceIntervalKm INTEGER DEFAULT 10000,
        nextServiceKm INTEGER DEFAULT 10000,
        createdAt TEXT NOT NULL,
        updatedAt TEXT NOT NULL,
        FOREIGN KEY (assignedDriverId) REFERENCES employees(id) ON DELETE SET NULL
      )".

Definition km_tables : str := lit "

    // ==========================================================================
    // TABLE 15: KM RECORDS
    // Stores historical KM readings for vehicles
    // ==========================================================================
    await db.execute('''
      CREATE TABLE km_records(
        id INTEGER PRIMARY KEY AUTOINCREMENT,
        vehicleId INTEGER NOT NULL,
        kmReading INTEGER NOT NULL,
        recordedDate TEXT NOT NULL,
        notes TEXT,
        createdAt TEXT NOT NULL,
        updatedAt TEXT NOT NULL,
        FOREIGN KEY (vehicleId) REFERENCES vehicles(id) ON DELETE CASCADE
      )
    ''');

    // ==========================================================================
    // TABLE 16: SERVICE RECORDS
    // Stores vehicle service history
    // ==========================================================================
    await db.execute('''
      CREATE TABLE service_records(
        id INTEGER PRIMARY KEY AUTOINCREMENT,
        vehicleId INTEGER NOT NULL,
        serviceKm INTEGER NOT NULL,
        serviceDate TEXT NOT NULL,
        serviceType TEXT NOT NULL,
        cost REAL,
        notes TEXT,
        createdAt TEXT NOT NULL,
        updatedAt TEXT NOT NULL,
        FOREIGN KEY (vehicleId) REFERENCES vehicles(id) ON DELETE CASCADE
      )
    ''');
".

Definition patch (content : str) : str :=
  let content := replace (lit "version: 3,  // " ++ [8592%N] ++ lit " UPDATED: Changed from 2 to 3") (lit "version: 6,  // " ++ [8592%N] ++ lit " UPDATED: Version 6 for KM tracking") content in
  let content := replace old_vehicles_table new_vehicles_table content in
  let content :=
    replace (lit "    // ==========================================================================
    // INDEXES - Speed up database queries") (km_tables ++ (lit "    // ==========================================================================
    // INDEXES - Speed up database queries")) content in
  content.

Definition main : prog :=
  ReadText file_path (λ content,
    let content := patch content in
    WriteText file_path content
      (Print ([9989%N] ++ lit " database_helper.dart updated successfully!")
      (Print (lit "   - Version: 6")
      (Print (lit "   - CREATE TABLE vehicles: Added KM fields")
      (Print (lit "   - Added km_records table")
      (Print (lit "   - Added service_records table")
      (Halt Completed))))))).

End final_db_fix.

(** *** fix_new_reports.py *)
Module fix_new_reports.
Section with_re.
Context (re : re_module).

Definition supplier_path : string := "lib/screens/supplier_report_screen.dart".

Definition orders_path : string :=
  "lib/screens/driver_vehicle_orders_report_screen.dart".

Definition summary_pattern : str := lit "summaryData: \{([^}]+)\}".

(** The [lambda m: ...] both [re.sub] calls pass. *)
Definition summary_replacement (m : nat → str) : str :=
  (lit "summaryTitle: 'Summary',
        summaryLabels: [") ++
  join (lit ", ")
    (map (λ k, (lit "'") ++ strip k ++ (lit "'"))
       (re_findall re (lit "'([^']+)':") (m 1))) ++
  (lit "],
        summaryValues: [") ++
  join (lit ", ")
    (map (λ v, rstrip_chars (lit ",") (strip v))
       (re_findall re (lit ":\s*([^,\n]+)") (m 1))) ++
  (lit "]").

Definition patch_supplier (content : str) : str :=
  let content :=
    replace (lit "title: 'Supplier Report',") (lit "reportTitle: 'Supplier Report',") content in
  re_sub_with re summary_pattern summary_replacement content.

Definition patch_orders (content : str) : str :=
  let content :=
    replace (lit "title: 'Driver/Vehicle Orders Report',") (lit "reportTitle: 'Driver/Vehicle Orders Report',") content in
  let content :=
    replace (lit "_dbHelper.getVehicleById") (lit "_dbHelper.getVehicle") content in
  re_sub_with re summary_pattern summary_replacement content.

Definition main : prog :=
  ReadText supplier_path (λ content,
    let content := patch_supplier content in
    WriteText supplier_path content
      (Print ([10003%N] ++ lit " Fixed supplier_report_screen.dart")
      (ReadText orders_path (λ content,
         let content := patch_orders content in
         WriteText orders_path content
           (Print ([10003%N] ++ lit " Fixed driver_vehicle_orders_report_screen.dart")
           (Print (lit "
" ++ [9989%N] ++ lit " All fixes applied!")
           (Halt Completed))))))).

End with_re.
End fix_new_reports.

(** *** fix_reports.py *)
Module fix_reports.

Definition stock_path : string := "lib/screens/stock_screen.dart".

Definition employee_path : string := "lib/screens/employee_screen.dart".

Definition stock_guard : str := lit "stock_movement_report_screen.dart".
Definition stock_old_import : str := lit "import 'package:a_one_bakeries_app/screens/supplier_screen.dart';".
Definition stock_new_import : str := lit "import 'package:a_one_bakeries_app/screens/supplier_screen.dart';
import 'package:a_one_bakeries_app/screens/stock_movement_report_screen.dart';".
Definition old_actions : str := lit "        actions: [
          IconButton(
            icon: const Icon(Icons.business),
            onPressed: _navigateToSuppliers,
            tooltip: 'Suppliers',
          ),
          IconButton(
            icon: const Icon(Icons.history),
            onPressed: _navigateToStockMovements,
            tooltip: 'Stock Movements',
          ),
        ],".
Definition new_actions : str := lit "        actions: [
          IconButton(
            icon: const Icon(Icons.assessment),
            onPressed: () {
              Navigator.push(
                context,
                MaterialPageRoute(builder: (context) => const StockMovementReportScreen()),
              );
            },
            tooltip: 'Stock Movement Report',
          ),
          IconButton(
            icon: const Icon(Icons.business),
            onPressed: _navigateToSuppliers,
            tooltip: 'Suppliers',
          ),
          IconButton(
            icon: const Icon(Icons.history),
            onPressed: _navigateToStockMovements,
            tooltip: 'Stock Movements',
          ),
        ],".

Definition employee_guard : str := lit "employee_credits_report_screen.dart".
Definition employee_old_import : str := lit "import 'package:a_one_bakeries_app/widgets/employee_photo_widget.dart';".
Definition employee_new_import : str := lit "import 'package:a_one_bakeries_app/widgets/employee_photo_widget.dart';
import 'package:a_one_bakeries_app/screens/employee_credits_report_screen.dart';".
Definition old_appbar : str := lit "      appBar: AppBar(
        title: const Text('Employees'),
      ),".
Definition new_appbar : str := lit "      appBar: AppBar(
        title: const Text('Employees'),
        actions: [
          IconButton(
            icon: const Icon(Icons.assessment),
            onPressed: () {
              Navigator.push(
                context,
                MaterialPageRoute(builder: (context) => const EmployeeCreditsReportScreen()),
              );
            },
            tooltip: 'Employee Credits Report',
          ),
        ],
      ),".

Definition patch_stock (content : str) : str :=
  let content :=
    if negb (contains stock_guard content)
    then replace stock_old_import stock_new_import content
    else content in
  replace old_actions new_actions content.

Definition patch_employee (content : str) : str :=
  let content :=
    if negb (contains employee_guard content)
    then replace employee_old_import employee_new_import content
    else content in
  replace old_appbar new_appbar content.

Definition main : prog :=
  ReadText stock_path (λ content,
    let content := patch_stock content in
    WriteText stock_path content
      (Print ([10003%N] ++ lit " Updated stock_screen.dart")
      (ReadText employee_path (λ content,
         let content := patch_employee content in
         WriteText employee_path content
           (Print ([10003%N] ++ lit " Updated employee_screen.dart")
           (Print (lit "
" ++ [9989%N] ++ lit " Both files updated successfully!")
           (Halt Completed))))))).

End fix_reports.

(** *** fix_vehicles_table.py *)
Module fix_vehicles_table.

Definition file_path : string := "lib/database/database_helper.dart".

Definition create_marker : str := lit "CREATE TABLE vehicles(".

Definition end_marker : str := lit "''')".

(** The lines of the new table definition, in the order of the
    [output_lines.append(...)] calls. *)
Definition new_table : list str :=
  [(lit "    await db.execute('''
");
   (lit "      CREATE TABLE vehicles(
");
   (lit "        id INTEGER PRIMARY KEY AUTOINCREMENT,
");
   (lit "        make TEXT NOT NULL,
");
   (lit "        model TEXT NOT NULL,
");
   (lit "        year INTEGER NOT NULL,
");
   (lit "        registrationNumber TEXT NOT NULL UNIQUE,
");
   (lit "        assignedDriverId INTEGER,
");
   (lit "        assignedDriverName TEXT,
");
   (lit "        licenseDiskExpiry TEXT,
");
   (lit "        lastRenewalDate TEXT,
");
   (lit "        diskNumber TEXT,
");
   (lit "        currentKm INTEGER DEFAULT 0,
");
   (lit "        lastServiceKm INTEGER DEFAULT 0,
");
   (lit "        serviceIntervalKm INTEGER DEFAULT 10000,
");
   (lit "        nextServiceKm INTEGER DEFAULT 10000,
");
   (lit "        createdAt TEXT NOT NULL,
");
   (lit "        updatedAt TEXT NOT NULL,
");
   (lit "        FOREIGN KEY (assignedDriverId) REFERENCES employees(id) ON DELETE SET NULL
");
   (lit "      )
");
   (lit "    ''');
")].

(** The variables the loop updates. *)
Record loop_state := LoopState {
  output_lines : list str;
  in_vehicles_table : bool;
  skip_until_semicolon : bool
}.

(** One turn of [for i, line in enumerate(lines)]; each [continue] ends
    the turn. *)
Definition loop_body (st : loop_state) (line : str) : loop_state :=
  if contains create_marker line then
    LoopState (output_lines st ++ new_table) true true
  else if skip_until_semicolon st then
    if contains end_marker line
    then LoopState (output_lines st) false false
    else st
  else
    LoopState (output_lines st ++ [line]) (in_vehicles_table st)
      (skip_until_semicolon st).

Definition patch (lines : list str) : list str :=
  output_lines (fold_left loop_body lines (LoopState [] false false)).

Definition main : prog :=
  ReadText file_path (λ content,
    let lines := readlines content in
    WriteText file_path (writelines (patch lines))
      (Print ([9989%N] ++ lit " CREATE TABLE vehicles updated with ALL fields!")
      (Print (lit "   - License disk fields: licenseDiskExpiry, lastRenewalDate, diskNumber")
      (Print (lit "   - KM tracking fields: currentKm, lastServiceKm, serviceIntervalKm, nextServiceKm")
      (Halt Completed))))).

End fix_vehicles_table.

(** *** simple_db_fix.py *)
Module simple_db_fix.
Section with_re.
Context (re : re_module).

Definition file_path : string := "lib/database/database_helper.dart".

Definition km_records_table : str := lit "
    // ==========================================================================
    // TABLE 15: KM RECORDS
    // ==========================================================================
    await db.execute('''
      CREATE TABLE km_records(
        id INTEGER PRIMARY KEY AUTOINCREMENT,
        vehicleId INTEGER NOT NULL,
        kmReading INTEGER NOT NULL,
        recordedDate TEXT NOT NULL,
        notes TEXT,
        createdAt TEXT NOT NULL,
        updatedAt TEXT NOT NULL,
        FOREIGN KEY (vehicleId) REFERENCES vehicles(id) ON DELETE CASCADE
      )
    ''');

    // ==========================================================================
    // TABLE 16: SERVICE RECORDS
    // ==========================================================================
    await db.execute('''
      CREATE TABLE service_records(
        id INTEGER PRIMARY KEY AUTOINCREMENT,
        vehicleId INTEGER NOT NULL,
        serviceKm INTEGER NOT NULL,
        serviceDate TEXT NOT NULL,
        serviceType TEXT NOT NULL,
        cost REAL,
        notes TEXT,
        createdAt TEXT NOT NULL,
        updatedAt TEXT NOT NULL,
        FOREIGN KEY (vehicleId) REFERENCES vehicles(id) ON DELETE CASCADE
      )
    ''');

".

Definition patch (content : str) : str :=
  let content :=
    re_sub re (lit "version: \d+,") (lit "version: 6,") content [] in
  let content :=
    re_sub re (lit "(assignedDriverName TEXT,)\s*\n(\s*createdAt TEXT NOT NULL,)") (lit "\1\n        licenseDiskExpiry TEXT,\n        lastRenewalDate TEXT,\n        diskNumber TEXT,\n        currentKm INTEGER DEFAULT 0,\n        lastServiceKm INTEGER DEFAULT 0,\n        serviceIntervalKm INTEGER DEFAULT 10000,\n        nextServiceKm INTEGER DEFAULT 10000,\n\2") content [] in
  let content :=
    replace (lit "    // ==========================================================================
    // INDEXES") (km_records_table ++ (lit "    // ==========================================================================
    // INDEXES"))
      content in
  content.

Definition main : prog :=
  ReadText file_path (λ content,
    let content := patch content in
    WriteText file_path content
      (Print ([9989%N] ++ lit " Database schema fixed!")
      (Print (lit "   Version: 6")
      (Print (lit "   CREATE TABLE vehicles: Added all missing fields")
      (Print (lit "   Added km_records and service_records tables")
      (Halt Completed)))))).

End with_re.
End simple_db_fix.

(** *** update_cash_breakdown.py *)
Module update_cash_breakdown.

Definition file_path : string := "lib/database/database_helper.dart".

Definition old_method : str := lit "  /// Get cash breakdown from all income records
  /// Returns total notes and coin denominations
  Future<Map<String, double>> getCashBreakdown() async {
    final db = await database;
    
    // Query all income records
    final result = await db.rawQuery('''
      SELECT 
        SUM(notes) as totalNotes,
        SUM(amountR5) as totalR5,
        SUM(amountR2) as totalR2,
        SUM(amountR1) as totalR1,
        SUM(amount50c) as total50c
      FROM income
    ''');
    
    if (result.isEmpty || result.first['totalNotes'] == null) {
      return {
        'notes': 0.0,
        'r5': 0.0,
        'r2': 0.0,
        'r1': 0.0,
        '50c': 0.0,
      };
    }
    
    final data = result.first;
    return {
      'notes': (data['totalNotes'] as num?)?.toDouble() ?? 0.0,
      'r5': (data['totalR5'] as num?)?.toDouble() ?? 0.0,
      'r2': (data['totalR2'] as num?)?.toDouble() ?? 0.0,
      'r1': (data['totalR1'] as num?)?.toDouble() ?? 0.0,
      '50c': (data['total50c'] as num?)?.toDouble() ?? 0.0,
    };
  }".

Definition new_method : str := lit "  /// Get cash breakdown (income - expenses)
  /// Returns actual cash on hand by denomination
  Future<Map<String, double>> getCashBreakdown() async {
    final db = await database;
    
    // Get total income by denomination
    final incomeResult = await db.rawQuery('''
      SELECT 
        COALESCE(SUM(notes), 0) as totalNotes,
        COALESCE(SUM(amountR5), 0) as totalR5,
        COALESCE(SUM(amountR2), 0) as totalR2,
        COALESCE(SUM(amountR1), 0) as totalR1,
        COALESCE(SUM(amount50c), 0) as total50c
      FROM income
    ''');
    
    // Get total expenses by denomination
    final expenseResult = await db.rawQuery('''
      SELECT 
        COALESCE(SUM(notes), 0) as totalNotes,
        COALESCE(SUM(amountR5), 0) as totalR5,
        COALESCE(SUM(amountR2), 0) as totalR2,
        COALESCE(SUM(amountR1), 0) as totalR1,
        COALESCE(SUM(amount50c), 0) as total50c
      FROM expenses
    ''');
    
    final incomeData = incomeResult.first;
    final expenseData = expenseResult.first;
    
    // Calculate net amounts (income - expenses)
    return {
      'notes': ((incomeData['totalNotes'] as num?)?.toDouble() ?? 0.0) - 
               ((expenseData['totalNotes'] as num?)?.toDouble() ?? 0.0),
      'r5': ((incomeData['totalR5'] as num?)?.toDouble() ?? 0.0) - 
            ((expenseData['totalR5'] as num?)?.toDouble() ?? 0.0),
      'r2': ((incomeData['totalR2'] as num?)?.toDouble() ?? 0.0) - 
            ((expenseData['totalR2'] as num?)?.toDouble() ?? 0.0),
      'r1': ((incomeData['totalR1'] as num?)?.toDouble() ?? 0.0) - 
            ((expenseData['totalR1'] as num?)?.toDouble() ?? 0.0),
      '50c': ((incomeData['total50c'] as num?)?.toDouble() ?? 0.0) - 
             ((expenseData['total50c'] as num?)?.toDouble() ?? 0.0),
    };
  }".

Definition patch (content : str) : str := replace old_method new_method content.

Definition main : prog :=
  ReadText file_path (λ content,
    let content := patch content in
    WriteText file_path content
      (Print ([9989%N] ++ lit " Updated getCashBreakdown() to include expenses!") (Halt Completed))).

End update_cash_breakdown.

(** *** update_db_v6.py *)
Module update_db_v6.

Definition file_path : string := "lib/database/database_helper.dart".

Definition old_create_vehicles : str := lit "    await db.execute('''
      CREATE TABLE vehicles(
        id INTEGER PRIMARY KEY AUTOINCREMENT,
        make TEXT NOT NULL,
        model TEXT NOT NULL,
        year INTEGER NOT NULL,
        registrationNumber TEXT NOT NULL UNIQUE,
        assignedDriverId INTEGER,
        assignedDriverName TEXT,
        licenseDiskExpiry TEXT,
        lastRenewalDate TEXT,
        diskNumber TEXT,
        createdAt TEXT NOT NULL,
        updatedAt TEXT NOT NULL,
        FOREIGN KEY (assignedDriverId) REFERENCES employees(id) ON DELETE SET NULL
      )
    ''');".

Definition new_create_vehicles : str := lit "    await db.execute('''
      CREATE TABLE vehicles(
        id INTEGER PRIMARY KEY AUTOINCREMENT,
        make TEXT NOT NULL,
        model TEXT NOT NULL,
        year INTEGER NOT NULL,
        registrationNumber TEXT NOT NULL UNIQUE,
        assignedDriverId INTEGER,
        assignedDriverName TEXT,
        licenseDiskExpiry TEXT,
        lastRenewalDate TEXT,
        diskNumber TEXT,
        currentKm INTEGER DEFAULT 0,
        lastServiceKm INTEGER DEFAULT 0,
        serviceIntervalKm INTEGER DEFAULT 10000,
        nextServiceKm INTEGER DEFAULT 10000,
        createdAt TEXT NOT NULL,
        updatedAt TEXT NOT NULL,
        FOREIGN KEY (assignedDriverId) REFERENCES employees(id) ON DELETE SET NULL
      )
    ''');".

Definition old_upgrade_end : str := (lit "      await db.execute('ALTER TABLE vehicles ADD COLUMN licenseDiskExpiry TEXT');
      await db.execute('ALTER TABLE vehicles ADD COLUMN lastRenewalDate TEXT');
      await db.execute('ALTER TABLE vehicles ADD COLUMN diskNumber TEXT');
      
      print('" ++ [9989%N] ++ lit " Database upgraded to v5: Vehicle license disk fields added');
    }
  }").

Definition new_upgrade_end : str := (lit "      await db.execute('ALTER TABLE vehicles ADD COLUMN licenseDiskExpiry TEXT');
      await db.execute('ALTER TABLE vehicles ADD COLUMN lastRenewalDate TEXT');
      await db.execute('ALTER TABLE vehicles ADD COLUMN diskNumber TEXT');
      
      print('" ++ [9989%N] ++ lit " Database upgraded to v5: Vehicle license disk fields added');
    }

    // Upgrade to version 6: Add KM tracking
    if (oldVersion < 6) {
      // Add KM tracking fields to vehicles table
      await db.execute('ALTER TABLE vehicles ADD COLUMN currentKm INTEGER DEFAULT 0');
      await db.execute('ALTER TABLE vehicles ADD COLUMN lastServiceKm INTEGER DEFAULT 0');
      await db.execute('ALTER TABLE vehicles ADD COLUMN serviceIntervalKm INTEGER DEFAULT 10000');
      await db.execute('ALTER TABLE vehicles ADD COLUMN nextServiceKm INTEGER DEFAULT 10000');
      
      // Create km_records table
      await db.execute('''
        CREATE TABLE km_records(
          id INTEGER PRIMARY KEY AUTOINCREMENT,
          vehicleId INTEGER NOT NULL,
          kmReading INTEGER NOT NULL,
          recordedDate TEXT NOT NULL,
          notes TEXT,
          createdAt TEXT NOT NULL,
          FOREIGN KEY (vehicleId) REFERENCES vehicles(id) ON DELETE CASCADE
        )
      ''');
      
      await db.execute('CREATE INDEX IF NOT EXISTS idx_km_records_vehicleId ON km_records(vehicleId)');
      await db.execute('CREATE INDEX IF NOT EXISTS idx_km_records_date ON km_records(recordedDate)');
      
      // Create service_records table
      await db.execute('''
        CREATE TABLE service_records(
          id INTEGER PRIMARY KEY AUTOINCREMENT,
          vehicleId INTEGER NOT NULL,
          serviceKm INTEGER NOT NULL,
          serviceDate TEXT NOT NULL,
          serviceType TEXT NOT NULL,
          cost REAL,
          notes TEXT,
          createdAt TEXT NOT NULL,
          FOREIGN KEY (vehicleId) REFERENCES vehicles(id) ON DELETE CASCADE
        )
      ''');
      
      await db.execute('CREATE INDEX IF NOT EXISTS idx_service_records_vehicleId ON service_records(vehicleId)');
      await db.execute('CREATE INDEX IF NOT EXISTS idx_service_records_date ON service_records(serviceDate)');
      
      print('" ++ [9989%N] ++ lit " Database upgraded to v6: KM tracking and service records added');
    }
  }").

Definition patch (content : str) : str :=
  let content := replace (lit "version: 5,  // " ++ [8592%N] ++ lit " UPDATED: Changed from 3 to 5") (lit "version: 6,  // " ++ [8592%N] ++ lit " UPDATED: Changed from 5 to 6 for KM tracking") content in
  let content := replace old_create_vehicles new_create_vehicles content in
  let content := replace old_upgrade_end new_upgrade_end content in
  content.

Definition main : prog :=
  ReadText file_path (λ content,
    let content := patch content in
    WriteText file_path content
      (Print ([9989%N] ++ lit " Database helper updated to version 6")
      (Print (lit "   - Added currentKm, lastServiceKm, serviceIntervalKm, nextServiceKm to vehicles table")
      (Print (lit "   - Added km_records table")
      (Print (lit "   - Added service_records table")
      (Halt Completed)))))).

End update_db_v6.

(** *** update_expense_schema.py *)
Module update_expense_schema.

(** The file is not a Python program: the literal that starts at
    [old_expenses_table = '''] ends at the [''']  of the Dart text on the
    same line, and the next line is an unexpected indent.  The interpreter
    refuses the file before it runs a statement of it. *)
Definition file_path : string := "lib/database/database_helper.dart".

Definition main : prog := Halt (Raised "SyntaxError").

End update_expense_schema.

(** *** update_vehicle_cards_km.py *)
Module update_vehicle_cards_km.

Definition file_path : string := "lib/screens/vehicle_screen.dart".

Definition old_card_section : str := lit "                      ],
                    ],
                  ),
                ),

                // Actions Menu
                PopupMenuButton<String>(".

Definition new_card_section : str := lit "                      ],
                      // KM and Service Status
                      const SizedBox(height: 8),
                      Row(
                        children: [
                          Icon(
                            Icons.speed,
                            size: 14,
                            color: AppTheme.darkBrown.withOpacity(0.7),
                          ),
                          const SizedBox(width: 4),
                          Text(
                            'KM: ${vehicle.currentKm}',
                            style: Theme.of(context).textTheme.bodySmall?.copyWith(
                                  fontWeight: FontWeight.w600,
                                ),
                          ),
                          const SizedBox(width: 12),
                          Icon(
                            vehicle.serviceStatus.icon,
                            size: 14,
                            color: vehicle.serviceStatus.color,
                          ),
                          const SizedBox(width: 4),
                          Text(
                            vehicle.isServiceDue 
                                ? 'Service Due!'
                                : '${vehicle.kmUntilService} km to service',
                            style: Theme.of(context).textTheme.bodySmall?.copyWith(
                                  color: vehicle.serviceStatus.color,
                                  fontWeight: FontWeight.w600,
                                ),
                          ),
                        ],
                      ),
                    ],
                  ),
                ),

                // Actions Menu
                PopupMenuButton<String>(".

Definition old_popup_menu : str := lit "                  itemBuilder: (context) => [
                    const PopupMenuItem(
                      value: 'edit',
                      child: Row(
                        children: [
                          Icon(Icons.edit, size: 20),
                          SizedBox(width: 8),
                          Text('Edit'),
                        ],
                      ),
                    ),
                    const PopupMenuItem(
                      value: 'delete',
                      child: Row(
                        children: [
                          Icon(Icons.delete, size: 20),
                          SizedBox(width: 8),
                          Text('Delete'),
                        ],
                      ),
                    ),
                  ],".

Definition new_popup_menu : str := lit "                  itemBuilder: (context) => [
                    const PopupMenuItem(
                      value: 'edit',
                      child: Row(
                        children: [
                          Icon(Icons.edit, size: 20),
                          SizedBox(width: 8),
                          Text('Edit'),
                        ],
                      ),
                    ),
                    const PopupMenuItem(
                      value: 'record_km',
                      child: Row(
                        children: [
                          Icon(Icons.speed, size: 20),
                          SizedBox(width: 8),
                          Text('Record KM'),
                        ],
                      ),
                    ),
                    const PopupMenuItem(
                      value: 'record_service',
                      child: Row(
                        children: [
                          Icon(Icons.build, size: 20),
                          SizedBox(width: 8),
                          Text('Record Service'),
                        ],
                      ),
                    ),
                    const PopupMenuItem(
                      value: 'delete',
                      child: Row(
                        children: [
                          Icon(Icons.delete, size: 20),
                          SizedBox(width: 8),
                          Text('Delete'),
                        ],
                      ),
                    ),
                  ],".

Definition old_onselected : str := lit "                  onSelected: (value) {
                    if (value == 'edit') {
                      _showEditVehicleDialog(vehicle);
                    } else if (value == 'delete') {
                      _deleteVehicle(vehicle);
                    }
                  },".

Definition new_onselected : str := lit "                  onSelected: (value) {
                    if (value == 'edit') {
                      _showEditVehicleDialog(vehicle);
                    } else if (value == 'record_km') {
                      _showKmRecordDialog(vehicle);
                    } else if (value == 'record_service') {
                      _showServiceRecordDialog(vehicle);
                    } else if (value == 'delete') {
                      _deleteVehicle(vehicle);
                    }
                  },".

Definition patch (content : str) : str :=
  let content := replace old_card_section new_card_section content in
  let content := replace old_popup_menu new_popup_menu content in
  let content := replace old_onselected new_onselected content in
  content.

Definition main : prog :=
  ReadText file_path (λ content,
    let content := patch content in
    WriteText file_path content
      (Print ([9989%N] ++ lit " Vehicle cards updated!")
      (Print (lit "   - Added KM display (current KM)")
      (Print (lit "   - Added service status (KM until service)")
      (Print (lit "   - Added Record KM/Service to card menu")
      (Print (lit "
" ++ [127881%N] ++ lit " Vehicle screen KM integration COMPLETE!")
      (Halt Completed))))))).

End update_vehicle_cards_km.

(** *** update_vehicle_screen_km.py *)
Module update_vehicle_screen_km.

Definition file_path : string := "lib/screens/vehicle_screen.dart".

Definition imports_to_add : str := lit "import 'package:a_one_bakeries_app/widgets/add_km_record_dialog.dart';
import 'package:a_one_bakeries_app/widgets/add_service_record_dialog.dart';".

Definition old_appbar_actions : str := lit "        actions: [
          IconButton(
            icon: const Icon(Icons.assessment),
            onPressed: () {
              Navigator.push(
                context,
                MaterialPageRoute(
                  builder: (context) => const VehicleDiskDashboardScreen(),
                ),
              );
            },
            tooltip: 'License Disk Dashboard',
          ),
        ],".

Definition new_appbar_actions : str := lit "        actions: [
          IconButton(
            icon: const Icon(Icons.assessment),
            onPressed: () {
              Navigator.push(
                context,
                MaterialPageRoute(
                  builder: (context) => const VehicleDiskDashboardScreen(),
                ),
              );
            },
            tooltip: 'License Disk Dashboard',
          ),
          PopupMenuButton<String>(
            icon: const Icon(Icons.more_vert),
            tooltip: 'KM Tracking',
            onSelected: (value) {
              if (value == 'record_km' && _filteredVehicles.isNotEmpty) {
                _showKmRecordDialog(_filteredVehicles.first);
              } else if (value == 'record_service' && _filteredVehicles.isNotEmpty) {
                _showServiceRecordDialog(_filteredVehicles.first);
              }
            },
            itemBuilder: (context) => [
              const PopupMenuItem(
                value: 'record_km',
                child: Row(
                  children: [
                    Icon(Icons.speed, size: 20),
                    SizedBox(width: 8),
                    Text('Record KM'),
                  ],
                ),
              ),
              const PopupMenuItem(
                value: 'record_service',
                child: Row(
                  children: [
                    Icon(Icons.build, size: 20),
                    SizedBox(width: 8),
                    Text('Record Service'),
                  ],
                ),
              ),
            ],
          ),
        ],".

Definition dialog_methods : str := lit "
  /// Show KM record dialog
  Future<void> _showKmRecordDialog(Vehicle vehicle) async {
    final result = await showDialog<bool>(
      context: context,
      builder: (context) => AddKmRecordDialog(vehicle: vehicle),
    );
    
    if (result == true) {
      _loadVehicles();
      if (mounted) {
        ScaffoldMessenger.of(context).showSnackBar(
          const SnackBar(
            content: Text('KM record saved successfully'),
            backgroundColor: AppTheme.successGreen,
          ),
        );
      }
    }
  }

  /// Show service record dialog
  Future<void> _showServiceRecordDialog(Vehicle vehicle) async {
    final result = await showDialog<bool>(
      context: context,
      builder: (context) => AddServiceRecordDialog(vehicle: vehicle),
    );
    
    if (result == true) {
      _loadVehicles();
      if (mounted) {
        ScaffoldMessenger.of(context).showSnackBar(
          const SnackBar(
            content: Text('Service record saved successfully'),
            backgroundColor: AppTheme.successGreen,
          ),
        );
      }
    }
  }
".

Definition patch (content : str) : str :=
  let content :=
    replace (lit "import 'package:a_one_bakeries_app/widgets/add_edit_vehicle_dialog.dart';")
      ((lit "import 'package:a_one_bakeries_app/widgets/add_edit_vehicle_dialog.dart';
") ++ imports_to_add) content in
  let content := replace old_appbar_actions new_appbar_actions content in
  let content :=
    replace (lit "  @override
  Widget build(BuildContext context) {")
      (dialog_methods ++ (lit "
  @override
  Widget build(BuildContext context) {")) content in
  content.

Definition main : prog :=
  ReadText file_path (λ content,
    let content := patch content in
    WriteText file_path content
      (Print ([9989%N] ++ lit " Vehicle screen updated!")
      (Print (lit "   - Added KM/Service dialog imports")
      (Print (lit "   - Added PopupMenu to AppBar for KM tracking")
      (Print (lit "   - Added dialog methods")
      (Print (lit "
Next: Update vehicle cards to show KM/service status")
      (Halt Completed))))))).

End update_vehicle_screen_km.

(** *** The scripts as a table: name, the paths hardcoded in it, body *)
Record script := Script {
  script_name : string;
  script_paths : list string;
  script_body : prog
}.

Section scripts.
Context (re : re_module).

Definition scripts : list script := [
  Script "add_cash_breakdown_method.py"
    [add_cash_breakdown_method.file_path] add_cash_breakdown_method.main;
  Script "add_dashboard_breakdown.py"
    [add_dashboard_breakdown.file_path] (add_dashboard_breakdown.main re);
  Script "add_dashboard_card.py"
    [add_dashboard_card.file_path] add_dashboard_card.main;
  Script "add_expense_notes_coins.py"
    [add_expense_notes_coins.file_path] add_expense_notes_coins.main;
  Script "add_final_reports.py"
    [add_final_reports.supplier_path; add_final_reports.orders_path]
    add_final_reports.main;
  Script "add_km_db_methods.py"
    [add_km_db_methods.file_path] add_km_db_methods.main;
  Script "add_km_to_vehicle.py"
    [add_km_to_vehicle.file_path] (add_km_to_vehicle.main re);
  Script "add_settings_icon.py"
    [add_settings_icon.file_path] add_settings_icon.main;
  Script "add_settings_method.py"
    [add_settings_method.file_path] add_settings_method.main;
  Script "final_dashboard_fix.py"
    [final_dashboard_fix.file_path] final_dashboard_fix.main;
  Script "final_db_fix.py"
    [final_db_fix.file_path] final_db_fix.main;
  Script "fix_db_path_production.py"
    [fix_db_path_production.file_path] fix_db_path_production.main;
  Script "fix_expenses_table.py"
    [fix_expenses_table.file_path] fix_expenses_table.main;
  Script "fix_new_reports.py"
    [fix_new_reports.supplier_path; fix_new_reports.orders_path]
    (fix_new_reports.main re);
  Script "fix_reports.py"
    [fix_reports.stock_path; fix_reports.employee_path] fix_reports.main;
  Script "fix_vehicle_lookup.py"
    [fix_vehicle_lookup.file_path] fix_vehicle_lookup.main;
  Script "fix_vehicles_table.py"
    [fix_vehicles_table.file_path] fix_vehicles_table.main;
  Script "make_notes_optional.py"
    [make_notes_optional.file_path] make_notes_optional.main;
  Script "remove_duplicates.py"
    [remove_duplicates.file_path] remove_duplicates.main;
  Script "simple_db_fix.py"
    [simple_db_fix.file_path] (simple_db_fix.main re);
  Script "update_cash_breakdown.py"
    [update_cash_breakdown.file_path] update_cash_breakdown.main;
  Script "update_db_coins.py"
    [update_db_coins.file_path] (update_db_coins.main re);
  Script "update_db_v6.py"
    [update_db_v6.file_path] update_db_v6.main;
  Script "update_expense_schema.py"
    [update_expense_schema.file_path] update_expense_schema.main;
  Script "update_vehicle_cards_km.py"
    [update_vehicle_cards_km.file_path] update_vehicle_cards_km.main;
  Script "update_vehicle_screen_km.py"
    [update_vehicle_screen_km.file_path] update_vehicle_screen_km.main
].

End scripts.

(** ** Notions the properties are stated with *)

(** Line [j] of [lines] contains ['description TEXT NOT NULL,'] and is, or
    comes after, a line that contains ['CREATE TABLE expenses(']. *)
Definition marker_pair_at (lines : list str) (j : nat) : bool :=
  match lines !! j with
  | Some l => contains fix_expenses_table.description_marker l
  | None => false
  end
  && existsb (contains fix_expenses_table.create_marker) (take (S j) lines).


(** Line [i] is the first line of [lines] that contains
    ['KM TRACKING OPERATIONS']. *)
Definition first_km_line (lines : list str) (i : nat) : Prop :=
  (∃ l, lines !! i = Some l ∧ contains remove_duplicates.km_marker l = true) ∧
  ∀ j l, j < i → lines !! j = Some l →
         contains remove_duplicates.km_marker l = false.

(** A script confined to the paths [P]: every file it opens, for reading
    or for writing, is one of them. *)
Inductive confined (P : list string) : prog → Prop :=
  | confined_halt t : confined P (Halt t)
  | confined_read path k :
      path ∈ P → (∀ content, confined P (k content)) →
      confined P (ReadText path k)
  | confined_write path text k :
      path ∈ P → confined P k → confined P (WriteText path text k)
  | confined_print text k : confined P k → confined P (Print text k).


(** Every file of [P] is there. *)
Definition present (P : list string) (fs : gmap string str) : Prop :=
  ∀ path, path ∈ P → is_Some (fs !! path).

(** Every way through the script that ends, ends in a way [T] accepts. *)
Inductive ends_in (T : termination → Prop) : prog → Prop :=
  | ends_in_halt t : T t → ends_in T (Halt t)
  | ends_in_read path k :
      (∀ content, ends_in T (k content)) → ends_in T (ReadText path k)
  | ends_in_write path text k : ends_in T k → ends_in T (WriteText path text k)
  | ends_in_print text k : ends_in T k → ends_in T (Print text k).




(** ** Notions for the properties of repeated runs *)

(** One of two texts is the beginning of the other. *)
Definition overlap (a b : str) : bool := starts_with a b || starts_with b a.

(** No match of [old] can begin in front of, or inside, a [new] that
    stands where an [old] stood: no proper end of [old] and no end of [new]
    overlaps the beginning of the other text. *)
Definition clean_borders (old new : str) : bool :=
  forallb (λ k, negb (overlap (drop k old) new)) (seq 1 (length old - 1))
  && forallb (λ k, negb (overlap old (drop k new))) (seq 0 (length new)).

(** Line [i] is the first line of [lines] that contains [marker]. *)
Definition first_line_with (marker : str) (lines : list str) (i : nat) : Prop :=
  (∃ l, lines !! i = Some l ∧ contains marker l = true) ∧
  ∀ j l, j < i → lines !! j = Some l → contains marker l = false.

(** Line [j] of [lines] is a closing brace on a line of its own. *)
Definition brace_line (lines : list str) (j : nat) : Prop :=
  ∃ l, lines !! j = Some l ∧ strip l = lit "}".

(** The first file the script opens is [path], to read it: nothing is
    written before. *)
Inductive opens_first (path : string) : prog → Prop :=
  | opens_first_read k : opens_first path (ReadText path k)
  | opens_first_print text k :
      opens_first path k → opens_first path (Print text k).

(** * Properties *)

(** ** Text operations on concrete inputs *)

Example contains_ex : contains (lit "NOT") (lit "amount REAL NOT NULL,") = true.
Proof. reflexivity. Qed.

Example replace_ex :
  replace (lit "ab") (lit "x") (lit "ababab-aab") = lit "xxx-ax".
Proof. reflexivity. Qed.

Example replace_count_ex :
  replace_count (lit "aa") (lit "b") (Some 1) (lit "aaaa") = lit "baa".
Proof. reflexivity. Qed.

Example replace_overlap_ex : replace (lit "aa") (lit "b") (lit "aaa") = lit "ba".
Proof. reflexivity. Qed.

Example replace_empty_ex :
  replace_count [] (lit "-") (Some 2) (lit "abc") = lit "-a-bc".
Proof. reflexivity. Qed.

Example readlines_ex :
  readlines (lit "a
b

c") = [lit "a
"; lit "b
"; lit "
"; lit "c"].
Proof. reflexivity. Qed.

Example strip_ex : strip (lit "  }
") = lit "}".
Proof. reflexivity. Qed.

Example str_of_int_ex : str_of_int 42 = lit "42" /\ str_of_int (-1) = lit "-1".
Proof. split; reflexivity. Qed.

(** ** Lemmas about the text operations *)

Lemma starts_with_app (p r : str) : starts_with p (p ++ r) = true.
Proof.
  induction p as [|a p IH]; simpl; [done|].
  by rewrite N.eqb_refl, IH.
Qed.

Lemma starts_with_split (p s : str) :
  starts_with p s = true → s = p ++ drop (length p) s.
Proof.
  revert s; induction p as [|a p IH]; intros [|b s]; simpl; try done.
  intros [Hab Hps]%andb_true_iff.
  apply N.eqb_eq in Hab as ->. f_equal. by apply IH.
Qed.

Lemma starts_with_iff (p s : str) :
  starts_with p s = true ↔ ∃ r, s = p ++ r.
Proof.
  split.
  - intros H. exists (drop (length p) s). by apply starts_with_split.
  - intros [r ->]. apply starts_with_app.
Qed.

Lemma contains_unfold (sub s : str) :
  contains sub s =
  starts_with sub s || match s with [] => false | _ :: t => contains sub t end.
Proof. by destruct s. Qed.

Lemma contains_iff (sub s : str) :
  contains sub s = true ↔ ∃ pre post, s = pre ++ sub ++ post.
Proof.
  split.
  - induction s as [|c s IH]; simpl.
    + rewrite orb_false_r. intros [r Hr]%starts_with_iff. by exists [], r.
    + intros [H|H]%orb_true_iff.
      * apply starts_with_iff in H as [r Hr]. by exists [], r.
      * destruct (IH H) as (pre & post & ->). by exists (c :: pre), post.
  - intros (pre & post & ->). induction pre as [|c pre IH].
    + rewrite contains_unfold. simpl. by rewrite starts_with_app.
    + simpl. rewrite IH. apply orb_true_r.
Qed.

Lemma contains_app_l (sub a b : str) :
  contains sub a = true → contains sub (a ++ b) = true.
Proof.
  rewrite !contains_iff. intros (pre & post & ->).
  exists pre, (post ++ b). by rewrite <- !app_assoc.
Qed.

Lemma contains_app_r (sub a b : str) :
  contains sub b = true → contains sub (a ++ b) = true.
Proof.
  rewrite !contains_iff. intros (pre & post & ->).
  exists (a ++ pre), post. by rewrite <- !app_assoc.
Qed.

Lemma contains_refl (s : str) : contains s s = true.
Proof. apply contains_iff. exists [], []. by rewrite app_nil_r. Qed.

(** [find] answers the split of the text at the first occurrence. *)
Lemma find_Some_split (sub s : str) (i : nat) :
  find sub s = Some i →
  s = take i s ++ sub ++ drop (i + length sub) s.
Proof.
  revert i; induction s as [|c s IH]; intros i; simpl.
  - destruct (starts_with sub []) eqn:E; [|done].
    intros [= <-]. by apply starts_with_split in E.
  - destruct (starts_with sub (c :: s)) eqn:E.
    + intros [= <-]. by apply starts_with_split in E.
    + destruct (find sub s) as [j|] eqn:Ej; [|done].
      intros [= <-]. simpl. f_equal. by apply IH.
Qed.

Lemma find_is_Some (sub s : str) :
  contains sub s = true → ∃ i, find sub s = Some i.
Proof.
  induction s as [|c s IH]; simpl.
  - rewrite orb_false_r. intros ->. eauto.
  - destruct (starts_with sub (c :: s)); simpl; [eauto|].
    intros [i ->]%IH. simpl. eauto.
Qed.

Lemma find_Some_contains (sub s : str) (i : nat) :
  find sub s = Some i → contains sub s = true.
Proof.
  intros H%find_Some_split. apply contains_iff. eauto.
Qed.

Lemma occurrences_nil (sub s : str) :
  occurrences sub s = [] ↔ contains sub s = false.
Proof.
  induction s as [|c s IH]; simpl.
  - destruct (starts_with sub []); simpl; split; done.
  - destruct (starts_with sub (c :: s)); simpl; [split; done|].
    rewrite <- IH. destruct (occurrences sub s); simpl; split; done.
Qed.

Lemma occurrences_contains (sub s : str) :
  0 < length (occurrences sub s) → contains sub s = true.
Proof.
  intros H. apply not_false_iff_true. intros E%occurrences_nil.
  rewrite E in H. simpl in H. lia.
Qed.

(** ** [str.replace] *)

(** Passing over the rest of the occurrence just replaced. *)
Lemma replace_scan_skip (old new : str) (count : option nat) (p s : str) :
  replace_scan old new count (length p) (p ++ s) = replace_scan old new count 0 s.
Proof. induction p as [|c p IH]; simpl; [|done]. by destruct s. Qed.

Lemma replace_scan_done (old new s : str) :
  replace_scan old new (Some 0) 0 s = s.
Proof. by destruct s. Qed.

Section replace_nonempty.
Context (o : char) (old' new : str).
Local Abbreviation old := (o :: old') (only parsing).

Lemma replace_scan_match (count : option nat) (s : str) :
  count ≠ Some 0 → starts_with old s = true →
  replace_scan old new count 0 s =
  new ++ replace_scan old new (pred <$> count) 0 (drop (length old) s).
Proof.
  intros Hc Hs. pose proof (starts_with_split _ _ Hs) as E.
  destruct s as [|c t]; [done|].
  injection E as -> E. change (drop (length old) (o :: t)) with (drop (length old') t).
  assert (replace_scan old new count 0 (o :: t) =
          new ++ replace_scan old new (pred <$> count) (length old') t) as ->.
  { cbn [replace_scan]. rewrite Hs.
    replace (length old - 1) with (length old') by (simpl; lia).
    by destruct count as [[|n]|]. }
  f_equal. rewrite E at 1. apply replace_scan_skip.
Qed.

Lemma replace_scan_no_match (count : option nat) (c : char) (t : str) :
  count ≠ Some 0 → starts_with old (c :: t) = false →
  replace_scan old new count 0 (c :: t) = c :: replace_scan old new count 0 t.
Proof.
  intros Hc Hs. cbn [replace_scan]. rewrite Hs. by destruct count as [[|n]|].
Qed.

(** Without an occurrence of [old] the text comes back as it is. *)
Lemma replace_scan_absent (count : option nat) (s : str) :
  contains old s = false → replace_scan old new count 0 s = s.
Proof.
  induction s as [|c t IH]; [done|].
  rewrite contains_unfold. intros [Hs Ht]%orb_false_iff.
  destruct (decide (count = Some 0)) as [->|Hc]; [done|].
  rewrite replace_scan_no_match by done. f_equal. by apply IH.
Qed.

(** With an occurrence, the first one is replaced and the scan goes on
    behind it. *)
Lemma replace_scan_find (count : option nat) (s : str) (i : nat) :
  count ≠ Some 0 → find old s = Some i →
  replace_scan old new count 0 s =
  take i s ++ new ++
  replace_scan old new (pred <$> count) 0 (drop (i + length old) s).
Proof.
  intros Hc. revert i; induction s as [|c t IH]; intros i; [done|].
  cbn [find]. destruct (starts_with old (c :: t)) eqn:Hs.
  - intros [= <-]. by rewrite replace_scan_match.
  - destruct (find old t) as [j|] eqn:Ej; [|done]. intros [= <-].
    rewrite replace_scan_no_match by done. simpl. f_equal. by apply IH.
Qed.

End replace_nonempty.

Lemma replace_count_absent (old new : str) (count : option nat) (s : str) :
  contains old s = false → replace_count old new count s = s.
Proof.
  destruct old as [|o old']; [|apply replace_scan_absent].
  rewrite contains_unfold. simpl. done.
Qed.

Lemma replace_absent (old new s : str) :
  contains old s = false → replace old new s = s.
Proof. apply replace_count_absent. Qed.

(** [s.replace(old, new, 1)] on a text with an occurrence of [old]. *)
Lemma replace_first_find (old new s : str) (i : nat) :
  old ≠ [] → find old s = Some i →
  replace_count old new (Some 1) s = take i s ++ new ++ drop (i + length old) s.
Proof.
  destruct old as [|o old']; [done|]. intros _ Hi. unfold replace_count.
  rewrite (replace_scan_find _ _ _ _ _ i) by done.
  simpl. by rewrite replace_scan_done.
Qed.

(** After [s.replace(old, new)] on a text that has [old], a search for
    [new] succeeds. *)
Lemma replace_contains_new (old new s : str) :
  contains old s = true → contains new (replace old new s) = true.
Proof.
  intros H. destruct old as [|o old'].
  - unfold replace, replace_count. destruct s; simpl; apply contains_app_l, contains_refl.
  - destruct (find_is_Some _ _ H) as [i Hi].
    unfold replace, replace_count.
    rewrite (replace_scan_find _ _ _ _ _ i) by done.
    apply contains_app_r, contains_app_l, contains_refl.
Qed.

(** ** [strip] and [readlines] *)

Lemma lstrip_split (s : str) :
  ∃ w, s = w ++ lstrip s ∧ Forall (λ c, is_space c = true) w.
Proof.
  induction s as [|c s (w & E & Hw)]; simpl.
  - by exists [].
  - destruct (is_space c) eqn:Hc.
    + exists (c :: w). split; [by simpl; f_equal|]. by constructor.
    + by exists [].
Qed.

Lemma rstrip_split (s : str) :
  ∃ w, s = rstrip s ++ w ∧ Forall (λ c, is_space c = true) w.
Proof.
  unfold rstrip. destruct (lstrip_split (rev s)) as (w & E & Hw).
  exists (rev w). split; [|by apply List.Forall_rev].
  rewrite <- rev_app_distr, <- E. by rewrite rev_involutive.
Qed.

Lemma strip_split (s : str) :
  ∃ w1 w2, s = w1 ++ strip s ++ w2 ∧
    Forall (λ c, is_space c = true) w1 ∧ Forall (λ c, is_space c = true) w2.
Proof.
  unfold strip. destruct (lstrip_split s) as (w1 & E1 & H1).
  destruct (rstrip_split (lstrip s)) as (w2 & E2 & H2).
  exists w1, w2. split; [|done]. by rewrite <- E2.
Qed.

Lemma readlines_from_concat (cur s : str) :
  concat (readlines_from cur s) = rev cur ++ s.
Proof.
  revert cur; induction s as [|c s IH]; intros cur; simpl.
  - destruct cur; simpl; [done|]. by rewrite !app_nil_r.
  - destruct (N.eqb c 10); simpl; rewrite IH; simpl; by rewrite <- app_assoc.
Qed.

(** Writing back the lines just read gives the text just read. *)
Lemma writelines_readlines (s : str) : writelines (readlines s) = s.
Proof. apply readlines_from_concat. Qed.

(** ** Running a script *)

Lemma run_read (fs : gmap string str) (path : string) (k : str → prog)
    (content : str) :
  fs !! path = Some content → run (ReadText path k) fs = run (k content) fs.
Proof. intros H. simpl. by rewrite H. Qed.

Lemma run_read_missing (fs : gmap string str) (path : string) (k : str → prog) :
  fs !! path = None →
  run (ReadText path k) fs = Outcome [] [] (Raised "FileNotFoundError") fs.
Proof. intros H. simpl. by rewrite H. Qed.

(** ** add_expense_notes_coins.py: repeated runs and repeated locators *)

Section add_expense_notes_coins_facts.
Import add_expense_notes_coins.

Lemma old_line_length : length old_line = 29.
Proof. reflexivity. Qed.

Lemma new_lines_length : length new_lines = 87.
Proof. reflexivity. Qed.

(** The replacement ends with the locator itself. *)
Lemma new_lines_has_old_line : contains old_line new_lines = true.
Proof. reflexivity. Qed.

Lemma expense_patch_absent (content : str) :
  contains old_line content = false → patch content = content.
Proof. apply replace_count_absent. Qed.

Lemma expense_patch_present (content : str) (i : nat) :
  find old_line content = Some i →
  patch content = take i content ++ new_lines ++ drop (i + length old_line) content.
Proof. intros H. by apply replace_first_find. Qed.

Lemma expense_patch_keeps_locator (content : str) :
  contains old_line content = true → contains old_line (patch content) = true.
Proof.
  intros [i Hi]%find_is_Some. rewrite (expense_patch_present _ i Hi).
  apply contains_app_r, contains_app_l, new_lines_has_old_line.
Qed.

Lemma expense_patch_grows (content : str) :
  contains old_line content = true →
  length (patch content) = length content + 58.
Proof.
  intros [i Hi]%find_is_Some. rewrite (expense_patch_present _ i Hi).
  pose proof (find_Some_split _ _ _ Hi) as E.
  apply (f_equal length) in E.
  rewrite !length_app, length_take, length_drop in *.
  rewrite new_lines_length, old_line_length in *. lia.
Qed.

Lemma add_expense_notes_coins_run (fs : gmap string str) (content : str) :
  fs !! file_path = Some content →
  behaviour (run main fs) =
  ([(file_path, patch content)],
   [[9989%N] ++ lit " Added notes and coins fields to expenses table!"],
   Completed).
Proof. intros H. unfold main. by rewrite (run_read _ _ _ _ H). Qed.

End add_expense_notes_coins_facts.

(** C1, as stated, fails: on the locator line itself a second application
    inserts the notes/coins block a second time. *)
Lemma patch_twice_counterexample :
  ¬ (∀ content : str,
       add_expense_notes_coins.patch (add_expense_notes_coins.patch content) =
       add_expense_notes_coins.patch content).
Proof.
  intros H. specialize (H add_expense_notes_coins.old_line).
  vm_compute in H. discriminate H.
Qed.

(** C1 (amended): the transformation of add_expense_notes_coins.py gives
    the same result applied twice as applied once exactly on the contents
    that do not contain the locator line; on those it returns the content
    unchanged. *)
Theorem patch_idempotent_iff_locator_absent (content : str) :
  add_expense_notes_coins.patch (add_expense_notes_coins.patch content) =
  add_expense_notes_coins.patch content
  ↔ contains add_expense_notes_coins.old_line content = false
    ∧ add_expense_notes_coins.patch content = content.
Proof.
  split.
  - intros H.
    destruct (contains add_expense_notes_coins.old_line content) eqn:E.
    + pose proof (expense_patch_grows _ (expense_patch_keeps_locator _ E)) as G.
      rewrite H in G. lia.
    + split; [done|]. by apply expense_patch_absent.
  - intros [_ H]. by rewrite !H.
Qed.

(** C4, as stated, fails: with the locator on two lines the script ends
    normally, having replaced the first one. *)
Lemma ambiguous_match_counterexample :
  ¬ (∀ (fs : gmap string str) (content : str),
       fs !! add_expense_notes_coins.file_path = Some content →
       2 ≤ length (occurrences add_expense_notes_coins.old_line content) →
       status (run add_expense_notes_coins.main fs) = Raised "AmbiguousMatch").
Proof.
  intros H.
  pose (content := add_expense_notes_coins.old_line ++ lit "
" ++ add_expense_notes_coins.old_line).
  assert (Hfs : ({[ add_expense_notes_coins.file_path := content ]}
                   : gmap string str) !! add_expense_notes_coins.file_path
                = Some content) by apply lookup_singleton_eq.
  specialize (H _ content Hfs).
  pose proof (add_expense_notes_coins_run _ _ Hfs) as B.
  apply (f_equal snd) in B. change (status (run add_expense_notes_coins.main
    {[ add_expense_notes_coins.file_path := content ]}) = Completed) in B.
  rewrite B in H.
  discriminate H. vm_compute. lia.
Qed.

(** C4 (amended): when the locator line occurs two or more times,
    add_expense_notes_coins.py replaces the first occurrence only, leaves
    the text behind it as it is, writes the result and ends normally. *)
Theorem first_occurrence_only (fs : gmap string str) (content : str) :
  fs !! add_expense_notes_coins.file_path = Some content →
  2 ≤ length (occurrences add_expense_notes_coins.old_line content) →
  ∃ i,
    find add_expense_notes_coins.old_line content = Some i ∧
    behaviour (run add_expense_notes_coins.main fs) =
    ([(add_expense_notes_coins.file_path,
       take i content ++ add_expense_notes_coins.new_lines ++
       drop (i + length add_expense_notes_coins.old_line) content)],
     [[9989%N] ++ lit " Added notes and coins fields to expenses table!"],
     Completed).
Proof.
  intros Hfs Hocc.
  destruct (find_is_Some add_expense_notes_coins.old_line content) as [i Hi].
  { apply occurrences_contains. lia. }
  exists i. split; [done|].
  by rewrite (add_expense_notes_coins_run _ _ Hfs), (expense_patch_present _ _ Hi).
Qed.

Lemma first_occurrence_only_witness :
  let content := lit "        amount REAL NOT NULL,
        amount REAL NOT NULL," in
  let fs : gmap string str := {[ add_expense_notes_coins.file_path := content ]} in
  ∃ i,
    find add_expense_notes_coins.old_line content = Some i ∧
    behaviour (run add_expense_notes_coins.main fs) =
    ([(add_expense_notes_coins.file_path,
       take i content ++ add_expense_notes_coins.new_lines ++
       drop (i + length add_expense_notes_coins.old_line) content)],
     [[9989%N] ++ lit " Added notes and coins fields to expenses table!"],
     Completed).
Proof.
  intros content fs. apply (first_occurrence_only fs content).
  - apply lookup_singleton_eq.
  - vm_compute. lia.
Defined.

(** ** fix_db_path_production.py and make_notes_optional.py: a locator
       that is not there *)

Lemma fix_db_path_production_found (fs : gmap string str) (content : str) :
  fs !! fix_db_path_production.file_path = Some content →
  contains fix_db_path_production.old_text content = true →
  run fix_db_path_production.main fs =
  Outcome
    [(fix_db_path_production.file_path,
      replace fix_db_path_production.old_text
        fix_db_path_production.new_text content)]
    [[9989%N] ++ lit " Fixed database path to use writable directory!"]
    Completed
    (<[fix_db_path_production.file_path :=
         replace fix_db_path_production.old_text
           fix_db_path_production.new_text content]> fs).
Proof.
  intros Hfs Hin. unfold fix_db_path_production.main.
  rewrite (run_read _ _ _ _ Hfs), Hin. reflexivity.
Qed.

Lemma fix_db_path_production_not_found (fs : gmap string str) (content : str) :
  fs !! fix_db_path_production.file_path = Some content →
  contains fix_db_path_production.old_text content = false →
  run fix_db_path_production.main fs =
  Outcome []
    [[10060%N] ++ lit " Could not find target location";
     lit "Looking for:" ++ lit " " ++ take 50 fix_db_path_production.old_text]
    Completed fs.
Proof.
  intros Hfs Hin. unfold fix_db_path_production.main.
  rewrite (run_read _ _ _ _ Hfs), Hin. reflexivity.
Qed.

Lemma make_notes_optional_run (fs : gmap string str) (content : str) :
  fs !! make_notes_optional.file_path = Some content →
  run make_notes_optional.main fs =
  Outcome
    [(make_notes_optional.file_path, make_notes_optional.patch content)]
    [[9989%N] ++ lit " Made notes field optional in expense dialog!"]
    Completed
    (<[make_notes_optional.file_path := make_notes_optional.patch content]> fs).
Proof.
  intros Hfs. unfold make_notes_optional.main.
  rewrite (run_read _ _ _ _ Hfs). reflexivity.
Qed.





(** C5: a text that has the locator [L] exactly once has the replacement
    [R] after [replace L R]; and when the old database-path snippet occurs
    exactly once, fix_db_path_production.py writes a text that contains
    the new [getApplicationDocumentsDirectory] snippet. *)
Theorem replace_round_trip :
  (∀ L R content : str,
     length (occurrences L content) = 1 →
     contains R (replace L R content) = true)
  ∧ (∀ (fs : gmap string str) (content : str),
       fs !! fix_db_path_production.file_path = Some content →
       length (occurrences fix_db_path_production.old_text content) = 1 →
       ∃ out,
         writes (run fix_db_path_production.main fs) =
           [(fix_db_path_production.file_path, out)]
         ∧ contains fix_db_path_production.new_text out = true).
Proof.
  split.
  - intros L R content H. apply replace_contains_new, occurrences_contains. lia.
  - intros fs content Hfs H.
    assert (contains fix_db_path_production.old_text content = true) as Hin
      by (apply occurrences_contains; lia).
    eexists. rewrite (fix_db_path_production_found _ _ Hfs Hin).
    split; [reflexivity|]. by apply replace_contains_new.
Qed.

Lemma replace_round_trip_witness :
  let content := lit "Future<Database> _initDatabase() async {
    // Get the database file path
    String path = join(await getDatabasesPath(), 'a_one_bakeries.db');
}" in
  let fs : gmap string str := {[ fix_db_path_production.file_path := content ]} in
  length (occurrences fix_db_path_production.old_text content) = 1
  ∧ contains fix_db_path_production.new_text
      (replace fix_db_path_production.old_text
         fix_db_path_production.new_text content) = true
  ∧ ∃ out,
      writes (run fix_db_path_production.main fs) =
        [(fix_db_path_production.file_path, out)]
      ∧ contains fix_db_path_production.new_text out = true.
Proof.
  intros content fs. destruct replace_round_trip as [generic script].
  split; [reflexivity|]. split.
  - apply generic. reflexivity.
  - apply (script fs content); [apply lookup_singleton_eq | reflexivity].
Defined.

(** ** add_km_db_methods.py: the guard and the append *)

Section add_km_db_methods_facts.
Import add_km_db_methods.

Lemma km_methods_head : ∃ t, km_methods = 10%N :: 32%N :: 32%N :: 47%N :: t.
Proof. eexists. vm_compute. reflexivity. Qed.

(** The guard does what its comment says for the import lines. *)
Lemma add_imports_guarded (content : str) :
  contains guard content = true → add_imports content = content.
Proof. intros H. unfold add_imports. by rewrite H. Qed.

Lemma ends_with_brace (s : str) :
  ends_with (lit "}") s = true → s = take (length s - 1) s ++ [125%N].
Proof.
  unfold ends_with. intros [r Hr]%starts_with_iff.
  apply (f_equal (@rev N)) in Hr. rewrite rev_involutive in Hr.
  subst s. simpl. rewrite length_app. simpl.
  replace (length (rev r) + 1 - 1) with (length (rev r)) by lia.
  by rewrite take_app_length.
Qed.

(** The methods are appended whatever the content is: the result is never
    the content that was read. *)
Lemma add_methods_changes (content : str) : add_methods content ≠ content.
Proof.
  unfold add_methods. destruct (rstrip_split content) as (w & E & Hw).
  destruct km_methods_head as [t Ht].
  remember (rstrip content) as r eqn:Er. clear Er.
  destruct (ends_with (lit "}") r) eqn:Hb.
  - apply ends_with_brace in Hb. intros H.
    remember (take (length r - 1) r) as r' eqn:Er'. clear Er'.
    subst content r. rewrite <- app_assoc in H. apply app_inv_head in H.
    rewrite Ht in H. discriminate H.
  - intros H. subst content. apply app_inv_head in H.
    rewrite <- H, Ht in Hw.
    inversion_clear Hw as [|?? _ Hw1]. inversion_clear Hw1 as [|?? _ Hw2].
    inversion_clear Hw2 as [|?? _ Hw3]. inversion_clear Hw3 as [|?? Hc _].
    discriminate Hc.
Qed.

End add_km_db_methods_facts.

(** C2 (the code at the failing inputs): with the guard
    ['km_record_model.dart'] already in the content, add_km_db_methods.py
    leaves the import lines alone, and still appends the KM methods: the
    content it writes is never the content it read. *)
Theorem km_methods_appended_despite_guard (content : str) :
  contains add_km_db_methods.guard content = true →
  add_km_db_methods.add_imports content = content
  ∧ add_km_db_methods.patch content ≠ content.
Proof.
  intros H. split; [by apply add_imports_guarded|].
  unfold add_km_db_methods.patch. rewrite (add_imports_guarded _ H).
  apply add_methods_changes.
Qed.

Lemma km_methods_appended_despite_guard_witness :
  let content := lit "import 'package:a_one_bakeries_app/models/km_record_model.dart';
class DatabaseHelper {
}
" in
  contains add_km_db_methods.guard content = true
  ∧ add_km_db_methods.add_imports content = content
  ∧ add_km_db_methods.patch content ≠ content.
Proof.
  intros content. split; [reflexivity|].
  apply (km_methods_appended_despite_guard content). reflexivity.
Defined.

(** What the script writes on that content: the methods, a second time if
    they were there already, before the final brace. *)
Example km_methods_appended_example :
  add_km_db_methods.patch
    (lit "import 'package:a_one_bakeries_app/models/km_record_model.dart';
class DatabaseHelper {
}
")
  = lit "import 'package:a_one_bakeries_app/models/km_record_model.dart';
class DatabaseHelper {
" ++ add_km_db_methods.km_methods ++ lit "
}".
Proof. vm_compute. reflexivity. Qed.

(** ** remove_duplicates.py: the second scan reads the stale [line] *)

Section remove_duplicates_facts.
Import remove_duplicates.

Lemma first_scan_found (pre post : list str) (l : str) (k : Z)
    (line : option str) :
  Forall (λ x, contains km_marker x = false) pre →
  contains km_marker l = true →
  first_scan (pre ++ l :: post) k line = ((k + Z.of_nat (length pre))%Z, Some l).
Proof.
  intros Hpre Hl. revert k line.
  induction Hpre as [|x pre Hx _ IH]; intros k line; simpl.
  - rewrite Hl. f_equal. lia.
  - rewrite Hx, IH. f_equal. lia.
Qed.

Lemma first_scan_not_found (lines : list str) (k : Z) (line : option str) :
  Forall (λ x, contains km_marker x = false) lines →
  (first_scan lines k line).1 = (-1)%Z.
Proof.
  intros H. revert k line.
  induction H as [|x lines Hx _ IH]; intros k line; simpl; [done|].
  by rewrite Hx.
Qed.

(** A line with the marker is not a closing brace, however it is
    stripped. *)
Lemma km_line_not_brace (l : str) :
  contains km_marker l = true → strip l ≠ lit "}".
Proof.
  intros (pre & post & ->)%contains_iff Hs.
  destruct (strip_split (pre ++ km_marker ++ post)) as (w1 & w2 & E & H1 & H2).
  rewrite Hs in E.
  assert (Forall (λ c, is_space c = true ∨ c = 125%N)
            (pre ++ km_marker ++ post)) as HF.
  { rewrite E. repeat apply Forall_app_2.
    - eapply Forall_impl; [exact H1|]. by left.
    - change (lit "}") with [125%N]. constructor; [by right|constructor].
    - eapply Forall_impl; [exact H2|]. by left. }
  apply Forall_app in HF as [_ HF]. apply Forall_app in HF as [HF _].
  inversion_clear HF as [|?? [Hc|Hc] _]; discriminate Hc.
Qed.

(** With a line after the marker line, the second scan stops on its first
    index: its test reads the marker line again. *)
Lemma second_scan_stale (lines : list str) (l : str) (i : nat) :
  contains km_marker l = true → S i < length lines →
  second_scan lines (Some l)
    (range (Z.of_nat i + 1) (Z.of_nat (length lines))) = inr (Z.of_nat (S i)).
Proof.
  intros Hl Hlen. unfold range.
  replace (Z.to_nat (Z.of_nat i + 1)) with (S i) by lia.
  replace (Z.to_nat (Z.of_nat (length lines) - (Z.of_nat i + 1)))
    with (S (length lines - S (S i))) by lia.
  simpl. by rewrite Hl.
Qed.

End remove_duplicates_facts.

(** C8: when the first line with ['KM TRACKING OPERATIONS'] is line [i] and
    a line follows it, the second scan of remove_duplicates.py stops at
    once, at index [i + 1], because its test reads the marker line again;
    the script then writes back lines [0..i] followed by a ['}'] line (line
    [i] holds the marker, so it never is a ['}'] line itself).  Everything
    behind the first marker line is gone, whatever it was. *)
Theorem remove_duplicates_truncates (fs : gmap string str) (content : str)
    (i : nat) :
  fs !! remove_duplicates.file_path = Some content →
  first_km_line (readlines content) i →
  S i < length (readlines content) →
  remove_duplicates.first_scan (readlines content) 0 None =
    (Z.of_nat i, readlines content !! i)
  ∧ remove_duplicates.second_scan (readlines content) (readlines content !! i)
      (remove_duplicates.range (Z.of_nat i + 1)
         (Z.of_nat (length (readlines content)))) = inr (Z.of_nat (i + 1))
  ∧ behaviour (run remove_duplicates.main fs) =
    ([(remove_duplicates.file_path,
       writelines (take (S i) (readlines content) ++ [lit "}
"]))],
     [[9989%N] ++ lit " Removed duplicate KM methods starting at line " ++
        str_of_int (Z.of_nat (i + 2));
      lit "   File reduced from " ++
        str_of_int (Z.of_nat (length (readlines content))) ++
        lit " to " ++ str_of_int (Z.of_nat (i + 2)) ++ lit " lines"],
     Completed).
Proof.
  intros Hfs [(l & Hi & Hl) Hbefore] Hlen.
  unfold remove_duplicates.main. rewrite (run_read _ _ _ _ Hfs).
  remember (readlines content) as lines eqn:Elines. clear Elines Hfs.
  assert (Forall (λ x, contains remove_duplicates.km_marker x = false)
            (take i lines)) as Hpre.
  { apply Forall_forall. intros x Hx.
    apply list_elem_of_lookup in Hx as [j Hj].
    apply lookup_take_Some in Hj as [Hj Hlt]. eauto. }
  pose proof (take_drop_middle _ _ _ Hi) as Esplit.
  pose proof (first_scan_found _ (drop (S i) lines) _ 0 None Hpre Hl) as Hfirst.
  rewrite Esplit in Hfirst. rewrite Hfirst, Hi.
  rewrite length_take, Nat.min_l by lia.
  assert ((0 + Z.of_nat i =? -1)%Z = false) as -> by (apply Z.eqb_neq; lia).
  replace (0 + Z.of_nat i + 1)%Z with (Z.of_nat i + 1)%Z by lia.
  rewrite (second_scan_stale _ _ _ Hl Hlen).
  split; [f_equal; lia|]. split; [do 2 f_equal; lia|].
  assert ((Z.of_nat (S i) =? -1)%Z = false) as -> by (apply Z.eqb_neq; lia).
  rewrite Nat2Z.id.
  assert (take (S i) lines = take i lines ++ [l]) as Etake
    by (by apply take_S_r).
  assert (last (take (S i) lines) = Some l) as ->
    by (rewrite Etake; apply last_snoc).
  assert (str_eqb (strip l) (lit "}") = false) as ->.
  { apply bool_decide_eq_false. by apply km_line_not_brace. }
  cbn [negb]. unfold behaviour. cbn [run writes prints status].
  rewrite length_app, length_take, Nat.min_l by lia. cbn [length].
  replace (Z.of_nat (S i) + 1)%Z with (Z.of_nat (i + 2)) by lia.
  replace (S i + 1) with (i + 2) by lia.
  reflexivity.
Qed.

Lemma remove_duplicates_truncates_witness :
  let content := lit "class DatabaseHelper {
  // KM TRACKING OPERATIONS
  Future<List<Vehicle>> getVehicles() async => [];
}
" in
  let fs : gmap string str := {[ remove_duplicates.file_path := content ]} in
  first_km_line (readlines content) 1
  ∧ remove_duplicates.second_scan (readlines content) (readlines content !! 1)
      (remove_duplicates.range 2 4) = inr 2%Z
  ∧ writes (run remove_duplicates.main fs) =
    [(remove_duplicates.file_path, lit "class DatabaseHelper {
  // KM TRACKING OPERATIONS
}
")].
Proof.
  intros content fs.
  assert (first_km_line (readlines content) 1) as Hfirst.
  { split.
    - eexists. split; reflexivity.
    - intros j l Hj Hl. assert (j = 0) as -> by lia.
      injection Hl as <-. reflexivity. }
  split; [exact Hfirst|].
  destruct (remove_duplicates_truncates fs content 1) as (_ & Hsecond & Hrun).
  - apply lookup_singleton_eq.
  - exact Hfirst.
  - vm_compute. lia.
  - split; [exact Hsecond|].
    apply (f_equal (λ b, b.1.1)) in Hrun. exact Hrun.
Defined.

(** No second marker and no [addKmRecord] behind the first marker line:
    the two declarations after it are deleted all the same. *)
Example remove_duplicates_truncates_example :
  writes (run remove_duplicates.main
    {[ remove_duplicates.file_path := lit "class DatabaseHelper {
  // KM TRACKING OPERATIONS
  Future<List<Vehicle>> getVehicles() async => [];
}
" ]})
  = [(remove_duplicates.file_path, lit "class DatabaseHelper {
  // KM TRACKING OPERATIONS
}
")].
Proof. vm_compute. reflexivity. Qed.

(** ** fix_expenses_table.py: what the loop keeps and what it adds *)

Section fix_expenses_table_facts.
Import fix_expenses_table.

(** [marker_pair_at] for a loop that is entered with [in_expenses_table]
    already at [b]. *)
Let pair_from (b : bool) (lines : list str) (j : nat) : bool :=
  match lines !! j with
  | Some l => contains description_marker l
  | None => false
  end
  && (b || existsb (contains create_marker) (take (S j) lines)).


Lemma pair_from_false (lines : list str) (j : nat) :
  pair_from false lines j = marker_pair_at lines j.
Proof. done. Qed.











End fix_expenses_table_facts.



(** A table other than [expenses] between the two markers does not stop
    the insertion, and a description line before [CREATE TABLE expenses(]
    is left alone. *)
Example fix_expenses_table_example :
  fix_expenses_table.patch
    [lit "description TEXT NOT NULL,"; lit "CREATE TABLE expenses(";
     lit "CREATE TABLE income("; lit "description TEXT NOT NULL,";
     lit "description TEXT NOT NULL,"]
  = [lit "description TEXT NOT NULL,"; lit "CREATE TABLE expenses(";
     lit "CREATE TABLE income("; lit "description TEXT NOT NULL,";
     fix_expenses_table.notes_line; fix_expenses_table.coins_line;
     lit "description TEXT NOT NULL,"].
Proof. vm_compute. reflexivity. Qed.

(** ** Every script: what is read decides what is written and printed *)


(** A confined script leaves every other file alone. *)
Lemma confined_frame (P : list string) (p : prog) :
  confined P p →
  ∀ fs path, path ∉ P → files (run p fs) !! path = fs !! path.
Proof.
  induction 1 as [t|q k Hin _ IH|q text k Hin _ IH|text k _ IH];
    intros fs path Hout; simpl.
  - done.
  - destruct (fs !! q) as [content|]; [by apply IH|done].
  - rewrite IH by done. apply lookup_insert_ne. set_solver.
  - by apply IH.
Qed.


Lemma present_insert (P : list string) (fs : gmap string str)
    (path : string) (text : str) :
  present P fs → present P (<[path:=text]> fs).
Proof.
  intros H q Hq. destruct (decide (path = q)) as [->|Hne].
  - rewrite lookup_insert_eq. eauto.
  - rewrite lookup_insert_ne by done. by apply H.
Qed.

(** With its files there, a confined script ends the way its text says. *)
Lemma ends_in_run (T : termination → Prop) (P : list string) (p : prog) :
  confined P p → ends_in T p →
  ∀ fs, present P fs → T (status (run p fs)).
Proof.
  induction 1 as [t|q k Hin _ IH|q text k Hin _ IH|text k _ IH];
    intros He fs Hfs; inversion_clear He; simpl.
  - done.
  - destruct (Hfs q Hin) as [content ->]. by apply IH.
  - apply IH; [done|]. by apply present_insert.
  - by apply IH.
Qed.


Ltac confined_steps :=
  repeat first
    [ progress intros
    | apply confined_halt
    | apply confined_print
    | apply confined_write; [set_solver|]
    | apply confined_read; [set_solver|]
    | case_match ].

Ltac ends_in_steps :=
  repeat first
    [ progress intros
    | apply ends_in_halt; reflexivity
    | apply ends_in_print
    | apply ends_in_write
    | apply ends_in_read
    | case_match ].


Ltac unfold_mains :=
  unfold add_cash_breakdown_method.main, add_dashboard_breakdown.main,
    add_dashboard_card.main, add_expense_notes_coins.main,
    add_final_reports.main, add_km_db_methods.main, add_km_to_vehicle.main,
    add_settings_icon.main, add_settings_method.main,
    final_dashboard_fix.main, final_db_fix.main, fix_db_path_production.main,
    fix_expenses_table.main, fix_new_reports.main, fix_reports.main,
    fix_vehicle_lookup.main, fix_vehicles_table.main, make_notes_optional.main,
    remove_duplicates.main, simple_db_fix.main, update_cash_breakdown.main,
    update_db_coins.main, update_db_v6.main, update_expense_schema.main,
    update_vehicle_cards_km.main, update_vehicle_screen_km.main, print2.

Ltac each_script H :=
  unfold scripts in H;
  repeat (apply elem_of_cons in H as [->|H]); [..|by apply elem_of_nil in H];
  cbn [script_name script_paths script_body].

Lemma scripts_confined (re : re_module) (s : script) :
  s ∈ scripts re → confined (script_paths s) (script_body s).
Proof. intros H. each_script H; unfold_mains; confined_steps. Qed.

(** Twenty-four scripts end by falling off the end of the file, whatever
    they read. *)
Lemma scripts_complete (re : re_module) (s : script) :
  s ∈ scripts re →
  script_name s ≠ "remove_duplicates.py"%string →
  script_name s ≠ "update_expense_schema.py"%string →
  ends_in (λ t, t = Completed) (script_body s).
Proof.
  intros H Hn1 Hn2. each_script H; try done; unfold_mains; ends_in_steps.
Qed.





(** ** Which scripts write, and how the scripts end *)

Section remove_duplicates_paths.
Import remove_duplicates.

Lemma km_line_split (lines : list str) :
  Forall (λ x, contains km_marker x = false) lines
  ∨ ∃ pre l post,
      lines = pre ++ l :: post ∧
      Forall (λ x, contains km_marker x = false) pre ∧
      contains km_marker l = true.
Proof.
  induction lines as [|x lines [IH|(pre & l & post & -> & Hpre & Hl)]].
  - by left.
  - destruct (contains km_marker x) eqn:Hx.
    + right. by exists [], x, lines.
    + left. by constructor.
  - destruct (contains km_marker x) eqn:Hx.
    + right. by exists [], x, (pre ++ l :: post).
    + right. exists (x :: pre), l, post. split; [done|]. split; [|done].
      by constructor.
Qed.

(** No line with the marker: the failure message and [exit(1)]. *)
Lemma remove_duplicates_no_marker (fs : gmap string str) (content : str) :
  fs !! file_path = Some content →
  Forall (λ x, contains km_marker x = false) (readlines content) →
  run main fs =
  Outcome [] [[10060%N] ++ lit " Could not find KM tracking section"]
    (Exited 1) fs.
Proof.
  intros Hfs Hno. unfold main. rewrite (run_read _ _ _ _ Hfs).
  pose proof (first_scan_not_found _ 0 None Hno) as H.
  destruct (first_scan (readlines content) 0 None) as [first line].
  simpl in H. subst first. reflexivity.
Qed.

(** The marker on the last line: "no duplicates" and [exit(0)]. *)
Lemma remove_duplicates_marker_last (fs : gmap string str) (content : str)
    (pre : list str) (l : str) :
  fs !! file_path = Some content →
  readlines content = pre ++ [l] →
  Forall (λ x, contains km_marker x = false) pre →
  contains km_marker l = true →
  run main fs =
  Outcome [] [[9989%N] ++ lit " No duplicates found"] (Exited 0) fs.
Proof.
  intros Hfs E Hpre Hl. unfold main. rewrite (run_read _ _ _ _ Hfs), E.
  rewrite (first_scan_found _ _ _ 0 None Hpre Hl).
  assert ((0 + Z.of_nat (length pre) =? -1)%Z = false) as ->
    by (apply Z.eqb_neq; lia).
  unfold range. rewrite length_app. simpl length.
  replace (Z.to_nat (Z.of_nat (length pre + 1) - (0 + Z.of_nat (length pre) + 1)))
    with 0 by lia.
  reflexivity.
Qed.



End remove_duplicates_paths.




(** C7, as stated, fails: remove_duplicates.py ends with exit status 1 when
    it finds no KM section and with status 0 when it has done its work. *)
Lemma uniform_exit_status_counterexample :
  ¬ (∀ (fs_failure fs_success : gmap string str) (missing found : str),
       fs_failure !! remove_duplicates.file_path = Some missing →
       fs_success !! remove_duplicates.file_path = Some found →
       contains remove_duplicates.km_marker missing = false →
       contains remove_duplicates.km_marker found = true →
       exit_status (status (run remove_duplicates.main fs_failure)) =
       exit_status (status (run remove_duplicates.main fs_success))).
Proof.
  intros H.
  specialize (H {[ remove_duplicates.file_path := lit "class DatabaseHelper {}" ]}
                {[ remove_duplicates.file_path := lit "// KM TRACKING OPERATIONS
}
" ]} _ _ (lookup_singleton_eq _ _) (lookup_singleton_eq _ _) eq_refl eq_refl).
  vm_compute in H. discriminate H.
Qed.

(** C7 (amended): when the target is not found, fix_db_path_production.py
    prints its failure lines, writes nothing and ends normally;
    remove_duplicates.py prints its failure line, writes nothing and calls
    [exit(1)], so its exit status is 1.  Every script other than
    remove_duplicates.py and update_expense_schema.py ends normally, with
    exit status 0, on every content of its files. *)
Theorem target_not_found_termination (re : re_module)
    (fs : gmap string str) (db : str) :
  fs !! "lib/database/database_helper.dart"%string = Some db →
  contains fix_db_path_production.old_text db = false →
  Forall (λ l, contains remove_duplicates.km_marker l = false) (readlines db) →
  run fix_db_path_production.main fs =
    Outcome []
      [[10060%N] ++ lit " Could not find target location";
       lit "Looking for:" ++ lit " " ++ take 50 fix_db_path_production.old_text]
      Completed fs
  ∧ run remove_duplicates.main fs =
    Outcome [] [[10060%N] ++ lit " Could not find KM tracking section"]
      (Exited 1) fs
  ∧ exit_status (status (run remove_duplicates.main fs)) = 1%Z
  ∧ (∀ (s : script) (fs' : gmap string str),
       s ∈ scripts re →
       present (script_paths s) fs' →
       script_name s ≠ "remove_duplicates.py"%string →
       script_name s ≠ "update_expense_schema.py"%string →
       status (run (script_body s) fs') = Completed
       ∧ exit_status (status (run (script_body s) fs')) = 0%Z).
Proof.
  intros Hdb Hold Hkm. split; [|split; [|split]].
  - by apply (fix_db_path_production_not_found _ db).
  - by apply (remove_duplicates_no_marker _ db).
  - by rewrite (remove_duplicates_no_marker _ db).
  - intros s fs' Hs Hfs' Hn1 Hn2.
    pose proof (ends_in_run _ _ _ (scripts_confined re s Hs)
                  (scripts_complete re s Hs Hn1 Hn2) fs' Hfs') as ->.
    done.
Qed.

Lemma target_not_found_termination_witness :
  let re := ReModule (λ _ _ content _, content) (λ _ _ content, content)
              (λ _ _, []) in
  let db := lit "class DatabaseHelper {
}
" in
  let fs : gmap string str := {[ "lib/database/database_helper.dart"%string := db ]} in
  run fix_db_path_production.main fs =
    Outcome []
      [[10060%N] ++ lit " Could not find target location";
       lit "Looking for:" ++ lit " " ++ take 50 fix_db_path_production.old_text]
      Completed fs
  ∧ run remove_duplicates.main fs =
    Outcome [] [[10060%N] ++ lit " Could not find KM tracking section"]
      (Exited 1) fs
  ∧ exit_status (status (run remove_duplicates.main fs)) = 1%Z
  ∧ (∀ (s : script) (fs' : gmap string str),
       s ∈ scripts re →
       present (script_paths s) fs' →
       script_name s ≠ "remove_duplicates.py"%string →
       script_name s ≠ "update_expense_schema.py"%string →
       status (run (script_body s) fs') = Completed
       ∧ exit_status (status (run (script_body s) fs')) = 0%Z).
Proof.
  intros re db fs. apply (target_not_found_termination re fs db).
  - apply lookup_singleton_eq.
  - reflexivity.
  - repeat constructor.
Defined.

(** ** Matches after a replacement *)

Lemma starts_with_app_l (o u w : str) :
  starts_with o u = true → starts_with o (u ++ w) = true.
Proof.
  intros [r ->]%starts_with_iff. rewrite <- app_assoc. apply starts_with_app.
Qed.

(** A match at the front of [u ++ w] lies in [u], or [u] is the front of
    the match and the rest of it is at the front of [w]. *)
Lemma starts_with_app_inv (o u w : str) :
  starts_with o (u ++ w) = true →
  starts_with o u = true
  ∨ (starts_with u o = true ∧ starts_with (drop (length u) o) w = true).
Proof.
  revert u; induction o as [|a o IH]; intros [|b u]; simpl.
  - by left.
  - by left.
  - intros H. by right.
  - intros [Hab H]%andb_true_iff. apply N.eqb_eq in Hab as ->.
    rewrite N.eqb_refl. simpl.
    destruct (IH u H) as [?|[? ?]]; auto.
Qed.

Lemma starts_with_overlap (o u w : str) :
  starts_with o (u ++ w) = true → overlap o u = true.
Proof.
  intros [H|[H _]]%starts_with_app_inv; unfold overlap; rewrite H;
    by rewrite ?orb_true_r.
Qed.

Lemma starts_with_length (p s : str) :
  starts_with p s = true → length p ≤ length s.
Proof.
  intros [r ->]%starts_with_iff. rewrite length_app. lia.
Qed.

Lemma starts_with_antisym (a b : str) :
  starts_with a b = true → length b ≤ length a → a = b.
Proof.
  intros [r ->]%starts_with_iff. rewrite length_app. intros H.
  destruct r; [by rewrite app_nil_r|simpl in H; lia].
Qed.

Lemma contains_drop (sub s : str) (p : nat) :
  starts_with sub (drop p s) = true → contains sub s = true.
Proof.
  intros [r Hr]%starts_with_iff. apply contains_iff.
  exists (take p s), r. by rewrite <- Hr, take_drop.
Qed.

Lemma contains_at (sub s : str) :
  contains sub s = true → ∃ p, starts_with sub (drop p s) = true.
Proof.
  intros (pre & post & ->)%contains_iff. exists (length pre).
  rewrite drop_app_length. apply starts_with_app.
Qed.

(** Before the index [find] answers there is no match. *)
Lemma find_Some_first (sub s : str) (i p : nat) :
  find sub s = Some i → p < i → starts_with sub (drop p s) = false.
Proof.
  revert i p; induction s as [|c s IH]; intros i p; simpl.
  - destruct (starts_with sub []); [intros [= <-]; lia|done].
  - destruct (starts_with sub (c :: s)) eqn:E; [intros [= <-]; lia|].
    destruct (find sub s) as [j|] eqn:Ej; [|done]. intros [= <-] Hp.
    destruct p as [|p]; [done|]. simpl. apply (IH j); [done|lia].
Qed.

Lemma replace_find (old new s : str) (i : nat) :
  old ≠ [] → find old s = Some i →
  replace old new s =
  take i s ++ new ++ replace old new (drop (i + length old) s).
Proof.
  destruct old as [|o old']; [done|]. intros _ Hi.
  unfold replace, replace_count. by rewrite (replace_scan_find _ _ _ _ _ i).
Qed.

(** With clean borders no match of [old] is left after
    [s.replace(old, new)]. *)
Lemma replace_removes_old (old new : str) :
  old ≠ [] → clean_borders old new = true →
  ∀ s, contains old (replace old new s) = false.
Proof.
  intros Hold [B1 B2]%andb_true_iff.
  rewrite forallb_forall in B1. rewrite forallb_forall in B2.
  intros s. remember (length s) as n eqn:Hn.
  revert s Hn. induction (lt_wf n) as [n _ IH]. intros s ->.
  destruct (contains old s) eqn:Hs; [|by rewrite replace_absent].
  destruct (find_is_Some _ _ Hs) as [i Hi].
  rewrite (replace_find _ _ _ _ Hold Hi).
  pose proof (find_Some_split _ _ _ Hi) as Es.
  assert (0 < length old) as Hpos by (destruct old; [done|simpl; lia]).
  assert (i + length old ≤ length s) as Hlen.
  { pose proof (f_equal length Es) as El.
    rewrite !length_app, length_take, length_drop in El. lia. }
  set (post := drop (i + length old) s) in *.
  assert (contains old (replace old new post) = false) as Hr.
  { apply (IH (length post)); [|done]. unfold post. rewrite length_drop. lia. }
  apply not_true_iff_false. intros [p Hp]%contains_at.
  assert (length (take i s) = i) as Hpre by (rewrite length_take; lia).
  destruct (decide (p < i)) as [Hlt|Hge].
  - rewrite drop_app_le in Hp by lia.
    apply starts_with_app_inv in Hp as [Hp|[Hu Hv]].
    + pose proof (find_Some_first _ _ _ p Hi Hlt) as Hno.
      rewrite Es, drop_app_le, (starts_with_app_l _ _ _ Hp) in Hno by lia.
      done.
    + rewrite length_drop, Hpre in Hv.
      pose proof (starts_with_length _ _ Hu) as Hk.
      rewrite length_drop, Hpre in Hk.
      destruct (decide (i - p = length old)) as [Heq|Hne].
      * pose proof (find_Some_first _ _ _ p Hi Hlt) as Hno.
        assert (old = drop p (take i s)) as Eo.
        { symmetry. apply starts_with_antisym; [done|].
          rewrite length_drop, Hpre. lia. }
        rewrite Es, drop_app_le, <- Eo, starts_with_app in Hno by lia. done.
      * apply starts_with_overlap in Hv.
        specialize (B1 (i - p)). rewrite Hv in B1.
        discriminate B1. apply in_seq. lia.
  - rewrite drop_app_ge, Hpre in Hp by lia.
    destruct (decide (p - i < length new)) as [Hin|Hout].
    + rewrite drop_app_le in Hp by lia.
      apply starts_with_overlap in Hp.
      specialize (B2 (p - i)). rewrite Hp in B2.
      discriminate B2. apply in_seq. lia.
    + rewrite drop_app_ge in Hp by lia.
      apply contains_drop in Hp. by rewrite Hr in Hp.
Qed.

(** So the replacement applied twice is the replacement applied once. *)
Lemma replace_idempotent (old new s : str) :
  old ≠ [] → clean_borders old new = true →
  replace old new (replace old new s) = replace old new s.
Proof.
  intros Hold Hb. apply replace_absent. by apply replace_removes_old.
Qed.

Lemma contains_trans (a b c : str) :
  contains a b = true → contains b c = true → contains a c = true.
Proof.
  rewrite !contains_iff. intros (p1 & q1 & ->) (p2 & q2 & ->).
  exists (p2 ++ p1), (q1 ++ q2). by rewrite <- !app_assoc.
Qed.

(** A replacement text that holds [old] itself keeps the match and never
    shortens the text. *)
Lemma replace_keeps_old (old new s : str) :
  contains old new = true → contains old s = true →
  contains old (replace old new s) = true.
Proof.
  intros Hnew Hs. eapply contains_trans; [exact Hnew|].
  by apply replace_contains_new.
Qed.

Lemma replace_length_ge (old new : str) :
  old ≠ [] → length old ≤ length new →
  ∀ s, length s ≤ length (replace old new s).
Proof.
  intros Hold Hle s. remember (length s) as n eqn:Hn.
  revert s Hn. induction (lt_wf n) as [n _ IH]. intros s ->.
  destruct (contains old s) eqn:Hs; [|by rewrite replace_absent].
  destruct (find_is_Some _ _ Hs) as [i Hi].
  rewrite (replace_find _ _ _ _ Hold Hi).
  pose proof (find_Some_split _ _ _ Hi) as Es.
  apply (f_equal length) in Es.
  rewrite !length_app, length_take, length_drop in Es.
  assert (0 < length old) as Hpos by (destruct old; [done|simpl; lia]).
  assert (length (drop (i + length old) s) < length s) as Hlt
    by (rewrite length_drop; lia).
  pose proof (IH _ Hlt _ eq_refl) as IH'. rewrite length_drop in IH'.
  rewrite !length_app, length_take. lia.
Qed.

Lemma replace_length_grows (old new s : str) :
  old ≠ [] → length old ≤ length new → contains old s = true →
  length s + (length new - length old) ≤ length (replace old new s).
Proof.
  intros Hold Hle Hs. destruct (find_is_Some _ _ Hs) as [i Hi].
  rewrite (replace_find _ _ _ _ Hold Hi).
  pose proof (find_Some_split _ _ _ Hi) as Es.
  apply (f_equal length) in Es.
  rewrite !length_app, length_take, length_drop in Es.
  pose proof (replace_length_ge old new Hold Hle (drop (i + length old) s)) as H.
  rewrite length_drop in H.
  rewrite !length_app, length_take. lia.
Qed.

(** ** Second runs of the single-replacement scripts *)

Lemma fix_vehicle_lookup_run (fs : gmap string str) (content : str) :
  fs !! fix_vehicle_lookup.file_path = Some content →
  run fix_vehicle_lookup.main fs =
  Outcome
    [(fix_vehicle_lookup.file_path, fix_vehicle_lookup.patch content)]
    [[10003%N] ++ lit " Fixed driver_vehicle_orders_report_screen.dart"]
    Completed
    (<[fix_vehicle_lookup.file_path := fix_vehicle_lookup.patch content]> fs).
Proof.
  intros Hfs. unfold fix_vehicle_lookup.main.
  by rewrite (run_read _ _ _ _ Hfs).
Qed.

Lemma fix_vehicle_lookup_borders :
  clean_borders fix_vehicle_lookup.old_code fix_vehicle_lookup.new_code = true.
Proof. vm_compute. reflexivity. Qed.

(** X1: fix_vehicle_lookup.py can be run again: after a run the file holds no
    vehicle lookup any more, and a second run writes the text the first
    one wrote. *)
Theorem fix_vehicle_lookup_rerun (fs : gmap string str) (content : str) :
  fs !! fix_vehicle_lookup.file_path = Some content →
  contains fix_vehicle_lookup.old_code (fix_vehicle_lookup.patch content)
    = false
  ∧ run fix_vehicle_lookup.main (files (run fix_vehicle_lookup.main fs)) =
    run fix_vehicle_lookup.main fs.
Proof.
  intros Hfs.
  assert (contains fix_vehicle_lookup.old_code
            (fix_vehicle_lookup.patch content) = false) as Hgone.
  { by apply replace_removes_old, fix_vehicle_lookup_borders. }
  split; [exact Hgone|].
  rewrite (fix_vehicle_lookup_run _ _ Hfs). cbn [files].
  rewrite (fix_vehicle_lookup_run _ (fix_vehicle_lookup.patch content))
    by apply lookup_insert_eq.
  unfold fix_vehicle_lookup.patch at 1 3.
  rewrite (replace_absent _ _ _ Hgone). by rewrite insert_insert_eq.
Qed.

Lemma fix_vehicle_lookup_rerun_witness :
  let content := lit "            // Get linked vehicle
            if (orders.first.vehicleId != null) {
              vehicle = await _dbHelper.getVehicle(orders.first.vehicleId!);
            }
" in
  let fs : gmap string str := {[ fix_vehicle_lookup.file_path := content ]} in
  contains fix_vehicle_lookup.old_code (fix_vehicle_lookup.patch content)
    = false
  ∧ run fix_vehicle_lookup.main (files (run fix_vehicle_lookup.main fs)) =
    run fix_vehicle_lookup.main fs.
Proof.
  intros content fs. apply (fix_vehicle_lookup_rerun fs content).
  apply lookup_singleton_eq.
Defined.

Lemma update_cash_breakdown_run (fs : gmap string str) (content : str) :
  fs !! update_cash_breakdown.file_path = Some content →
  run update_cash_breakdown.main fs =
  Outcome
    [(update_cash_breakdown.file_path, update_cash_breakdown.patch content)]
    [[9989%N] ++ lit " Updated getCashBreakdown() to include expenses!"]
    Completed
    (<[update_cash_breakdown.file_path :=
         update_cash_breakdown.patch content]> fs).
Proof.
  intros Hfs. unfold update_cash_breakdown.main.
  by rewrite (run_read _ _ _ _ Hfs).
Qed.

Lemma update_cash_breakdown_borders :
  clean_borders update_cash_breakdown.old_method
    update_cash_breakdown.new_method = true.
Proof. vm_compute. reflexivity. Qed.

(** X2: update_cash_breakdown.py can be run again: the old [getCashBreakdown]
    is gone after a run, and a second run writes the same text. *)
Theorem update_cash_breakdown_rerun (fs : gmap string str) (content : str) :
  fs !! update_cash_breakdown.file_path = Some content →
  contains update_cash_breakdown.old_method
    (update_cash_breakdown.patch content) = false
  ∧ run update_cash_breakdown.main
      (files (run update_cash_breakdown.main fs)) =
    run update_cash_breakdown.main fs.
Proof.
  intros Hfs.
  assert (contains update_cash_breakdown.old_method
            (update_cash_breakdown.patch content) = false) as Hgone.
  { by apply replace_removes_old, update_cash_breakdown_borders. }
  split; [exact Hgone|].
  rewrite (update_cash_breakdown_run _ _ Hfs). cbn [files].
  rewrite (update_cash_breakdown_run _ (update_cash_breakdown.patch content))
    by apply lookup_insert_eq.
  unfold update_cash_breakdown.patch at 1 3.
  rewrite (replace_absent _ _ _ Hgone). by rewrite insert_insert_eq.
Qed.

Lemma update_cash_breakdown_rerun_witness :
  let content := update_cash_breakdown.old_method ++ lit "
}
" in
  let fs : gmap string str := {[ update_cash_breakdown.file_path := content ]} in
  contains update_cash_breakdown.old_method
    (update_cash_breakdown.patch content) = false
  ∧ run update_cash_breakdown.main
      (files (run update_cash_breakdown.main fs)) =
    run update_cash_breakdown.main fs.
Proof.
  intros content fs. apply (update_cash_breakdown_rerun fs content).
  apply lookup_singleton_eq.
Defined.

(** ** Second runs of the scripts that test for their target *)

Lemma fix_db_path_production_borders :
  clean_borders fix_db_path_production.old_text
    fix_db_path_production.new_text = true.
Proof. vm_compute. reflexivity. Qed.

(** X3: After fix_db_path_production.py has patched the file, a second run
    finds nothing to patch: it prints its two failure lines and leaves the
    file as the first run wrote it. *)
Theorem fix_db_path_production_rerun (fs : gmap string str) (content : str) :
  fs !! fix_db_path_production.file_path = Some content →
  contains fix_db_path_production.old_text content = true →
  run fix_db_path_production.main (files (run fix_db_path_production.main fs)) =
  Outcome []
    [[10060%N] ++ lit " Could not find target location";
     lit "Looking for:" ++ lit " " ++ take 50 fix_db_path_production.old_text]
    Completed
    (<[fix_db_path_production.file_path :=
         replace fix_db_path_production.old_text
           fix_db_path_production.new_text content]> fs).
Proof.
  intros Hfs Hin. rewrite (fix_db_path_production_found _ _ Hfs Hin).
  cbn [files]. eapply fix_db_path_production_not_found.
  - apply lookup_insert_eq.
  - by apply replace_removes_old, fix_db_path_production_borders.
Qed.

Lemma fix_db_path_production_rerun_witness :
  let content := fix_db_path_production.old_text ++ lit "
    return await openDatabase(path);" in
  let fs : gmap string str := {[ fix_db_path_production.file_path := content ]} in
  run fix_db_path_production.main (files (run fix_db_path_production.main fs)) =
  Outcome []
    [[10060%N] ++ lit " Could not find target location";
     lit "Looking for:" ++ lit " " ++ take 50 fix_db_path_production.old_text]
    Completed
    (<[fix_db_path_production.file_path :=
         replace fix_db_path_production.old_text
           fix_db_path_production.new_text content]> fs).
Proof.
  intros content fs. apply (fix_db_path_production_rerun fs content).
  - apply lookup_singleton_eq.
  - reflexivity.
Defined.

Lemma add_settings_icon_found (fs : gmap string str) (content : str) :
  fs !! add_settings_icon.file_path = Some content →
  contains add_settings_icon.old_text content = true →
  run add_settings_icon.main fs =
  Outcome
    [(add_settings_icon.file_path,
      replace add_settings_icon.old_text add_settings_icon.new_text content)]
    [[9989%N] ++ lit " Added settings icon to dashboard!"]
    Completed
    (<[add_settings_icon.file_path :=
         replace add_settings_icon.old_text add_settings_icon.new_text
           content]> fs).
Proof.
  intros Hfs Hin. unfold add_settings_icon.main.
  rewrite (run_read _ _ _ _ Hfs), Hin. reflexivity.
Qed.

Lemma add_settings_icon_not_found (fs : gmap string str) (content : str) :
  fs !! add_settings_icon.file_path = Some content →
  contains add_settings_icon.old_text content = false →
  run add_settings_icon.main fs =
  Outcome [] [[10060%N] ++ lit " Could not find target location"]
    Completed fs.
Proof.
  intros Hfs Hin. unfold add_settings_icon.main.
  rewrite (run_read _ _ _ _ Hfs), Hin. reflexivity.
Qed.

Lemma add_settings_icon_borders :
  clean_borders add_settings_icon.old_text add_settings_icon.new_text = true.
Proof. vm_compute. reflexivity. Qed.

(** X4: add_settings_icon.py adds the icon once: when the target is missing it
    prints its failure line and writes nothing, and after a run that found
    the target the next run is such a run. *)
Theorem add_settings_icon_rerun (fs : gmap string str) (content : str) :
  fs !! add_settings_icon.file_path = Some content →
  contains add_settings_icon.old_text content = true →
  run add_settings_icon.main (files (run add_settings_icon.main fs)) =
  Outcome [] [[10060%N] ++ lit " Could not find target location"]
    Completed
    (<[add_settings_icon.file_path :=
         replace add_settings_icon.old_text add_settings_icon.new_text
           content]> fs).
Proof.
  intros Hfs Hin. rewrite (add_settings_icon_found _ _ Hfs Hin).
  cbn [files]. eapply add_settings_icon_not_found.
  - apply lookup_insert_eq.
  - by apply replace_removes_old, add_settings_icon_borders.
Qed.

Lemma add_settings_icon_rerun_witness :
  let content := lit "        actions: [
" ++ add_settings_icon.old_text ++ lit "
" in
  let fs : gmap string str := {[ add_settings_icon.file_path := content ]} in
  run add_settings_icon.main (files (run add_settings_icon.main fs)) =
  Outcome [] [[10060%N] ++ lit " Could not find target location"]
    Completed
    (<[add_settings_icon.file_path :=
         replace add_settings_icon.old_text add_settings_icon.new_text
           content]> fs).
Proof.
  intros content fs. apply (add_settings_icon_rerun fs content).
  - apply lookup_singleton_eq.
  - reflexivity.
Defined.

Lemma final_dashboard_fix_found (fs : gmap string str) (content : str) :
  fs !! final_dashboard_fix.file_path = Some content →
  contains final_dashboard_fix.search_text content = true →
  run final_dashboard_fix.main fs =
  Outcome
    [(final_dashboard_fix.file_path,
      replace final_dashboard_fix.search_text final_dashboard_fix.replace_text
        content)]
    [[9989%N] ++ lit " Added cash breakdown to dashboard!"]
    Completed
    (<[final_dashboard_fix.file_path :=
         replace final_dashboard_fix.search_text
           final_dashboard_fix.replace_text content]> fs).
Proof.
  intros Hfs Hin. unfold final_dashboard_fix.main.
  rewrite (run_read _ _ _ _ Hfs), Hin. reflexivity.
Qed.

Lemma final_dashboard_fix_not_found (fs : gmap string str) (content : str) :
  fs !! final_dashboard_fix.file_path = Some content →
  contains final_dashboard_fix.search_text content = false →
  run final_dashboard_fix.main fs =
  Outcome [] [[10060%N] ++ lit " Could not find target location"]
    Completed fs.
Proof.
  intros Hfs Hin. unfold final_dashboard_fix.main.
  rewrite (run_read _ _ _ _ Hfs), Hin. reflexivity.
Qed.

Lemma final_dashboard_fix_borders :
  clean_borders final_dashboard_fix.search_text
    final_dashboard_fix.replace_text = true.
Proof. vm_compute. reflexivity. Qed.

(** X5: final_dashboard_fix.py adds the breakdown once: after a run that found
    the summary card, the next run prints the failure line and writes
    nothing. *)
Theorem final_dashboard_fix_rerun (fs : gmap string str) (content : str) :
  fs !! final_dashboard_fix.file_path = Some content →
  contains final_dashboard_fix.search_text content = true →
  run final_dashboard_fix.main (files (run final_dashboard_fix.main fs)) =
  Outcome [] [[10060%N] ++ lit " Could not find target location"]
    Completed
    (<[final_dashboard_fix.file_path :=
         replace final_dashboard_fix.search_text
           final_dashboard_fix.replace_text content]> fs).
Proof.
  intros Hfs Hin. rewrite (final_dashboard_fix_found _ _ Hfs Hin).
  cbn [files]. eapply final_dashboard_fix_not_found.
  - apply lookup_insert_eq.
  - by apply replace_removes_old, final_dashboard_fix_borders.
Qed.

Lemma final_dashboard_fix_rerun_witness :
  let content := final_dashboard_fix.search_text ++ lit "
      ],
" in
  let fs : gmap string str := {[ final_dashboard_fix.file_path := content ]} in
  run final_dashboard_fix.main (files (run final_dashboard_fix.main fs)) =
  Outcome [] [[10060%N] ++ lit " Could not find target location"]
    Completed
    (<[final_dashboard_fix.file_path :=
         replace final_dashboard_fix.search_text
           final_dashboard_fix.replace_text content]> fs).
Proof.
  intros content fs. apply (final_dashboard_fix_rerun fs content).
  - apply lookup_singleton_eq.
  - reflexivity.
Defined.

(** ** add_cash_breakdown_method.py: the marker stays *)

Lemma add_cash_breakdown_method_found (fs : gmap string str) (content : str) :
  fs !! add_cash_breakdown_method.file_path = Some content →
  contains add_cash_breakdown_method.insertion_marker content = true →
  run add_cash_breakdown_method.main fs =
  Outcome
    [(add_cash_breakdown_method.file_path,
      replace add_cash_breakdown_method.insertion_marker
        (add_cash_breakdown_method.cash_breakdown_method ++ lit "
" ++ add_cash_breakdown_method.insertion_marker) content)]
    [[9989%N] ++
     lit " Added getCashBreakdown() method to database_helper.dart!"]
    Completed
    (<[add_cash_breakdown_method.file_path :=
         replace add_cash_breakdown_method.insertion_marker
           (add_cash_breakdown_method.cash_breakdown_method ++ lit "
" ++ add_cash_breakdown_method.insertion_marker) content]> fs).
Proof.
  intros Hfs Hin. unfold add_cash_breakdown_method.main.
  rewrite (run_read _ _ _ _ Hfs), Hin. reflexivity.
Qed.

(** X6: add_cash_breakdown_method.py puts the method in front of the marker
    ["  /// Get today's income"] and the marker stays, so the script has no
    way to see that it ran: every run on a file with the marker writes a
    text that still has the marker and is at least 1035 characters (the
    method and a newline) longer than the text it read. *)
Theorem add_cash_breakdown_method_rerun (fs : gmap string str)
    (content : str) :
  fs !! add_cash_breakdown_method.file_path = Some content →
  contains add_cash_breakdown_method.insertion_marker content = true →
  ∃ once twice,
    writes (run add_cash_breakdown_method.main fs) =
      [(add_cash_breakdown_method.file_path, once)]
    ∧ writes (run add_cash_breakdown_method.main
                (files (run add_cash_breakdown_method.main fs))) =
      [(add_cash_breakdown_method.file_path, twice)]
    ∧ contains add_cash_breakdown_method.insertion_marker twice = true
    ∧ contains add_cash_breakdown_method.cash_breakdown_method once = true
    ∧ length content + 1035 ≤ length once
    ∧ length once + 1035 ≤ length twice.
Proof.
  intros Hfs Hin.
  set (new := add_cash_breakdown_method.cash_breakdown_method ++ lit "
" ++ add_cash_breakdown_method.insertion_marker).
  assert (contains add_cash_breakdown_method.insertion_marker new = true)
    as Hnew by (apply contains_app_r, contains_app_r, contains_refl).
  assert (add_cash_breakdown_method.insertion_marker ≠ []) as Hne by done.
  assert (length add_cash_breakdown_method.insertion_marker ≤ length new
          ∧ length new - length add_cash_breakdown_method.insertion_marker
            = 1035) as [Hle Hdiff] by (split; [vm_compute; lia|reflexivity]).
  set (once := replace add_cash_breakdown_method.insertion_marker new content).
  assert (contains add_cash_breakdown_method.insertion_marker once = true)
    as Honce by (by apply replace_keeps_old).
  exists once,
    (replace add_cash_breakdown_method.insertion_marker new once).
  rewrite (add_cash_breakdown_method_found _ _ Hfs Hin). cbn [files writes].
  rewrite (add_cash_breakdown_method_found _ once)
    by (apply lookup_insert_eq || exact Honce).
  cbn [writes]. split; [done|]. split; [done|].
  split; [by apply replace_keeps_old|].
  split.
  { eapply contains_trans; [|by apply replace_contains_new].
    apply contains_app_l, contains_refl. }
  rewrite <- Hdiff. split; by apply replace_length_grows.
Qed.

Lemma add_cash_breakdown_method_rerun_witness :
  let content := lit "  /// Get today's income
  Future<double> getTodayIncome() async => 0;
" in
  let fs : gmap string str :=
    {[ add_cash_breakdown_method.file_path := content ]} in
  ∃ once twice,
    writes (run add_cash_breakdown_method.main fs) =
      [(add_cash_breakdown_method.file_path, once)]
    ∧ writes (run add_cash_breakdown_method.main
                (files (run add_cash_breakdown_method.main fs))) =
      [(add_cash_breakdown_method.file_path, twice)]
    ∧ contains add_cash_breakdown_method.insertion_marker twice = true
    ∧ contains add_cash_breakdown_method.cash_breakdown_method once = true
    ∧ length content + 1035 ≤ length once
    ∧ length once + 1035 ≤ length twice.
Proof.
  intros content fs. apply (add_cash_breakdown_method_rerun fs content).
  - apply lookup_singleton_eq.
  - reflexivity.
Defined.

(** ** The import guards *)




(** ** fix_vehicles_table.py: what the loop copies, replaces and drops *)

(** Facts about the lines of a concrete list, by computation. *)
Ltac each_line :=
  repeat match goal with
    | |- Forall _ [] => constructor
    | |- Forall _ (_ :: _) =>
        constructor; [try split; vm_compute; reflexivity|]
    end.

Section fix_vehicles_table_facts.
Import fix_vehicles_table.

Lemma vehicles_loop_copy (ls : list str) (st : loop_state) :
  skip_until_semicolon st = false →
  Forall (λ l, contains create_marker l = false) ls →
  fold_left loop_body ls st =
  LoopState (output_lines st ++ ls) (in_vehicles_table st) false.
Proof.
  intros Hskip Hls. revert st Hskip.
  induction Hls as [|l ls Hl _ IH]; intros st Hskip; simpl.
  - rewrite app_nil_r. by destruct st; simpl in *; subst.
  - rewrite IH; unfold loop_body; rewrite Hl, Hskip; simpl; [|done].
    by rewrite <- app_assoc.
Qed.

Lemma vehicles_loop_skip (ls : list str) (st : loop_state) :
  skip_until_semicolon st = true →
  Forall (λ l, contains create_marker l = false
               ∧ contains end_marker l = false) ls →
  fold_left loop_body ls st = st.
Proof.
  intros Hskip Hls. induction Hls as [|l ls [Hc He] _ IH]; simpl; [done|].
  unfold loop_body at 2. by rewrite Hc, Hskip, He.
Qed.

Lemma vehicles_loop_create (st : loop_state) (l : str) :
  contains create_marker l = true →
  loop_body st l = LoopState (output_lines st ++ new_table) true true.
Proof. intros H. unfold loop_body. by rewrite H. Qed.

Lemma vehicles_loop_end (st : loop_state) (l : str) :
  skip_until_semicolon st = true →
  contains create_marker l = false → contains end_marker l = true →
  loop_body st l = LoopState (output_lines st) false false.
Proof. intros Hs Hc He. unfold loop_body. by rewrite Hc, Hs, He. Qed.

Lemma vehicles_patch_none (lines : list str) :
  Forall (λ l, contains create_marker l = false) lines → patch lines = lines.
Proof. intros H. unfold patch. by rewrite vehicles_loop_copy. Qed.

Lemma vehicles_patch_table (pre body post : list str) (c e : str) :
  Forall (λ l, contains create_marker l = false) pre →
  contains create_marker c = true →
  Forall (λ l, contains create_marker l = false
               ∧ contains end_marker l = false) body →
  contains create_marker e = false → contains end_marker e = true →
  Forall (λ l, contains create_marker l = false) post →
  patch (pre ++ [c] ++ body ++ [e] ++ post) = pre ++ new_table ++ post.
Proof.
  intros Hpre Hc Hbody Hec Hee Hpost. unfold patch.
  rewrite !fold_left_app. rewrite (vehicles_loop_copy pre) by done.
  cbn [fold_left]. rewrite (vehicles_loop_create _ _ Hc).
  rewrite (vehicles_loop_skip body) by done.
  rewrite vehicles_loop_end by done.
  rewrite (vehicles_loop_copy post) by done.
  cbn [output_lines]. by rewrite app_nil_l, <- app_assoc.
Qed.

Lemma vehicles_patch_open (pre body : list str) (c : str) :
  Forall (λ l, contains create_marker l = false) pre →
  contains create_marker c = true →
  Forall (λ l, contains create_marker l = false
               ∧ contains end_marker l = false) body →
  patch (pre ++ [c] ++ body) = pre ++ new_table.
Proof.
  intros Hpre Hc Hbody. unfold patch.
  rewrite !fold_left_app. rewrite (vehicles_loop_copy pre) by done.
  cbn [fold_left]. rewrite (vehicles_loop_create _ _ Hc).
  rewrite (vehicles_loop_skip body) by done. cbn [output_lines].
  by rewrite app_nil_l.
Qed.

Lemma fix_vehicles_table_run (fs : gmap string str) (content : str) :
  fs !! file_path = Some content →
  run main fs =
  Outcome
    [(file_path, writelines (patch (readlines content)))]
    [[9989%N] ++ lit " CREATE TABLE vehicles updated with ALL fields!";
     lit "   - License disk fields: licenseDiskExpiry, lastRenewalDate, diskNumber";
     lit "   - KM tracking fields: currentKm, lastServiceKm, serviceIntervalKm, nextServiceKm"]
    Completed
    (<[file_path := writelines (patch (readlines content))]> fs).
Proof. intros H. unfold main. by rewrite (run_read _ _ _ _ H). Qed.

End fix_vehicles_table_facts.

(** X8: fix_vehicles_table.py keeps the lines in front of the first line with
    ['CREATE TABLE vehicles('], puts the 21 lines of the new table
    definition where the lines from that line up to the first line with
    the closing ["''')"] were, and keeps the lines behind. *)
Theorem fix_vehicles_table_frame (fs : gmap string str) (content : str)
    (pre body post : list str) (c e : str) :
  fs !! fix_vehicles_table.file_path = Some content →
  readlines content = pre ++ [c] ++ body ++ [e] ++ post →
  Forall (λ l, contains fix_vehicles_table.create_marker l = false) pre →
  contains fix_vehicles_table.create_marker c = true →
  Forall (λ l, contains fix_vehicles_table.create_marker l = false
               ∧ contains fix_vehicles_table.end_marker l = false) body →
  contains fix_vehicles_table.create_marker e = false →
  contains fix_vehicles_table.end_marker e = true →
  Forall (λ l, contains fix_vehicles_table.create_marker l = false) post →
  writes (run fix_vehicles_table.main fs) =
  [(fix_vehicles_table.file_path,
    writelines (pre ++ fix_vehicles_table.new_table ++ post))].
Proof.
  intros Hfs E Hpre Hc Hbody Hec Hee Hpost.
  rewrite (fix_vehicles_table_run _ _ Hfs), E. cbn [writes].
  by rewrite vehicles_patch_table.
Qed.

Lemma fix_vehicles_table_frame_witness :
  let content := lit "    await db.execute('''
      CREATE TABLE vehicles(
        id INTEGER PRIMARY KEY AUTOINCREMENT
      )
    ''');
    await db.execute('CREATE INDEX idx ON vehicles(id)');
" in
  let fs : gmap string str := {[ fix_vehicles_table.file_path := content ]} in
  writes (run fix_vehicles_table.main fs) =
  [(fix_vehicles_table.file_path,
    writelines
      ([lit "    await db.execute('''
"] ++ fix_vehicles_table.new_table ++
       [lit "    await db.execute('CREATE INDEX idx ON vehicles(id)');
"]))].
Proof.
  intros content fs.
  apply (fix_vehicles_table_frame fs content
           [lit "    await db.execute('''
"]
           [lit "        id INTEGER PRIMARY KEY AUTOINCREMENT
"; lit "      )
"]
           [lit "    await db.execute('CREATE INDEX idx ON vehicles(id)');
"]
           (lit "      CREATE TABLE vehicles(
") (lit "    ''');
")); first [reflexivity | each_line].
Defined.

(** X9: When no line with ["''')"] follows the line with
    ['CREATE TABLE vehicles('], fix_vehicles_table.py drops every line
    behind that line: the file it writes ends with the new table
    definition. *)
Theorem fix_vehicles_table_unterminated (fs : gmap string str)
    (content : str) (pre body : list str) (c : str) :
  fs !! fix_vehicles_table.file_path = Some content →
  readlines content = pre ++ [c] ++ body →
  Forall (λ l, contains fix_vehicles_table.create_marker l = false) pre →
  contains fix_vehicles_table.create_marker c = true →
  Forall (λ l, contains fix_vehicles_table.create_marker l = false
               ∧ contains fix_vehicles_table.end_marker l = false) body →
  writes (run fix_vehicles_table.main fs) =
  [(fix_vehicles_table.file_path,
    writelines (pre ++ fix_vehicles_table.new_table))].
Proof.
  intros Hfs E Hpre Hc Hbody.
  rewrite (fix_vehicles_table_run _ _ Hfs), E. cbn [writes].
  by rewrite vehicles_patch_open.
Qed.

Lemma fix_vehicles_table_unterminated_witness :
  let content := lit "// schema
CREATE TABLE vehicles(id INTEGER);
CREATE TABLE orders(id INTEGER);
" in
  let fs : gmap string str := {[ fix_vehicles_table.file_path := content ]} in
  writes (run fix_vehicles_table.main fs) =
  [(fix_vehicles_table.file_path,
    writelines ([lit "// schema
"] ++ fix_vehicles_table.new_table))].
Proof.
  intros content fs.
  apply (fix_vehicles_table_unterminated fs content
           [lit "// schema
"]
           [lit "CREATE TABLE orders(id INTEGER);
"]
           (lit "CREATE TABLE vehicles(id INTEGER);
")); first [reflexivity | each_line].
Defined.

(** X10: Without a line that has ['CREATE TABLE vehicles('],
    fix_vehicles_table.py writes the text back as it read it, and prints
    its three success lines all the same. *)
Theorem fix_vehicles_table_no_table (fs : gmap string str) (content : str) :
  fs !! fix_vehicles_table.file_path = Some content →
  Forall (λ l, contains fix_vehicles_table.create_marker l = false)
    (readlines content) →
  run fix_vehicles_table.main fs =
  Outcome
    [(fix_vehicles_table.file_path, content)]
    [[9989%N] ++ lit " CREATE TABLE vehicles updated with ALL fields!";
     lit "   - License disk fields: licenseDiskExpiry, lastRenewalDate, diskNumber";
     lit "   - KM tracking fields: currentKm, lastServiceKm, serviceIntervalKm, nextServiceKm"]
    Completed fs.
Proof.
  intros Hfs Hno. rewrite (fix_vehicles_table_run _ _ Hfs).
  rewrite (vehicles_patch_none _ Hno), writelines_readlines.
  by rewrite (insert_id _ _ _ Hfs).
Qed.

Lemma fix_vehicles_table_no_table_witness :
  let content := lit "CREATE TABLE orders(
  id INTEGER
);
" in
  let fs : gmap string str := {[ fix_vehicles_table.file_path := content ]} in
  run fix_vehicles_table.main fs =
  Outcome
    [(fix_vehicles_table.file_path, content)]
    [[9989%N] ++ lit " CREATE TABLE vehicles updated with ALL fields!";
     lit "   - License disk fields: licenseDiskExpiry, lastRenewalDate, diskNumber";
     lit "   - KM tracking fields: currentKm, lastServiceKm, serviceIntervalKm, nextServiceKm"]
    Completed fs.
Proof.
  intros content fs. apply (fix_vehicles_table_no_table fs content).
  - apply lookup_singleton_eq.
  - let lines := eval vm_compute in (readlines content) in
    change (readlines content) with lines.
    each_line.
Defined.

(** X11: The new table definition opens with its own [await db.execute(] line,
    and the line in front of the old [CREATE TABLE vehicles(] line is
    kept.  So on its own result the loop does not come to rest: a second
    pass leaves one more [await db.execute(] line in front of the table. *)
Theorem fix_vehicles_table_second_pass (pre post : list str) :
  Forall (λ l, contains fix_vehicles_table.create_marker l = false) pre →
  Forall (λ l, contains fix_vehicles_table.create_marker l = false) post →
  fix_vehicles_table.patch (pre ++ fix_vehicles_table.new_table ++ post) =
  pre ++ [lit "    await db.execute('''
"] ++ fix_vehicles_table.new_table ++ post.
Proof.
  intros Hpre Hpost.
  pose (opening := lit "    await db.execute('''
").
  assert (∃ c body e,
            fix_vehicles_table.new_table = [opening] ++ [c] ++ body ++ [e]
            ∧ contains fix_vehicles_table.create_marker opening = false
            ∧ contains fix_vehicles_table.create_marker c = true
            ∧ forallb (λ l, negb (contains fix_vehicles_table.create_marker l)
                            && negb (contains fix_vehicles_table.end_marker l))
                body = true
            ∧ contains fix_vehicles_table.create_marker e = false
            ∧ contains fix_vehicles_table.end_marker e = true)
    as (c & body & e & E & Ho & Hc & Hbody & Hec & Hee).
  { exists (lit "      CREATE TABLE vehicles(
"), (take 18 (drop 2 fix_vehicles_table.new_table)), (lit "    ''');
").
    split; [reflexivity|]. repeat split; reflexivity. }
  rewrite E at 1. rewrite <- !app_assoc.
  rewrite (app_assoc pre [opening]).
  rewrite vehicles_patch_table; try done.
  - by rewrite <- app_assoc.
  - apply Forall_app_2; [done|]. by constructor.
  - apply Forall_forall. intros l Hl.
    rewrite forallb_forall in Hbody. apply list_elem_of_In, Hbody in Hl.
    apply andb_true_iff in Hl as [H1 H2].
    by rewrite negb_true_iff in H1, H2.
Qed.

Lemma fix_vehicles_table_second_pass_witness :
  fix_vehicles_table.patch
    ([lit "// schema
"] ++ fix_vehicles_table.new_table ++ [lit "// end
"]) =
  [lit "// schema
"] ++ [lit "    await db.execute('''
"] ++ fix_vehicles_table.new_table ++ [lit "// end
"].
Proof.
  apply (fix_vehicles_table_second_pass [lit "// schema
"] [lit "// end
"]); each_line.
Defined.

(** ** fix_expenses_table.py: a second pass *)




(** ** The scripts that look for a line: add_dashboard_card.py and
       add_settings_method.py *)

Lemma first_in_range_Some (test : nat → bool) (a n j : nat) :
  a ≤ j < a + n → test j = true →
  (∀ j', a ≤ j' < j → test j' = false) →
  first_in_range test (seq a n) = Some j.
Proof.
  revert a; induction n as [|n IH]; intros a Hj Ht Hmin; [lia|]. simpl.
  destruct (decide (a = j)) as [->|Hne]; [by rewrite Ht|].
  rewrite (Hmin a) by lia. apply IH; [lia|done|]. intros j' Hj'. apply Hmin. lia.
Qed.

Lemma first_in_range_None (test : nat → bool) (a n : nat) :
  (∀ j', a ≤ j' < a + n → test j' = false) →
  first_in_range test (seq a n) = None.
Proof.
  revert a; induction n as [|n IH]; intros a Hno; [done|]. simpl.
  rewrite (Hno a) by lia. apply IH. intros j' Hj'. apply Hno. lia.
Qed.

Lemma first_line_with_split (marker : str) (lines : list str) (i : nat) :
  first_line_with marker lines i →
  ∃ l, lines = take i lines ++ l :: drop (S i) lines
       ∧ Forall (λ x, contains marker x = false) (take i lines)
       ∧ contains marker l = true ∧ i < length lines.
Proof.
  intros [(l & Hi & Hl) Hbefore]. exists l.
  split; [by rewrite take_drop_middle|]. split; [|split; [done|]].
  - apply Forall_forall. intros x Hx.
    apply list_elem_of_lookup in Hx as [j Hj].
    apply lookup_take_Some in Hj as [Hj Hlt]. eauto.
  - by apply lookup_lt_Some in Hi.
Qed.

Section add_dashboard_card_facts.
Import add_dashboard_card.

Lemma dashboard_scan_early (lines rest : list str) (i : nat) :
  (∀ k l, rest !! k = Some l → contains finance_marker l = true →
          i + k ≤ 430) →
  scan_i lines rest i = None.
Proof.
  revert i; induction rest as [|l rest IH]; intros i H; [done|]. simpl.
  destruct (contains finance_marker l) eqn:Hl; simpl.
  - pose proof (H 0 l eq_refl Hl) as H0.
    assert ((430 <? i) = false) as -> by (apply Nat.ltb_ge; lia).
    apply IH. intros k l' Hk Hl'. specialize (H (S k) l' Hk Hl'). lia.
  - apply IH. intros k l' Hk Hl'. specialize (H (S k) l' Hk Hl'). lia.
Qed.

End add_dashboard_card_facts.

(** X13: add_dashboard_card.py looks at a line with
    ['onTap: _navigateToFinance,'] only when its index is above 430.  When
    every such line is among the first 431 lines (always so in a file of
    at most 431 lines) the script writes nothing and prints its failure
    line. *)
Theorem add_dashboard_card_early_marker (fs : gmap string str)
    (content : str) :
  fs !! add_dashboard_card.file_path = Some content →
  (∀ i l, readlines content !! i = Some l →
          contains add_dashboard_card.finance_marker l = true → i ≤ 430) →
  run add_dashboard_card.main fs =
  Outcome [] [[10060%N] ++ lit " Could not find insertion point"]
    Completed fs.
Proof.
  intros Hfs Hearly. unfold add_dashboard_card.main.
  rewrite (run_read _ _ _ _ Hfs).
  rewrite dashboard_scan_early; [done|].
  intros k l Hk Hl. exact (Hearly k l Hk Hl).
Qed.

Lemma add_dashboard_card_early_marker_witness :
  let content := lit "          onTap: _navigateToFinance,
        ),
      ],
    );
  }
" in
  let fs : gmap string str := {[ add_dashboard_card.file_path := content ]} in
  run add_dashboard_card.main fs =
  Outcome [] [[10060%N] ++ lit " Could not find insertion point"]
    Completed fs.
Proof.
  intros content fs. apply (add_dashboard_card_early_marker fs content).
  - apply lookup_singleton_eq.
  - intros i l Hi _. apply lookup_lt_Some in Hi.
    vm_compute in Hi. lia.
Defined.

Section add_settings_method_facts.
Import add_settings_method.

Lemma settings_scan_i (full pre rest : list str) (l : str) (i0 : nat) :
  Forall (λ x, contains notifications_marker x = false) pre →
  contains notifications_marker l = true →
  scan_i full (pre ++ l :: rest) i0 = scan_j full (i0 + length pre).
Proof.
  intros Hpre Hl. revert i0.
  induction Hpre as [|x pre Hx _ IH]; intros i0; simpl.
  - rewrite Hl. f_equal. lia.
  - rewrite Hx, IH. f_equal. lia.
Qed.

Lemma settings_scan_none (full rest : list str) (i0 : nat) :
  Forall (λ x, contains notifications_marker x = false) rest →
  scan_i full rest i0 = None.
Proof.
  intros H. revert i0. induction H as [|x rest Hx _ IH]; intros i0; simpl;
    [done|]. by rewrite Hx.
Qed.

Lemma settings_test_brace (lines : list str) (i j : nat) :
  str_eqb (strip (line_at lines j)) (lit "}") && (i + 5 <? j) = true
  ↔ brace_line lines j ∧ i + 5 < j.
Proof.
  unfold brace_line, line_at, str_eqb.
  rewrite andb_true_iff, bool_decide_eq_true, Nat.ltb_lt. split.
  - intros [Hs Hj]. split; [|done].
    destruct (lines !! j) as [l|] eqn:E; [by exists l|].
    simpl in Hs. discriminate Hs.
  - intros [(l & -> & Hs) Hj]. done.
Qed.

End add_settings_method_facts.

(** X14: add_settings_method.py takes the first line with
    ['/// Navigate to Notifications Screen'], say line [i], and the first
    closing-brace line among the lines [i+6 .. i+14]; it writes every line
    back, in order, with the text of the new method right behind that
    brace line. *)
Theorem add_settings_method_inserts (fs : gmap string str) (content : str)
    (i j : nat) :
  fs !! add_settings_method.file_path = Some content →
  first_line_with add_settings_method.notifications_marker
    (readlines content) i →
  i + 5 < j < i + 15 →
  brace_line (readlines content) j →
  (∀ j', i + 5 < j' < j → ¬ brace_line (readlines content) j') →
  run add_settings_method.main fs =
  Outcome
    [(add_settings_method.file_path,
      writelines (take (S j) (readlines content) ++
                  [add_settings_method.new_method] ++
                  drop (S j) (readlines content)))]
    [[9989%N] ++ lit " Added _navigateToSettings method!"]
    Completed
    (<[add_settings_method.file_path :=
         writelines (take (S j) (readlines content) ++
                     [add_settings_method.new_method] ++
                     drop (S j) (readlines content))]> fs).
Proof.
  intros Hfs Hi Hj Hbrace Hmin.
  unfold add_settings_method.main. rewrite (run_read _ _ _ _ Hfs).
  remember (readlines content) as lines eqn:El. clear El Hfs.
  destruct (first_line_with_split _ _ _ Hi) as (l & Es & Hpre & Hl & Hlen).
  assert (add_settings_method.scan_i lines lines 0 = Some (S j)) as ->.
  { rewrite Es at 2. rewrite (settings_scan_i _ _ _ _ _ Hpre Hl).
    rewrite length_take, Nat.min_l by lia. simpl.
    unfold add_settings_method.scan_j, range_nat.
    assert (j < length lines) as Hjlen.
    { destruct Hbrace as (x & Hx & _). by apply lookup_lt_Some in Hx. }
    rewrite (first_in_range_Some _ _ _ j).
    - f_equal. lia.
    - lia.
    - apply settings_test_brace. split; [done|lia].
    - intros j' Hj'. apply not_true_iff_false.
      intros [Hb Hgt]%settings_test_brace. apply (Hmin j'); [lia|done]. }
  reflexivity.
Qed.

Lemma add_settings_method_inserts_witness :
  let content := lit "  /// Navigate to Notifications Screen
  void _navigateToNotifications() {
    Navigator.push(
      context,
      MaterialPageRoute(
        builder: (context) => const NotificationsScreen()),
    );
  }
}
" in
  let fs : gmap string str := {[ add_settings_method.file_path := content ]} in
  writes (run add_settings_method.main fs) =
  [(add_settings_method.file_path,
    lit "  /// Navigate to Notifications Screen
  void _navigateToNotifications() {
    Navigator.push(
      context,
      MaterialPageRoute(
        builder: (context) => const NotificationsScreen()),
    );
  }
" ++ add_settings_method.new_method ++ lit "}
")].
Proof.
  intros content fs.
  rewrite (add_settings_method_inserts fs content 0 7).
  - reflexivity.
  - apply lookup_singleton_eq.
  - split.
    + eexists. split; reflexivity.
    + intros j l Hj. lia.
  - lia.
  - eexists. split; reflexivity.
  - intros j' Hj' (l & Hl & Hs). assert (j' = 6) as -> by lia.
    vm_compute in Hl. injection Hl as <-. vm_compute in Hs. discriminate Hs.
Defined.

(** X15: When no closing-brace line stands among the lines [i+6 .. i+14]
    behind the first marker line [i] (the method closes earlier, or later,
    or the file ends), or when no line has the marker,
    add_settings_method.py writes nothing and prints its failure line. *)
Theorem add_settings_method_no_place (fs : gmap string str) (content : str) :
  fs !! add_settings_method.file_path = Some content →
  (∀ i, first_line_with add_settings_method.notifications_marker
          (readlines content) i →
        ∀ j, i + 5 < j < i + 15 → ¬ brace_line (readlines content) j) →
  run add_settings_method.main fs =
  Outcome [] [[10060%N] ++ lit " Could not find insertion point"]
    Completed fs.
Proof.
  intros Hfs Hno.
  unfold add_settings_method.main. rewrite (run_read _ _ _ _ Hfs).
  remember (readlines content) as lines eqn:El. clear El Hfs.
  assert (add_settings_method.scan_i lines lines 0 = None) as ->; [|done].
  assert (Forall (λ x, contains add_settings_method.notifications_marker x
                       = false) lines
          ∨ ∃ i, first_line_with add_settings_method.notifications_marker
                   lines i) as [Hnone|[i Hi]].
  { clear Hno. induction lines as [|x lines [IH|[i IH]]].
    - by left.
    - destruct (contains add_settings_method.notifications_marker x) eqn:Hx.
      + right. exists 0. split; [by exists x|]. intros j l Hj. lia.
      + left. by constructor.
    - right.
      destruct (contains add_settings_method.notifications_marker x) eqn:Hx.
      + exists 0. split; [by exists x|]. intros j l Hj. lia.
      + exists (S i). destruct IH as [Hi Hbefore]. split; [done|].
        intros [|j] l Hj Hl; [by injection Hl as <-|].
        apply (Hbefore j); [lia|done]. }
  - by apply settings_scan_none.
  - destruct (first_line_with_split _ _ _ Hi) as (l & Es & Hpre & Hl & Hlen).
    rewrite Es at 2. rewrite (settings_scan_i _ _ _ _ _ Hpre Hl).
    rewrite length_take, Nat.min_l by lia. simpl.
    unfold add_settings_method.scan_j, range_nat.
    rewrite first_in_range_None; [done|].
    intros j' Hj'. apply not_true_iff_false.
    intros [Hb Hgt]%settings_test_brace. apply (Hno i Hi j'); [lia|done].
Qed.

Lemma add_settings_method_no_place_witness :
  let content := lit "  /// Navigate to Notifications Screen
  void _navigateToNotifications() {
    Navigator.pushNamed(context, '/notifications');
  }
}
" in
  let fs : gmap string str := {[ add_settings_method.file_path := content ]} in
  run add_settings_method.main fs =
  Outcome [] [[10060%N] ++ lit " Could not find insertion point"]
    Completed fs.
Proof.
  intros content fs. apply (add_settings_method_no_place fs content).
  - apply lookup_singleton_eq.
  - intros i _ j Hj (l & Hl & _). apply lookup_lt_Some in Hl.
    vm_compute in Hl. lia.
Defined.

(** ** remove_duplicates.py: every way it can end, and its own output *)

Section remove_duplicates_runs.
Import remove_duplicates.

(** The run on a file whose first marker line [l] has a line behind it. *)
Lemma remove_duplicates_run_split (fs : gmap string str) (content : str)
    (pre post : list str) (l x : str) :
  fs !! file_path = Some content →
  readlines content = pre ++ l :: x :: post →
  Forall (λ y, contains km_marker y = false) pre →
  contains km_marker l = true →
  run main fs =
  Outcome
    [(file_path, writelines (pre ++ [l] ++ [lit "}
"]))]
    [[9989%N] ++ lit " Removed duplicate KM methods starting at line " ++
       str_of_int (Z.of_nat (length pre + 2));
     lit "   File reduced from " ++
       str_of_int (Z.of_nat (length (readlines content))) ++
       lit " to " ++ str_of_int (Z.of_nat (length pre + 2)) ++ lit " lines"]
    Completed
    (<[file_path := writelines (pre ++ [l] ++ [lit "}
"])]> fs).
Proof.
  intros Hfs E Hpre Hl. unfold main. rewrite (run_read _ _ _ _ Hfs), E.
  rewrite (first_scan_found _ _ _ 0 None Hpre Hl).
  assert ((0 + Z.of_nat (length pre) =? -1)%Z = false) as ->
    by (apply Z.eqb_neq; lia).
  replace (0 + Z.of_nat (length pre) + 1)%Z
    with (Z.of_nat (length pre) + 1)%Z by lia.
  rewrite (second_scan_stale _ _ _ Hl)
    by (rewrite length_app; simpl; lia).
  assert ((Z.of_nat (S (length pre)) =? -1)%Z = false) as ->
    by (apply Z.eqb_neq; lia).
  rewrite Nat2Z.id.
  assert (take (S (length pre)) (pre ++ l :: x :: post) = pre ++ [l]) as ->.
  { rewrite take_app_ge by lia.
    replace (S (length pre) - length pre) with 1 by lia. done. }
  rewrite last_snoc.
  assert (str_eqb (strip l) (lit "}") = false) as ->.
  { apply bool_decide_eq_false. by apply km_line_not_brace. }
  cbn [negb run writes prints status files].
  rewrite !length_app. cbn [length].
  replace (Z.of_nat (S (length pre)) + 1)%Z
    with (Z.of_nat (length pre + 2)) by lia.
  replace (length pre + 1 + 1) with (length pre + 2) by lia.
  by rewrite <- app_assoc.
Qed.

(** The lines [readlines] gives, but for the last, end in their newline
    and hold no other. *)
Lemma readlines_from_terminated (s cur : str) (k : nat) (l : str) :
  10%N ∉ cur →
  readlines_from cur s !! k = Some l →
  S k < length (readlines_from cur s) →
  ∃ body, l = body ++ [10%N] ∧ 10%N ∉ body.
Proof.
  revert cur k; induction s as [|c s IH]; intros cur k Hcur; simpl.
  - destruct cur; simpl; intros _ H; lia.
  - destruct (N.eqb_spec c 10) as [->|Hc].
    + destruct k as [|k]; simpl.
      * intros [= <-] _. exists (rev cur). split; [done|].
        by rewrite list_elem_of_In, <- in_rev, <- list_elem_of_In.
      * intros Hk Hlen. apply (IH [] k); [apply not_elem_of_nil|done|lia].
    + apply IH. rewrite not_elem_of_cons. split; [done|done].
Qed.

Lemma readlines_from_line (body rest cur : str) :
  10%N ∉ body →
  readlines_from cur (body ++ 10%N :: rest) =
  (rev cur ++ body ++ [10%N]) :: readlines_from [] rest.
Proof.
  revert cur; induction body as [|b body IH]; intros cur Hb; simpl.
  - done.
  - apply not_elem_of_cons in Hb as [Hb1 Hb2].
    destruct (N.eqb_spec b 10) as [->|_]; [done|].
    rewrite IH by done. simpl. by rewrite <- !app_assoc.
Qed.

(** Lines that end in their only newline are read back as they were
    written. *)
Lemma readlines_writelines (ls : list str) :
  Forall (λ l, ∃ body, l = body ++ [10%N] ∧ 10%N ∉ body) ls →
  readlines (writelines ls) = ls.
Proof.
  induction 1 as [|l ls (body & -> & Hb) _ IH]; [done|].
  unfold readlines, writelines in *. simpl. rewrite <- app_assoc. simpl.
  rewrite readlines_from_line by done. simpl. by rewrite IH.
Qed.

End remove_duplicates_runs.

(** X16: remove_duplicates.py never dies of an exception on a file that is
    there, and its exit status is 1 exactly when no line has
    ['KM TRACKING OPERATIONS']: with the marker on the last line it prints
    "No duplicates found" and calls [exit(0)], with a line behind the first
    marker line it writes and falls off the end. *)
Theorem remove_duplicates_exit_status (fs : gmap string str) (content : str) :
  fs !! remove_duplicates.file_path = Some content →
  (∀ exn, status (run remove_duplicates.main fs) ≠ Raised exn)
  ∧ exit_status (status (run remove_duplicates.main fs)) =
    (if existsb (contains remove_duplicates.km_marker) (readlines content)
     then 0 else 1)%Z
  ∧ (∀ pre l,
       readlines content = pre ++ [l] →
       Forall (λ y, contains remove_duplicates.km_marker y = false) pre →
       contains remove_duplicates.km_marker l = true →
       run remove_duplicates.main fs =
       Outcome [] [[9989%N] ++ lit " No duplicates found"] (Exited 0) fs).
Proof.
  intros Hfs. split; [|split].
  - intros exn.
    destruct (km_line_split (readlines content))
      as [Hno|(pre & l & [|x post] & E & Hpre & Hl)].
    + by rewrite (remove_duplicates_no_marker _ _ Hfs Hno).
    + by rewrite (remove_duplicates_marker_last _ _ _ _ Hfs E Hpre Hl).
    + by rewrite (remove_duplicates_run_split _ _ _ _ _ _ Hfs E Hpre Hl).
  - destruct (km_line_split (readlines content))
      as [Hno|(pre & l & post & E & Hpre & Hl)].
    + rewrite (remove_duplicates_no_marker _ _ Hfs Hno).
      assert (existsb (contains remove_duplicates.km_marker)
                (readlines content) = false) as ->; [|done].
      apply not_true_iff_false. intros (y & Hy & Hm)%existsb_exists.
      rewrite Forall_forall in Hno. apply list_elem_of_In in Hy.
      by rewrite (Hno y Hy) in Hm.
    + assert (existsb (contains remove_duplicates.km_marker)
                (readlines content) = true) as ->.
      { apply existsb_exists. exists l. split; [|done].
        rewrite E. apply in_or_app. right. by left. }
      destruct post as [|x post].
      * by rewrite (remove_duplicates_marker_last _ _ _ _ Hfs E Hpre Hl).
      * by rewrite (remove_duplicates_run_split _ _ _ _ _ _ Hfs E Hpre Hl).
  - intros pre l E Hpre Hl.
    by apply (remove_duplicates_marker_last _ content pre l).
Qed.

Lemma remove_duplicates_exit_status_witness :
  let content := lit "class DatabaseHelper {
  // KM TRACKING OPERATIONS" in
  let fs : gmap string str := {[ remove_duplicates.file_path := content ]} in
  (∀ exn, status (run remove_duplicates.main fs) ≠ Raised exn)
  ∧ exit_status (status (run remove_duplicates.main fs)) = 0%Z
  ∧ run remove_duplicates.main fs =
    Outcome [] [[9989%N] ++ lit " No duplicates found"] (Exited 0) fs.
Proof.
  intros content fs.
  destruct (remove_duplicates_exit_status fs content) as (Hexn & Hstatus & Hlast).
  - apply lookup_singleton_eq.
  - split; [exact Hexn|]. split; [exact Hstatus|].
    apply (Hlast [lit "class DatabaseHelper {
"] (lit "  // KM TRACKING OPERATIONS")); [reflexivity|each_line|reflexivity].
Defined.

(** X17: What remove_duplicates.py writes is a text it does not change any
    more: run on its own output it cuts at the same line and writes the
    same text (and reports once more that it removed duplicates). *)
Theorem remove_duplicates_rerun (fs : gmap string str) (content : str)
    (i : nat) :
  fs !! remove_duplicates.file_path = Some content →
  first_km_line (readlines content) i →
  S i < length (readlines content) →
  writes (run remove_duplicates.main (files (run remove_duplicates.main fs)))
  = writes (run remove_duplicates.main fs)
  ∧ status (run remove_duplicates.main
              (files (run remove_duplicates.main fs))) = Completed.
Proof.
  intros Hfs Hi Hlen.
  set (lines := readlines content) in *.
  destruct (first_line_with_split remove_duplicates.km_marker lines i)
    as (l & Es & Hpre & Hl & _); [exact Hi|].
  destruct (drop (S i) lines) as [|x post] eqn:Ed.
  { apply (f_equal length) in Ed. rewrite length_drop in Ed. simpl in Ed. lia. }
  assert (length (take i lines) = i) as Hlpre
    by (rewrite length_take; lia).
  assert (∀ k y, lines !! k = Some y → S k < length lines →
                 ∃ body, y = body ++ [10%N] ∧ 10%N ∉ body) as Hterm.
  { intros k y Hk Hlt.
    by apply (readlines_from_terminated content [] k y);
      [apply not_elem_of_nil| |]. }
  rewrite (remove_duplicates_run_split _ _ (take i lines) post l x Hfs Es
             Hpre Hl).
  cbn [files writes].
  set (out := take i lines ++ [l] ++ [lit "}
"]).
  assert (readlines (writelines out) = take i lines ++ l :: lit "}
" :: []) as Eout.
  { unfold out. rewrite readlines_writelines; [reflexivity|].
    apply Forall_app_2; [|apply Forall_app_2].
    - apply Forall_forall. intros y Hy.
      apply list_elem_of_lookup in Hy as [k Hk].
      apply lookup_take_Some in Hk as [Hk Hlt].
      apply (Hterm k y Hk). lia.
    - constructor; [|constructor].
      apply (Hterm i l); [|lia].
      rewrite Es, lookup_app_r by lia. by rewrite Hlpre, Nat.sub_diag.
    - constructor; [|constructor]. exists (lit "}"). split; [done|].
      by intros [=]%list_elem_of_singleton. }
  rewrite (remove_duplicates_run_split _ (writelines out) (take i lines) []
             l (lit "}
")); [done|apply lookup_insert_eq|exact Eout|exact Hpre|exact Hl].
Qed.

Lemma remove_duplicates_rerun_witness :
  let content := lit "class DatabaseHelper {
  // KM TRACKING OPERATIONS
  Future<int> addKmRecord(KmRecord record) async => 0;
}
" in
  let fs : gmap string str := {[ remove_duplicates.file_path := content ]} in
  writes (run remove_duplicates.main (files (run remove_duplicates.main fs)))
  = writes (run remove_duplicates.main fs)
  ∧ status (run remove_duplicates.main
              (files (run remove_duplicates.main fs))) = Completed.
Proof.
  intros content fs. apply (remove_duplicates_rerun fs content 1).
  - apply lookup_singleton_eq.
  - split.
    + eexists. split; reflexivity.
    + intros j l Hj Hl. assert (j = 0) as -> by lia.
      injection Hl as <-. reflexivity.
  - vm_compute. lia.
Defined.

(** ** add_km_db_methods.py, then remove_duplicates.py *)

Lemma readlines_from_app_newline (a b cur : str) :
  readlines_from cur (a ++ 10%N :: b) =
  readlines_from cur (a ++ [10%N]) ++ readlines_from [] b.
Proof.
  revert cur; induction a as [|c a IH]; intros cur; simpl.
  - done.
  - destruct (N.eqb c 10); [by rewrite IH|apply IH].
Qed.

Lemma readlines_app_newline (a b : str) :
  readlines (a ++ 10%N :: b) = readlines (a ++ [10%N]) ++ readlines b.
Proof. apply readlines_from_app_newline. Qed.

(** A line of a text is a piece of the text. *)
Lemma readlines_contains (sub s l : str) :
  l ∈ readlines s → contains sub l = true → contains sub s = true.
Proof.
  intros Hl Hsub. apply (contains_trans _ l); [done|].
  rewrite <- (writelines_readlines s). unfold writelines.
  apply list_elem_of_split in Hl as (l1 & l2 & ->).
  rewrite concat_app. simpl.
  apply contains_app_r, contains_app_l, contains_refl.
Qed.

Lemma contains_snoc (sub s : str) (c : N) :
  c ∉ sub → sub ≠ [] →
  contains sub (s ++ [c]) = true → contains sub s = true.
Proof.
  intros Hc Hne (pre & post & E)%contains_iff. apply contains_iff.
  induction post as [|c' post' _] using rev_ind.
  - rewrite app_nil_r in E.
    induction sub as [|c'' sub' _] using rev_ind; [done|].
    rewrite app_assoc in E. apply app_inj_tail in E as [_ <-].
    exfalso. apply Hc. set_solver.
  - rewrite !app_assoc in E. apply app_inj_tail in E as [E _].
    exists pre, post'. by rewrite E, <- app_assoc.
Qed.

Section km_then_remove.
Import add_km_db_methods.

Lemma km_methods_lines (closing : str) :
  closing = lit "
}" ∨ closing = [] →
  ∃ x post,
    km_methods = 10%N :: drop 1 km_methods
    ∧ readlines (drop 1 km_methods ++ closing) =
      lit "  // ============================================================================
" :: lit "  // KM TRACKING OPERATIONS
" :: x :: post.
Proof.
  intros [->| ->]; do 2 eexists; (split; [reflexivity|]);
    vm_compute; reflexivity.
Qed.

Lemma km_then_remove_text (text closing : str) :
  contains remove_duplicates.km_marker text = false →
  closing = lit "
}" ∨ closing = [] →
  ∃ pre x post,
    readlines (text ++ km_methods ++ closing) =
      pre ++ lit "  // KM TRACKING OPERATIONS
" :: x :: post
    ∧ Forall (λ y, contains remove_duplicates.km_marker y = false) pre
    ∧ writelines pre = text ++ lit "
  // ============================================================================
".
Proof.
  intros Htext Hclosing.
  destruct (km_methods_lines closing Hclosing) as (x & post & Ek & El).
  remember (drop 1 km_methods) as K eqn:EK. clear EK.
  exists (readlines (text ++ [10%N]) ++
          [lit "  // ============================================================================
"]), x, post.
  split; [|split].
  - rewrite Ek.
    change (text ++ (10%N :: K) ++ closing)
      with (text ++ 10%N :: (K ++ closing)).
    rewrite readlines_app_newline, El. by rewrite <- app_assoc.
  - apply Forall_app_2; [|by repeat constructor].
    apply Forall_forall. intros y Hy. apply not_true_iff_false. intros Hm.
    pose proof (readlines_contains _ _ _ Hy Hm) as Hin.
    apply contains_snoc in Hin; [by rewrite Htext in Hin| |done].
    vm_compute. intros H. repeat (apply elem_of_cons in H as [H|H]; [done|]).
    by apply elem_of_nil in H.
  - unfold writelines. rewrite concat_app.
    change (concat (readlines (text ++ [10%N])))
      with (writelines (readlines (text ++ [10%N]))).
    rewrite writelines_readlines. cbn [concat]. rewrite app_nil_r.
    rewrite <- app_assoc. f_equal.
Qed.

End km_then_remove.

(** X18: remove_duplicates.py, run on a file to which add_km_db_methods.py has
    just added the KM methods for the first time, cuts the file behind
    the section heading: of the whole block only the two heading lines
    stay, and none of the methods. *)
Theorem km_methods_then_remove_duplicates (fs : gmap string str)
    (content : str) :
  fs !! add_km_db_methods.file_path = Some content →
  contains remove_duplicates.km_marker
    (add_km_db_methods.add_imports content) = false →
  let stripped := rstrip (add_km_db_methods.add_imports content) in
  let kept :=
    if ends_with (lit "}") stripped
    then take (length stripped - 1) stripped else stripped in
  writes (run remove_duplicates.main
            (files (run add_km_db_methods.main fs))) =
  [(remove_duplicates.file_path,
    kept ++ lit "
  // ============================================================================
  // KM TRACKING OPERATIONS
}
")].
Proof.
  intros Hfs Hmarker stripped kept.
  assert (contains remove_duplicates.km_marker stripped = false) as Hs.
  { apply not_true_iff_false. intros H.
    destruct (rstrip_split (add_km_db_methods.add_imports content))
      as (w & E & _).
    rewrite E, (contains_app_l _ _ _ H) in Hmarker. done. }
  assert (contains remove_duplicates.km_marker kept = false) as Hk.
  { unfold kept. destruct (ends_with (lit "}") stripped); [|done].
    apply not_true_iff_false. intros H.
    rewrite <- (take_drop (length stripped - 1) stripped) in Hs.
    by rewrite (contains_app_l _ _ _ H) in Hs. }
  assert (∃ closing, (closing = lit "
}" ∨ closing = []) ∧
            add_km_db_methods.patch content =
            kept ++ add_km_db_methods.km_methods ++ closing)
    as (closing & Hclosing & Epatch).
  { unfold add_km_db_methods.patch, add_km_db_methods.add_methods.
    fold stripped. unfold kept.
    destruct (ends_with (lit "}") stripped).
    - exists (lit "
}"). split; [by left|done].
    - exists []. split; [by right|]. by rewrite app_nil_r. }
  destruct (km_then_remove_text kept closing Hk Hclosing)
    as (pre & x & post & El & Hpre & Ew).
  unfold add_km_db_methods.main at 1. rewrite (run_read _ _ _ _ Hfs).
  cbn [run files]. rewrite Epatch.
  rewrite (remove_duplicates_run_split _ _ pre post _ x
             (lookup_insert_eq _ _ _) El Hpre eq_refl).
  cbn [writes]. do 2 f_equal. unfold writelines in *.
  rewrite concat_app, Ew. simpl. by rewrite <- !app_assoc.
Qed.

Lemma km_methods_then_remove_duplicates_witness :
  let content := lit "import 'package:a_one_bakeries_app/models/supplier_model.dart';
class DatabaseHelper {
  Future<int> addSupplier(Supplier s) async => 0;
}
" in
  let fs : gmap string str := {[ add_km_db_methods.file_path := content ]} in
  writes (run remove_duplicates.main
            (files (run add_km_db_methods.main fs))) =
  [(remove_duplicates.file_path,
    lit "import 'package:a_one_bakeries_app/models/supplier_model.dart';
import 'package:a_one_bakeries_app/models/km_record_model.dart';
import 'package:a_one_bakeries_app/models/service_record_model.dart';
class DatabaseHelper {
  Future<int> addSupplier(Supplier s) async => 0;

  // ============================================================================
  // KM TRACKING OPERATIONS
}
")].
Proof.
  intros content fs.
  rewrite (km_methods_then_remove_duplicates fs content).
  - vm_compute. reflexivity.
  - apply lookup_singleton_eq.
  - reflexivity.
Defined.

(** ** Files that are not there, and files that are not the script's *)

Lemma opens_first_missing (path : string) (p : prog) (fs : gmap string str) :
  opens_first path p → fs !! path = None →
  writes (run p fs) = []
  ∧ status (run p fs) = Raised "FileNotFoundError"
  ∧ files (run p fs) = fs.
Proof.
  intros Hp Hnone. induction Hp as [k|text k _ IH].
  - by rewrite (run_read_missing _ _ _ Hnone).
  - destruct IH as (Hw & Hs & Hf). by cbn [run writes status files].
Qed.

Lemma scripts_open_first (re : re_module) (s : script) (path : string) :
  s ∈ scripts re →
  script_name s ≠ "update_expense_schema.py"%string →
  head (script_paths s) = Some path →
  opens_first path (script_body s).
Proof.
  intros H Hn Hp.
  each_script H; try (exfalso; apply Hn; reflexivity);
    cbn [head script_paths] in Hp; injection Hp as <-;
    unfold_mains; repeat constructor.
Qed.

(** X19: A script whose file is missing dies of [FileNotFoundError] before it
    has written anything; the files stay as they are.  (Of a script with
    two files this is the first; update_expense_schema.py never comes as
    far as opening a file.) *)
Theorem scripts_missing_file (re : re_module) (s : script)
    (fs : gmap string str) :
  s ∈ scripts re →
  script_name s ≠ "update_expense_schema.py"%string →
  (∃ path, head (script_paths s) = Some path ∧ fs !! path = None) →
  writes (run (script_body s) fs) = []
  ∧ status (run (script_body s) fs) = Raised "FileNotFoundError"
  ∧ files (run (script_body s) fs) = fs.
Proof.
  intros H Hn (path & Hp & Hnone).
  apply (opens_first_missing path); [|done].
  by apply (scripts_open_first re).
Qed.

Lemma scripts_missing_file_witness :
  let re := ReModule (λ _ _ content _, content) (λ _ _ content, content)
              (λ _ _, []) in
  let s := Script "add_km_to_vehicle.py" [add_km_to_vehicle.file_path]
             (add_km_to_vehicle.main re) in
  let fs : gmap string str :=
    {[ "lib/models/driver_model.dart"%string := lit "class Driver {}" ]} in
  writes (run (script_body s) fs) = []
  ∧ status (run (script_body s) fs) = Raised "FileNotFoundError"
  ∧ files (run (script_body s) fs) = fs.
Proof.
  intros re s fs. apply (scripts_missing_file re s fs).
  - unfold scripts. do 6 right. left.
  - done.
  - exists add_km_to_vehicle.file_path. split; reflexivity.
Defined.

(** X20: No script touches a file other than the ones hardcoded in it: after a
    run every other path holds what it held before. *)
Theorem scripts_leave_other_files (re : re_module) (s : script)
    (fs : gmap string str) (path : string) :
  s ∈ scripts re →
  path ∉ script_paths s →
  files (run (script_body s) fs) !! path = fs !! path.
Proof.
  intros Hs Hpath. by apply (confined_frame _ _ (scripts_confined re s Hs)).
Qed.

Lemma scripts_leave_other_files_witness :
  let re := ReModule (λ _ _ content _, content) (λ _ _ content, content)
              (λ _ _, []) in
  let s := Script "fix_reports.py"
             [fix_reports.stock_path; fix_reports.employee_path]
             fix_reports.main in
  let fs : gmap string str :=
    {[ fix_reports.stock_path := lit "// stock";
       fix_reports.employee_path := lit "// employee";
       "lib/main.dart"%string := lit "void main() {}" ]} in
  files (run (script_body s) fs) !! "lib/main.dart"%string
  = Some (lit "void main() {}").
Proof.
  intros re s fs.
  rewrite (scripts_leave_other_files re s fs "lib/main.dart").
  - reflexivity.
  - unfold scripts. do 14 right. left.
  - intros H. repeat (apply elem_of_cons in H as [H|H]; [discriminate H|]).
    by apply elem_of_nil in H.
Defined.

(** X21: The scripts with two files patch them one after the other and have
    nothing to undo the first when the second fails: with the second file
    missing, the first one is rewritten and reported, then the script dies
    of [FileNotFoundError]. *)
Theorem two_file_scripts_half_done (re : re_module) :
  (∀ (fs : gmap string str) (supplier : str),
     fs !! add_final_reports.supplier_path = Some supplier →
     fs !! add_final_reports.orders_path = None →
     run add_final_reports.main fs =
     Outcome
       [(add_final_reports.supplier_path,
         add_final_reports.patch_supplier supplier)]
       [[10003%N] ++ lit " Updated supplier_screen.dart"]
       (Raised "FileNotFoundError")
       (<[add_final_reports.supplier_path :=
            add_final_reports.patch_supplier supplier]> fs))
  ∧ (∀ (fs : gmap string str) (stock : str),
       fs !! fix_reports.stock_path = Some stock →
       fs !! fix_reports.employee_path = None →
       run fix_reports.main fs =
       Outcome
         [(fix_reports.stock_path, fix_reports.patch_stock stock)]
         [[10003%N] ++ lit " Updated stock_screen.dart"]
         (Raised "FileNotFoundError")
         (<[fix_reports.stock_path := fix_reports.patch_stock stock]> fs))
  ∧ (∀ (fs : gmap string str) (supplier : str),
       fs !! fix_new_reports.supplier_path = Some supplier →
       fs !! fix_new_reports.orders_path = None →
       run (fix_new_reports.main re) fs =
       Outcome
         [(fix_new_reports.supplier_path,
           fix_new_reports.patch_supplier re supplier)]
         [[10003%N] ++ lit " Fixed supplier_report_screen.dart"]
         (Raised "FileNotFoundError")
         (<[fix_new_reports.supplier_path :=
              fix_new_reports.patch_supplier re supplier]> fs)).
Proof.
  split; [|split]; intros fs first Hfirst Hsecond.
  - unfold add_final_reports.main. rewrite (run_read _ _ _ _ Hfirst).
    cbn [run]. rewrite lookup_insert_ne by done. by rewrite Hsecond.
  - unfold fix_reports.main. rewrite (run_read _ _ _ _ Hfirst).
    cbn [run]. rewrite lookup_insert_ne by done. by rewrite Hsecond.
  - unfold fix_new_reports.main. rewrite (run_read _ _ _ _ Hfirst).
    cbn [run]. rewrite lookup_insert_ne by done. by rewrite Hsecond.
Qed.

Lemma two_file_scripts_half_done_witness :
  let re := ReModule (λ _ _ content _, content) (λ _ _ content, content)
              (λ _ _, []) in
  let fs : gmap string str :=
    {[ fix_reports.stock_path := lit "// stock screen" ]} in
  run fix_reports.main fs =
  Outcome
    [(fix_reports.stock_path, lit "// stock screen")]
    [[10003%N] ++ lit " Updated stock_screen.dart"]
    (Raised "FileNotFoundError")
    (<[fix_reports.stock_path := lit "// stock screen"]> fs).
Proof.
  intros re fs.
  destruct (two_file_scripts_half_done re) as (_ & Hreports & _).
  rewrite (Hreports fs (lit "// stock screen")); reflexivity.
Defined.

(** ** add_km_to_vehicle.py: locators with carriage returns *)

Lemma contains_elem_of (sub s : str) (c : N) :
  contains sub s = true → c ∈ sub → c ∈ s.
Proof. intros (pre & post & ->)%contains_iff Hc. set_solver. Qed.

Lemma replace_without_cr (old new s : str) :
  13%N ∈ old → 13%N ∉ s → replace old new s = s.
Proof.
  intros Hold Hs. apply replace_absent, not_true_iff_false.
  intros H. apply Hs. by apply (contains_elem_of old).
Qed.

Lemma elem_of_lit_cr (s : str) :
  existsb (N.eqb 13) s = true → 13%N ∈ s.
Proof.
  intros (c & Hc & ->%N.eqb_eq)%existsb_exists. by apply list_elem_of_In.
Qed.

(** X22: Every locator of the seven [replace] calls of add_km_to_vehicle.py
    holds a carriage return.  On a text without carriage returns (all that
    Python's text mode hands to a script) none of them applies: what the
    script writes is the result of its [re.sub] call, with the
    [ServiceStatus] enum appended if it is not there. *)
Theorem add_km_to_vehicle_replacements_idle (re : re_module)
    (vehicle_content : str) :
  13%N ∉ vehicle_content →
  let substituted :=
    re_sub re (lit "(  DiskStatus get diskStatus \{[^}]+\})")
      (lit "\1" ++ add_km_to_vehicle.service_properties)
      vehicle_content [DOTALL] in
  13%N ∉ substituted →
  add_km_to_vehicle.patch re vehicle_content =
  if negb (contains (lit "enum ServiceStatus") substituted)
  then rstrip substituted ++ add_km_to_vehicle.service_status_enum
  else substituted.
Proof.
  intros Hcr substituted Hsub. unfold add_km_to_vehicle.patch.
  rewrite !(replace_without_cr _ _ vehicle_content)
    by (done || by apply elem_of_lit_cr).
  fold substituted.
  rewrite !(replace_without_cr _ _ substituted)
    by (done || by apply elem_of_lit_cr).
  done.
Qed.

Lemma add_km_to_vehicle_replacements_idle_witness :
  let re := ReModule (λ _ _ content _, content) (λ _ _ content, content)
              (λ _ _, []) in
  let vehicle_content := lit "  final String? diskNumber;           // Optional disk reference number

  /// Timestamp when the vehicle record was created.
" in
  add_km_to_vehicle.patch re vehicle_content =
  lit "  final String? diskNumber;           // Optional disk reference number

  /// Timestamp when the vehicle record was created." ++
  add_km_to_vehicle.service_status_enum.
Proof.
  intros re vehicle_content.
  rewrite (add_km_to_vehicle_replacements_idle re vehicle_content).
  - reflexivity.
  - intros H. repeat (apply elem_of_cons in H as [H|H]; [discriminate H|]).
    by apply elem_of_nil in H.
  - intros H. repeat (apply elem_of_cons in H as [H|H]; [discriminate H|]).
    by apply elem_of_nil in H.
Defined.

(** ** Second runs of the scripts with several replacements *)

Lemma contains_drop_false (sub s : str) (k : nat) :
  contains sub s = false → contains sub (drop k s) = false.
Proof.
  intros Hs. apply not_true_iff_false. intros [p Hp]%contains_at.
  rewrite drop_drop in Hp. apply contains_drop in Hp. by rewrite Hs in Hp.
Qed.

(** A text without [sub] has none after [s.replace(old, new)] either, when
    no match of [sub] can begin in front of, or inside, a [new]. *)
Lemma replace_keeps_absent (sub old new : str) :
  old ≠ [] → clean_borders sub new = true →
  ∀ s, contains sub s = false → contains sub (replace old new s) = false.
Proof.
  intros Hold [B1 B2]%andb_true_iff.
  rewrite forallb_forall in B1. rewrite forallb_forall in B2.
  intros s. remember (length s) as n eqn:Hn.
  revert s Hn. induction (lt_wf n) as [n _ IH]. intros s -> Hsub.
  destruct (contains old s) eqn:Hs; [|by rewrite replace_absent].
  destruct (find_is_Some _ _ Hs) as [i Hi].
  rewrite (replace_find _ _ _ _ Hold Hi).
  pose proof (find_Some_split _ _ _ Hi) as Es.
  assert (0 < length old) as Hpos by (destruct old; [done|simpl; lia]).
  assert (i + length old ≤ length s) as Hlen.
  { pose proof (f_equal length Es) as El.
    rewrite !length_app, length_take, length_drop in El. lia. }
  set (post := drop (i + length old) s) in *.
  assert (contains sub (replace old new post) = false) as Hr.
  { apply (IH (length post)); [|done|].
    - unfold post. rewrite length_drop. lia.
    - by apply contains_drop_false. }
  apply not_true_iff_false. intros [p Hp]%contains_at.
  assert (length (take i s) = i) as Hpre by (rewrite length_take; lia).
  assert (∀ r, starts_with sub (drop p (take i s) ++ r) = true →
               starts_with sub (drop p (take i s)) = false) as Hin.
  { intros r _. apply not_true_iff_false. intros Hc.
    apply contains_drop in Hc.
    assert (contains sub s = true) as Hc'; [|by rewrite Hsub in Hc'].
    eapply contains_trans; [exact Hc|]. apply contains_iff.
    exists [], (old ++ post). exact Es. }
  destruct (decide (p < i)) as [Hlt|Hge].
  - rewrite drop_app_le in Hp by lia.
    pose proof (Hin _ Hp) as Hno.
    apply starts_with_app_inv in Hp as [Hp|[Hu Hv]];
      [by rewrite Hp in Hno|].
    rewrite length_drop, Hpre in Hv.
    pose proof (starts_with_length _ _ Hu) as Hk.
    rewrite length_drop, Hpre in Hk.
    destruct (decide (i - p = length sub)) as [Heq|Hne].
    + assert (sub = drop p (take i s)) as Eo.
      { symmetry. apply starts_with_antisym; [done|].
        rewrite length_drop, Hpre. lia. }
      rewrite <- Eo in Hno.
      pose proof (starts_with_app sub []) as Hs'.
      rewrite app_nil_r in Hs'. by rewrite Hs' in Hno.
    + apply starts_with_overlap in Hv.
      specialize (B1 (i - p)). rewrite Hv in B1.
      discriminate B1. apply in_seq. lia.
  - rewrite drop_app_ge, Hpre in Hp by lia.
    destruct (decide (p - i < length new)) as [Hin'|Hout].
    + rewrite drop_app_le in Hp by lia.
      apply starts_with_overlap in Hp.
      specialize (B2 (p - i)). rewrite Hp in B2.
      discriminate B2. apply in_seq. lia.
    + rewrite drop_app_ge in Hp by lia.
      apply contains_drop in Hp. by rewrite Hr in Hp.
Qed.

Ltac borders := first [done | vm_compute; reflexivity].

Ltac gone :=
  first [ apply replace_removes_old; borders
        | apply replace_keeps_absent; [borders|borders|gone] ].

Lemma make_notes_optional_gone (content : str) :
  let done := make_notes_optional.patch content in
  contains make_notes_optional.old_label done = false
  ∧ contains make_notes_optional.old_validation done = false
  ∧ contains make_notes_optional.old_parse done = false
  ∧ contains make_notes_optional.old_preview done = false.
Proof.
  unfold make_notes_optional.patch. repeat split; gone.
Qed.

(** X23: make_notes_optional.py is idempotent: after a run none of its four
    old texts is left in the file, the four replacements do nothing to the
    text it wrote, and a second run writes that text again. *)
Theorem make_notes_optional_rerun (fs : gmap string str) (content : str) :
  fs !! make_notes_optional.file_path = Some content →
  let done := make_notes_optional.patch content in
  (contains make_notes_optional.old_label done = false
   ∧ contains make_notes_optional.old_validation done = false
   ∧ contains make_notes_optional.old_parse done = false
   ∧ contains make_notes_optional.old_preview done = false)
  ∧ make_notes_optional.patch done = done
  ∧ run make_notes_optional.main (files (run make_notes_optional.main fs)) =
    run make_notes_optional.main fs.
Proof.
  intros Hfs done.
  pose proof (make_notes_optional_gone content) as Hgone.
  fold done in Hgone. cbv zeta in Hgone.
  destruct Hgone as (H1 & H2 & H3 & H4).
  assert (make_notes_optional.patch done = done) as Hid.
  { unfold make_notes_optional.patch.
    by rewrite (replace_absent _ _ _ H1), (replace_absent _ _ _ H2),
      (replace_absent _ _ _ H3), (replace_absent _ _ _ H4). }
  split; [done|]. split; [exact Hid|].
  rewrite (make_notes_optional_run _ _ Hfs). cbn [files].
  rewrite (make_notes_optional_run _ done) by apply lookup_insert_eq.
  fold done. by rewrite Hid, insert_insert_eq.
Qed.

Lemma make_notes_optional_rerun_witness :
  let content :=
    lit "  labelText: 'Notes (Paper Money)',
  notes: double.parse(_notesController.text.trim()),
" in
  let fs : gmap string str := {[ make_notes_optional.file_path := content ]} in
  let done := make_notes_optional.patch content in
  (contains make_notes_optional.old_label done = false
   ∧ contains make_notes_optional.old_validation done = false
   ∧ contains make_notes_optional.old_parse done = false
   ∧ contains make_notes_optional.old_preview done = false)
  ∧ make_notes_optional.patch done = done
  ∧ run make_notes_optional.main (files (run make_notes_optional.main fs)) =
    run make_notes_optional.main fs.
Proof.
  intros content fs. apply (make_notes_optional_rerun fs content).
  apply lookup_singleton_eq.
Defined.

Lemma update_vehicle_cards_km_gone (content : str) :
  let done := update_vehicle_cards_km.patch content in
  contains update_vehicle_cards_km.old_card_section done = false
  ∧ contains update_vehicle_cards_km.old_popup_menu done = false
  ∧ contains update_vehicle_cards_km.old_onselected done = false.
Proof.
  unfold update_vehicle_cards_km.patch. repeat split; gone.
Qed.

(** X24: update_vehicle_cards_km.py is idempotent: after a run none of its
    three old texts is left, so the patch does nothing to the text it
    produced and a second run leaves the file as the first one left it. *)
Theorem update_vehicle_cards_km_rerun (fs : gmap string str) (content : str) :
  fs !! update_vehicle_cards_km.file_path = Some content →
  let done := update_vehicle_cards_km.patch content in
  (contains update_vehicle_cards_km.old_card_section done = false
   ∧ contains update_vehicle_cards_km.old_popup_menu done = false
   ∧ contains update_vehicle_cards_km.old_onselected done = false)
  ∧ update_vehicle_cards_km.patch done = done
  ∧ run update_vehicle_cards_km.main
      (files (run update_vehicle_cards_km.main fs)) =
    run update_vehicle_cards_km.main fs.
Proof.
  intros Hfs done.
  pose proof (update_vehicle_cards_km_gone content) as Hgone.
  fold done in Hgone. cbv zeta in Hgone.
  destruct Hgone as (H1 & H2 & H3).
  assert (update_vehicle_cards_km.patch done = done) as Hid.
  { unfold update_vehicle_cards_km.patch.
    by rewrite (replace_absent _ _ _ H1), (replace_absent _ _ _ H2),
      (replace_absent _ _ _ H3). }
  split; [done|]. split; [exact Hid|].
  unfold update_vehicle_cards_km.main.
  rewrite (run_read _ _ _ _ Hfs). cbn [files].
  rewrite (run_read _ _ _ done) by apply lookup_insert_eq.
  fold done. rewrite Hid. cbn [run files writes prints status].
  by rewrite insert_insert_eq.
Qed.

Lemma update_vehicle_cards_km_rerun_witness :
  let content := update_vehicle_cards_km.old_onselected in
  let fs : gmap string str :=
    {[ update_vehicle_cards_km.file_path := content ]} in
  let done := update_vehicle_cards_km.patch content in
  (contains update_vehicle_cards_km.old_card_section done = false
   ∧ contains update_vehicle_cards_km.old_popup_menu done = false
   ∧ contains update_vehicle_cards_km.old_onselected done = false)
  ∧ update_vehicle_cards_km.patch done = done
  ∧ run update_vehicle_cards_km.main
      (files (run update_vehicle_cards_km.main fs)) =
    run update_vehicle_cards_km.main fs.
Proof.
  intros content fs. apply (update_vehicle_cards_km_rerun fs content).
  apply lookup_singleton_eq.
Defined.

Lemma update_db_v6_gone (content : str) :
  let done := update_db_v6.patch content in
  contains (lit "version: 5,  // " ++ [8592%N] ++ lit " UPDATED: Changed from 3 to 5") done = false
  ∧ contains update_db_v6.old_create_vehicles done = false
  ∧ contains update_db_v6.old_upgrade_end done = false.
Proof.
  unfold update_db_v6.patch. repeat split; gone.
Qed.

(** X25: update_db_v6.py is idempotent: after a run the version line 5, the old
    vehicles table and the old end of the upgrade method are gone, so the
    patch does nothing to the text it produced and a second run leaves the
    file as the first one left it. *)
Theorem update_db_v6_rerun (fs : gmap string str) (content : str) :
  fs !! update_db_v6.file_path = Some content →
  let done := update_db_v6.patch content in
  (contains (lit "version: 5,  // " ++ [8592%N] ++ lit " UPDATED: Changed from 3 to 5") done = false
   ∧ contains update_db_v6.old_create_vehicles done = false
   ∧ contains update_db_v6.old_upgrade_end done = false)
  ∧ update_db_v6.patch done = done
  ∧ run update_db_v6.main (files (run update_db_v6.main fs)) =
    run update_db_v6.main fs.
Proof.
  intros Hfs done.
  pose proof (update_db_v6_gone content) as Hgone.
  fold done in Hgone. cbv zeta in Hgone.
  destruct Hgone as (H1 & H2 & H3).
  assert (update_db_v6.patch done = done) as Hid.
  { unfold update_db_v6.patch.
    by rewrite (replace_absent _ _ _ H1), (replace_absent _ _ _ H2),
      (replace_absent _ _ _ H3). }
  split; [done|]. split; [exact Hid|].
  unfold update_db_v6.main.
  rewrite (run_read _ _ _ _ Hfs). cbn [files].
  rewrite (run_read _ _ _ done) by apply lookup_insert_eq.
  fold done. rewrite Hid. cbn [run files writes prints status].
  by rewrite insert_insert_eq.
Qed.

Lemma update_db_v6_rerun_witness :
  let content :=
    lit "  version: 5,  // " ++ [8592%N] ++ lit " UPDATED: Changed from 3 to 5
" in
  let fs : gmap string str := {[ update_db_v6.file_path := content ]} in
  let done := update_db_v6.patch content in
  (contains (lit "version: 5,  // " ++ [8592%N] ++ lit " UPDATED: Changed from 3 to 5") done = false
   ∧ contains update_db_v6.old_create_vehicles done = false
   ∧ contains update_db_v6.old_upgrade_end done = false)
  ∧ update_db_v6.patch done = done
  ∧ run update_db_v6.main (files (run update_db_v6.main fs)) =
    run update_db_v6.main fs.
Proof.
  intros content fs. apply (update_db_v6_rerun fs content).
  apply lookup_singleton_eq.
Defined.
